(** * SceneManager: texture registry, material table, uniform bridge and
    the fixed scene script (Source/SceneManager.cpp, Source/SceneManager.h).

    The C++ class is embedded as a state-and-fault monad over a [World]:
    the fields of the [SceneManager] object, the OpenGL texture names in
    use, and the chronological trace of every call made to the external
    collaborators (image decoder, OpenGL, shader manager, shape meshes,
    standard output) and of every [push_back] on the material vector. *)

From Stdlib Require Import ZArith List String Bool Lia.
From Stdlib Require Import Floats.SpecFloat.
From stdpp Require Import base list strings.
Import ListNotations.

Local Open Scope string_scope.
Local Open Scope list_scope.
Local Open Scope Z_scope.

(** ** Single-precision floats

    C++ [float] is IEEE 754 binary32; every operation is rounded to nearest
    even on its own.  The operations are those of the Standard Library's
    executable specification, at precision 24 and maximal exponent 128. *)

Definition float : Type := spec_float.

Definition float_of_int (n : Z) : float := binary_normalize 24 128 n 0 false.
Definition fadd : float -> float -> float := SFadd 24 128.
Definition fmul : float -> float -> float := SFmul 24 128.
Definition fdiv : float -> float -> float := SFdiv 24 128.

(** [flit m k] is the literal written [m * 10^-k] with the [f] suffix, such
    as [0.85f = flit 85 2]: the binary32 number nearest to that decimal.
    Both [m] and [10^k] are exactly representable for every literal of the
    source, so the correctly rounded quotient is that number. *)
Definition flit (m : Z) (k : nat) : float :=
  fdiv (float_of_int m) (float_of_int (10 ^ Z.of_nat k)).

(** ** glm vectors *)

Record vec2 : Type := glm_vec2 { vec2_x : float; vec2_y : float }.
Record vec3 : Type := glm_vec3 { vec3_x : float; vec3_y : float; vec3_z : float }.
Record vec4 : Type :=
  glm_vec4 { vec4_r : float; vec4_g : float; vec4_b : float; vec4_a : float }.

(** ** The glm functions the class calls

    glm is an external library: its matrix type and the functions used by
    [SetTransformations] and [SetupSceneLights] are taken as an interface,
    and every result below holds for any implementation of it. *)

Class GlmLib : Type := {
  mat4 : Type;
  glm_radians : float -> float;
  glm_cos : float -> float;
  glm_scale : vec3 -> mat4;
  glm_rotate : float -> vec3 -> mat4;
  glm_translate : vec3 -> mat4;
  mat4_mul : mat4 -> mat4 -> mat4
}.

(** ** Structures of SceneManager.h *)

Record TEXTURE_INFO : Type := { tag : string; ID : Z }.

(** The material's [tag] field is named [material_tag] here, the name
    [tag] being taken by [TEXTURE_INFO]. *)
Record OBJECT_MATERIAL : Type := {
  material_tag : string;
  ambientColor : vec3;
  ambientStrength : float;
  diffuseColor : vec3;
  specularColor : vec3;
  shininess : float
}.

(** [ShaderManager* m_pShaderManager]: only whether the pointer is null
    matters to this class. *)
Inductive ShaderManagerPtr : Type := NULL | ShaderManagerAt.

(** The object's data members.  [m_basicMeshes] is set to a new
    [ShapeMeshes] by the constructor and never changed, so it is never
    null; calls through it appear in the trace. *)
Record SceneManager : Type := {
  m_pShaderManager : ShaderManagerPtr;
  m_loadedTextures : Z;
  m_textureIDs : list TEXTURE_INFO;
  m_objectMaterials : list OBJECT_MATERIAL
}.

(** [TEXTURE_INFO m_textureIDs[16]] *)
Definition TEXTURE_CAPACITY : Z := 16.

(** ** The environment *)

(** What [stbi_load] reports about a decoded image. *)
Record Image : Type := { width : Z; height : Z; colorChannels : Z }.

(** The file system seen through [stbi_load], the texture-name allocator
    behind [glGenTextures] (a function of the names in use), and the
    contents of a default-initialised [OBJECT_MATERIAL] local, whose
    numeric members are indeterminate. *)
Class Host : Type := {
  stbi_load : string -> option Image;
  gen_name : list Z -> Z;
  indeterminate_material : OBJECT_MATERIAL
}.

(** OpenGL guarantees that a generated name was not in use. *)
Definition FreshNames (host : Host) : Prop :=
  forall used : list Z, ~ In (gen_name used) used.

Inductive GLenum : Type :=
  | GL_TEXTURE_WRAP_S | GL_TEXTURE_WRAP_T
  | GL_TEXTURE_MIN_FILTER | GL_TEXTURE_MAG_FILTER
  | GL_REPEAT | GL_LINEAR
  | GL_RGB8 | GL_RGB | GL_RGBA8 | GL_RGBA.

Inductive MeshKind : Type :=
  | Plane | Box | Cone | Prism | Pyramid3 | Sphere | Torus
  | TaperedCylinder | Cylinder.

(** The three lines the class writes to [std::cout]. *)
Inductive LogLine : Type :=
  | SuccessfullyLoaded (filename : string) (w h channels : Z)
  | NotImplementedChannels (channels : Z)
  | CouldNotLoad (filename : string).

(** Undefined behaviour of the C++ program is a fault of the model. *)
Inductive Fault : Type :=
  | OutOfBounds (index : Z)
  | NullDereference
  | OutOfFuel.

Inductive Result (A : Type) : Type :=
  | Ok (a : A)
  | Crash (f : Fault).
Arguments Ok {A} a.
Arguments Crash {A} f.

Section Model.

Context {glm : GlmLib} {host : Host}.

(** Calls to the collaborators and appends to the material vector, in the
    order they are made. *)
Inductive Event : Type :=
  | E_stbi_set_flip_vertically_on_load (flag : bool)
  | E_stbi_load (filename : string)
  | E_stbi_image_free
  | E_cout (line : LogLine)
  | E_glGenTextures (name : Z)
  | E_glBindTexture (name : Z)
  | E_glTexParameteri (pname param : GLenum)
  | E_glTexImage2D (internalformat : GLenum) (w h : Z) (format : GLenum)
  | E_glGenerateMipmap
  | E_glActiveTexture (unit_index : Z)
  | E_setMat4Value (name : string) (m : mat4)
  | E_setIntValue (name : string) (v : Z)
  | E_setFloatValue (name : string) (v : float)
  | E_setVec2Value (name : string) (v : vec2)
  | E_setVec3Value (name : string) (v : vec3)
  | E_setVec4Value (name : string) (v : vec4)
  | E_setSampler2DValue (name : string) (v : Z)
  | E_LoadMesh (k : MeshKind)
  | E_DrawMesh (k : MeshKind)
  | E_push_back (material : OBJECT_MATERIAL).

Record World : Type := {
  scene : SceneManager;
  gl_names : list Z;
  trace : list Event
}.

(** ** The monad of method bodies *)

Definition M (A : Type) : Type := World -> Result (A * World).

Definition ret {A} (a : A) : M A := fun w => Ok (a, w).

Definition bind {A B} (c : M A) (k : A -> M B) : M B :=
  fun w => match c w with
           | Ok (a, w') => k a w'
           | Crash f => Crash f
           end.

Definition crash {A} (f : Fault) : M A := fun _ => Crash f.

Definition emit (e : Event) : M unit :=
  fun w => Ok (tt, {| scene := scene w; gl_names := gl_names w;
                      trace := trace w ++ [e] |}).

Definition get_scene : M SceneManager := fun w => Ok (scene w, w).

Definition put_scene (s : SceneManager) : M unit :=
  fun w => Ok (tt, {| scene := s; gl_names := gl_names w; trace := trace w |}).

Definition lift {A} (r : Result A) : M A :=
  fun w => match r with Ok a => Ok (a, w) | Crash f => Crash f end.

End Model.

Declare Scope scene_scope.
Delimit Scope scene_scope with scene.
Notation "x <- c ;; k" := (bind c (fun x => k))
  (at level 100, c at next level, right associativity) : scene_scope.
Notation "c ;; k" := (bind c (fun _ => k))
  (at level 100, right associativity) : scene_scope.
Local Open Scope scene_scope.

Section Methods.

Context {glm : GlmLib} {host : Host}.

(** ** Array and pointer accesses *)

(** [m_textureIDs[index]] read: defined inside the sixteen elements only. *)
Definition read_texture (s : SceneManager) (index : Z) : Result TEXTURE_INFO :=
  if (0 <=? index) && (index <? TEXTURE_CAPACITY) then
    match m_textureIDs s !! Z.to_nat index with
    | Some e => Ok e
    | None => Crash (OutOfBounds index)
    end
  else Crash (OutOfBounds index).

(** [m_textureIDs[index].member = ...], the assignment given as [f]. *)
Definition write_texture (index : Z) (f : TEXTURE_INFO -> TEXTURE_INFO) : M unit :=
  s <- get_scene ;;
  e <- lift (read_texture s index) ;;
  put_scene {| m_pShaderManager := m_pShaderManager s;
               m_loadedTextures := m_loadedTextures s;
               m_textureIDs := <[Z.to_nat index := f e]> (m_textureIDs s);
               m_objectMaterials := m_objectMaterials s |}.

Definition set_ID (v : Z) (e : TEXTURE_INFO) : TEXTURE_INFO :=
  {| tag := tag e; ID := v |}.
Definition set_tag (v : string) (e : TEXTURE_INFO) : TEXTURE_INFO :=
  {| tag := v; ID := ID e |}.

(** [m_loadedTextures++] *)
Definition increment_loadedTextures : M unit :=
  s <- get_scene ;;
  put_scene {| m_pShaderManager := m_pShaderManager s;
               m_loadedTextures := m_loadedTextures s + 1;
               m_textureIDs := m_textureIDs s;
               m_objectMaterials := m_objectMaterials s |}.

(** [m_objectMaterials.push_back(m)]: the call, and the element it
    appends. *)
Definition push_back_material (m : OBJECT_MATERIAL) : M unit :=
  emit (E_push_back m) ;;
  s <- get_scene ;;
  put_scene {| m_pShaderManager := m_pShaderManager s;
               m_loadedTextures := m_loadedTextures s;
               m_textureIDs := m_textureIDs s;
               m_objectMaterials := m_objectMaterials s ++ [m] |}.

(** [m_pShaderManager->call(...)] with no test of the pointer. *)
Definition shader_call (e : Event) : M unit :=
  s <- get_scene ;;
  match m_pShaderManager s with
  | NULL => crash NullDereference
  | ShaderManagerAt => emit e
  end.

(** [glGenTextures(1, &name)]: a name not in use becomes in use. *)
Definition glGenTextures : M Z :=
  fun w =>
    let name := gen_name (gl_names w) in
    Ok (name, {| scene := scene w; gl_names := name :: gl_names w;
                 trace := trace w ++ [E_glGenTextures name] |}).

(** [for (int i = first; i < first + n; i++) body(i)], the bound fixed. *)
Fixpoint for_loop (n : nat) (i : Z) (body : Z -> M unit) : M unit :=
  match n with
  | O => ret tt
  | S n' => body i ;; for_loop n' (i + 1) body
  end.

(** [if (NULL != m_pShaderManager) { body }] *)
Definition if_shader (body : M unit) : M unit :=
  s <- get_scene ;;
  match m_pShaderManager s with
  | NULL => ret tt
  | ShaderManagerAt => body
  end.

(** The names of the anonymous namespace. *)
Definition g_ModelName : string := "model".
Definition g_ColorValueName : string := "objectColor".
Definition g_TextureValueName : string := "objectTexture".
Definition g_UseTextureName : string := "bUseTexture".
Definition g_UseLightingName : string := "bUseLighting".

(** A [bool] argument passed where the setter takes an [int]. *)
Definition int_of_bool (b : bool) : Z := if b then 1 else 0.

(** A [uint32_t] value converted to [int]: the same 32 bits read in two's
    complement. *)
Definition int_of_uint32 (v : Z) : Z :=
  let r := v mod 2 ^ 32 in
  if r <? 2 ^ 31 then r else r - 2 ^ 32.

(** ** The texture registry *)

(** The tail shared by the RGB and the RGBA branch of [CreateGLTexture]. *)
Definition register_texture (textureID : Z) (tag' : string) : M bool :=
  emit E_glGenerateMipmap ;;
  emit E_stbi_image_free ;;
  emit (E_glBindTexture 0) ;;
  s <- get_scene ;;
  write_texture (m_loadedTextures s) (set_ID textureID) ;;
  s <- get_scene ;;
  write_texture (m_loadedTextures s) (set_tag tag') ;;
  increment_loadedTextures ;;
  ret true.

Definition CreateGLTexture (filename tag' : string) : M bool :=
  emit (E_stbi_set_flip_vertically_on_load true) ;;
  emit (E_stbi_load filename) ;;
  match stbi_load filename with
  | Some image =>
      emit (E_cout (SuccessfullyLoaded filename (width image) (height image)
                      (colorChannels image))) ;;
      textureID <- glGenTextures ;;
      emit (E_glBindTexture textureID) ;;
      emit (E_glTexParameteri GL_TEXTURE_WRAP_S GL_REPEAT) ;;
      emit (E_glTexParameteri GL_TEXTURE_WRAP_T GL_REPEAT) ;;
      emit (E_glTexParameteri GL_TEXTURE_MIN_FILTER GL_LINEAR) ;;
      emit (E_glTexParameteri GL_TEXTURE_MAG_FILTER GL_LINEAR) ;;
      if colorChannels image =? 3 then
        emit (E_glTexImage2D GL_RGB8 (width image) (height image) GL_RGB) ;;
        register_texture textureID tag'
      else if colorChannels image =? 4 then
        emit (E_glTexImage2D GL_RGBA8 (width image) (height image) GL_RGBA) ;;
        register_texture textureID tag'
      else
        emit (E_cout (NotImplementedChannels (colorChannels image))) ;;
        ret false
  | None =>
      emit (E_cout (CouldNotLoad filename)) ;;
      ret false
  end.

Definition BindGLTextures : M unit :=
  s <- get_scene ;;
  for_loop (Z.to_nat (m_loadedTextures s)) 0 (fun i =>
    emit (E_glActiveTexture i) ;;
    s <- get_scene ;;
    e <- lift (read_texture s i) ;;
    emit (E_glBindTexture (ID e))).

Definition DestroyGLTextures : M unit :=
  s <- get_scene ;;
  for_loop (Z.to_nat (m_loadedTextures s)) 0 (fun i =>
    name <- glGenTextures ;;
    write_texture i (set_ID name)).

(** The [while] loop of [FindTextureID], its locals as arguments; one unit
    of fuel per iteration. *)
Fixpoint FindTextureID_while (fuel : nat) (s : SceneManager) (tag' : string)
    (textureID index : Z) (bFound : bool) : Result Z :=
  if (index <? m_loadedTextures s) && Bool.eqb bFound false then
    match fuel with
    | O => Crash OutOfFuel
    | S fuel' =>
        match read_texture s index with
        | Crash f => Crash f
        | Ok e =>
            if String.eqb (tag e) tag' then
              FindTextureID_while fuel' s tag' (int_of_uint32 (ID e)) index true
            else
              FindTextureID_while fuel' s tag' textureID (index + 1) bFound
        end
    end
  else Ok textureID.

Definition FindTextureID (s : SceneManager) (tag' : string) : Result Z :=
  FindTextureID_while (Z.to_nat (m_loadedTextures s)) s tag' (-1) 0 false.

Fixpoint FindTextureSlot_while (fuel : nat) (s : SceneManager) (tag' : string)
    (textureSlot index : Z) (bFound : bool) : Result Z :=
  if (index <? m_loadedTextures s) && Bool.eqb bFound false then
    match fuel with
    | O => Crash OutOfFuel
    | S fuel' =>
        match read_texture s index with
        | Crash f => Crash f
        | Ok e =>
            if String.eqb (tag e) tag' then
              FindTextureSlot_while fuel' s tag' index index true
            else
              FindTextureSlot_while fuel' s tag' textureSlot (index + 1) bFound
        end
    end
  else Ok textureSlot.

Definition FindTextureSlot (s : SceneManager) (tag' : string) : Result Z :=
  FindTextureSlot_while (Z.to_nat (m_loadedTextures s)) s tag' (-1) 0 false.

(** ** The material table *)

(** The five member assignments of [FindMaterial]; the tag of the output
    is not assigned. *)
Definition copy_material (from into : OBJECT_MATERIAL) : OBJECT_MATERIAL :=
  {| material_tag := material_tag into;
     ambientColor := ambientColor from;
     ambientStrength := ambientStrength from;
     diffuseColor := diffuseColor from;
     specularColor := specularColor from;
     shininess := shininess from |}.

(** The [while] loop of [FindMaterial]; it yields the locals [bFound] and
    [material] it ends with.  [index] is never negative, so comparing it
    with the unsigned [size()] is the comparison of the integers. *)
Fixpoint FindMaterial_while (fuel : nat) (s : SceneManager) (tag' : string)
    (material : OBJECT_MATERIAL) (index : Z) (bFound : bool)
    : Result (bool * OBJECT_MATERIAL) :=
  if (index <? Z.of_nat (length (m_objectMaterials s))) && Bool.eqb bFound false then
    match fuel with
    | O => Crash OutOfFuel
    | S fuel' =>
        match m_objectMaterials s !! Z.to_nat index with
        | None => Crash (OutOfBounds index)
        | Some m =>
            if String.eqb (material_tag m) tag' then
              FindMaterial_while fuel' s tag' (copy_material m material) index true
            else
              FindMaterial_while fuel' s tag' material (index + 1) bFound
        end
    end
  else Ok (bFound, material).

(** [bool FindMaterial(std::string tag, OBJECT_MATERIAL& material)]: the
    returned flag and the final contents of the reference argument. *)
Definition FindMaterial (s : SceneManager) (tag' : string)
    (material : OBJECT_MATERIAL) : Result (bool * OBJECT_MATERIAL) :=
  if Z.of_nat (length (m_objectMaterials s)) =? 0 then Ok (false, material)
  else
    match FindMaterial_while (length (m_objectMaterials s)) s tag' material 0 false with
    | Crash f => Crash f
    | Ok (bFound, material') => Ok (true, material')
    end.

(** ** The uniform bridge *)

(** [translation * rotationX * rotationY * rotationZ * scale], the
    product associating to the left as [operator*] does. *)
Definition modelView (scaleXYZ : vec3)
    (XrotationDegrees YrotationDegrees ZrotationDegrees : float)
    (positionXYZ : vec3) : mat4 :=
  let scale := glm_scale scaleXYZ in
  let rotationX :=
    glm_rotate (glm_radians XrotationDegrees)
      (glm_vec3 (flit 1 0) (flit 0 0) (flit 0 0)) in
  let rotationY :=
    glm_rotate (glm_radians YrotationDegrees)
      (glm_vec3 (flit 0 0) (flit 1 0) (flit 0 0)) in
  let rotationZ :=
    glm_rotate (glm_radians ZrotationDegrees)
      (glm_vec3 (flit 0 0) (flit 0 0) (flit 1 0)) in
  let translation := glm_translate positionXYZ in
  mat4_mul (mat4_mul (mat4_mul (mat4_mul translation rotationX) rotationY)
              rotationZ) scale.

Definition SetTransformations (scaleXYZ : vec3)
    (XrotationDegrees YrotationDegrees ZrotationDegrees : float)
    (positionXYZ : vec3) : M unit :=
  if_shader
    (shader_call (E_setMat4Value g_ModelName
       (modelView scaleXYZ XrotationDegrees YrotationDegrees ZrotationDegrees
          positionXYZ))).

Definition SetShaderColor
    (redColorValue greenColorValue blueColorValue alphaValue : float) : M unit :=
  let currentColor :=
    glm_vec4 redColorValue greenColorValue blueColorValue alphaValue in
  if_shader
    (shader_call (E_setIntValue g_UseTextureName (int_of_bool false)) ;;
     shader_call (E_setVec4Value g_ColorValueName currentColor)).

Definition SetShaderTexture (textureTag : string) : M unit :=
  if_shader
    (shader_call (E_setIntValue g_UseTextureName (int_of_bool true)) ;;
     s <- get_scene ;;
     textureID <- lift (FindTextureSlot s textureTag) ;;
     shader_call (E_setSampler2DValue g_TextureValueName textureID)).

Definition SetTextureUVScale (u v : float) : M unit :=
  if_shader (shader_call (E_setVec2Value "UVscale" (glm_vec2 u v))).

Definition SetShaderMaterial (materialTag : string) : M unit :=
  s <- get_scene ;;
  if 0 <? Z.of_nat (length (m_objectMaterials s)) then
    r <- lift (FindMaterial s materialTag indeterminate_material) ;;
    let '(bReturn, material) := r in
    if Bool.eqb bReturn true then
      shader_call (E_setVec3Value "material.ambientColor" (ambientColor material)) ;;
      shader_call (E_setFloatValue "material.ambientStrength" (ambientStrength material)) ;;
      shader_call (E_setVec3Value "material.diffuseColor" (diffuseColor material)) ;;
      shader_call (E_setVec3Value "material.specularColor" (specularColor material)) ;;
      shader_call (E_setFloatValue "material.shininess" (shininess material))
    else ret tt
  else ret tt.

Definition SetupSceneLights : M unit :=
  if_shader
    (shader_call (E_setVec3Value "dirLight.direction"
                    (glm_vec3 (flit (-5) 1) (flit (-8) 1) (flit 8 1))) ;;
     shader_call (E_setVec3Value "dirLight.ambient"
                    (glm_vec3 (flit 3 1) (flit 3 1) (flit 3 1))) ;;
     shader_call (E_setVec3Value "dirLight.diffuse"
                    (glm_vec3 (flit 7 1) (flit 7 1) (flit 7 1))) ;;
     shader_call (E_setVec3Value "spotLight.position"
                    (glm_vec3 (flit 55 1) (flit 4 0) (flit 5 1))) ;;
     shader_call (E_setVec3Value "spotLight.direction"
                    (glm_vec3 (flit (-8) 1) (flit (-1) 0) (flit (-2) 1))) ;;
     shader_call (E_setVec3Value "spotLight.ambient"
                    (glm_vec3 (flit 1 1) (flit 1 1) (flit 1 1))) ;;
     shader_call (E_setVec3Value "spotLight.diffuse"
                    (glm_vec3 (flit 1 0) (flit 95 2) (flit 8 1))) ;;
     shader_call (E_setVec3Value "spotLight.specular"
                    (glm_vec3 (flit 1 0) (flit 1 0) (flit 1 0))) ;;
     shader_call (E_setFloatValue "spotLight.constant" (flit 1 0)) ;;
     shader_call (E_setFloatValue "spotLight.linear" (flit 45 3)) ;;
     shader_call (E_setFloatValue "spotLight.quadratic" (flit 75 4)) ;;
     shader_call (E_setFloatValue "spotLight.cutOff"
                    (glm_cos (glm_radians (flit 15 0)))) ;;
     shader_call (E_setFloatValue "spotLight.outerCutOff"
                    (glm_cos (glm_radians (flit 25 0))))).

(** ** The scene script *)

Definition marble : OBJECT_MATERIAL :=
  {| material_tag := "marble";
     ambientColor := glm_vec3 (flit 2 1) (flit 2 1) (flit 2 1);
     ambientStrength := flit 4 1;
     diffuseColor := glm_vec3 (flit 9 1) (flit 9 1) (flit 9 1);
     specularColor := glm_vec3 (flit 3 1) (flit 3 1) (flit 3 1);
     shininess := flit 16 0 |}.

Definition gold : OBJECT_MATERIAL :=
  {| material_tag := "gold";
     ambientColor := glm_vec3 (flit 25 2) (flit 20 2) (flit 7 2);
     ambientStrength := flit 3 1;
     diffuseColor := glm_vec3 (flit 8 1) (flit 65 2) (flit 25 2);
     specularColor := glm_vec3 (flit 65 2) (flit 55 2) (flit 35 2);
     shininess := flit 512 1 |}.

Definition granite : OBJECT_MATERIAL :=
  {| material_tag := "granite";
     ambientColor := glm_vec3 (flit 2 1) (flit 2 1) (flit 2 1);
     ambientStrength := flit 35 2;
     diffuseColor := glm_vec3 (flit 6 1) (flit 6 1) (flit 6 1);
     specularColor := glm_vec3 (flit 2 1) (flit 2 1) (flit 2 1);
     shininess := flit 8 0 |}.

Definition wall : OBJECT_MATERIAL :=
  {| material_tag := "wall";
     ambientColor := glm_vec3 (flit 1 0) (flit 1 0) (flit 1 0);
     ambientStrength := flit 5 1;
     diffuseColor := glm_vec3 (flit 1 0) (flit 1 0) (flit 1 0);
     specularColor := glm_vec3 (flit 1 1) (flit 1 1) (flit 1 1);
     shininess := flit 1 0 |}.

Definition lamp : OBJECT_MATERIAL :=
  {| material_tag := "lamp";
     ambientColor := glm_vec3 (flit 1 0) (flit 1 0) (flit 1 0);
     ambientStrength := flit 5 1;
     diffuseColor := glm_vec3 (flit 1 0) (flit 1 0) (flit 1 0);
     specularColor := glm_vec3 (flit 2 1) (flit 2 1) (flit 2 1);
     shininess := flit 2 0 |}.

Definition LoadSceneMaterials : M unit :=
  push_back_material marble ;;
  push_back_material gold ;;
  push_back_material granite ;;
  push_back_material wall ;;
  push_back_material lamp.

(** Every returned [bReturn] is overwritten or dropped unread. *)
Definition LoadSceneTextures : M unit :=
  bReturn <- CreateGLTexture "textures/wood.jpg" "wood" ;;
  bReturn <- CreateGLTexture "textures/wall.jpg" "wall" ;;
  bReturn <- CreateGLTexture "textures/pot.jpg" "pot" ;;
  bReturn <- CreateGLTexture "textures/leaf.jpg" "leaf" ;;
  bReturn <- CreateGLTexture "textures/lamp.jpg" "lamp" ;;
  bReturn <- CreateGLTexture "textures/marble.jpg" "marble" ;;
  bReturn <- CreateGLTexture "textures/granite.jpg" "granite" ;;
  bReturn <- CreateGLTexture "textures/gold.jpg" "gold" ;;
  BindGLTextures.

Definition PrepareScene : M unit :=
  LoadSceneTextures ;;
  LoadSceneMaterials ;;
  emit (E_LoadMesh Plane) ;;
  emit (E_LoadMesh Box) ;;
  emit (E_LoadMesh Cone) ;;
  emit (E_LoadMesh Prism) ;;
  emit (E_LoadMesh Pyramid3) ;;
  emit (E_LoadMesh Sphere) ;;
  emit (E_LoadMesh Torus) ;;
  emit (E_LoadMesh TaperedCylinder) ;;
  emit (E_LoadMesh Cylinder).

(** The locals of the leaf loop, as functions of the loop counter. *)
Definition leafCount : Z := 10.
Definition randomHeight (i : Z) : float :=
  fadd (flit 15 1) (fmul (float_of_int (Z.rem i 3)) (flit 2 1)).
Definition yRotation (i : Z) : float :=
  fmul (float_of_int i) (fdiv (flit 360 0) (float_of_int leafCount)).
Definition xTilt (i : Z) : float :=
  fadd (flit 20 0) (fmul (float_of_int i) (flit 3 0)).
Definition zLean (i : Z) : float :=
  if Z.rem i 2 =? 0 then flit 5 0 else flit (-5) 0.

Definition RenderScene : M unit :=
  SetupSceneLights ;;
  (* The back wall *)
  SetTransformations (glm_vec3 (flit 40 0) (flit 1 0) (flit 40 0))
    (flit (-90) 0) (flit 0 0) (flit 0 0)
    (glm_vec3 (flit 0 0) (flit 4 0) (flit (-10) 0)) ;;
  SetShaderTexture "wall" ;;
  shader_call (E_setIntValue "bUseTexture" (int_of_bool true)) ;;
  SetTextureUVScale (flit 1 0) (flit 1 0) ;;
  SetShaderMaterial "wall" ;;
  emit (E_DrawMesh Plane) ;;
  (* Desk surface *)
  SetTransformations (glm_vec3 (flit 20 0) (flit 1 0) (flit 20 0))
    (flit 0 0) (flit 0 0) (flit 0 0)
    (glm_vec3 (flit 0 0) (flit (-5) 1) (flit 0 0)) ;;
  SetShaderMaterial "wall" ;;
  SetShaderColor (flit 1 0) (flit 1 0) (flit 1 0) (flit 1 0) ;;
  emit (E_DrawMesh Plane) ;;
  (* Lamp base *)
  SetTransformations (glm_vec3 (flit 15 1) (flit 2 1) (flit 15 1))
    (flit 0 0) (flit 0 0) (flit 0 0)
    (glm_vec3 (flit 5 0) (flit 0 0) (flit 0 0)) ;;
  SetShaderMaterial "granite" ;;
  SetShaderColor (flit 85 2) (flit 85 2) (flit 85 2) (flit 1 0) ;;
  emit (E_DrawMesh Cylinder) ;;
  (* Lamp neck *)
  SetTransformations (glm_vec3 (flit 5 2) (flit 4 0) (flit 5 2))
    (flit 0 0) (flit 0 0) (flit 0 0)
    (glm_vec3 (flit 6 0) (flit 0 0) (flit 0 0)) ;;
  SetShaderMaterial "lamp" ;;
  emit (E_DrawMesh Cylinder) ;;
  (* Lamp shade *)
  SetTransformations (glm_vec3 (flit 12 1) (flit 15 1) (flit 12 1))
    (flit (-45) 0) (flit 0 0) (flit 0 0)
    (glm_vec3 (flit 55 1) (flit 38 1) (flit 0 0)) ;;
  SetShaderMaterial "lamp" ;;
  emit (E_DrawMesh TaperedCylinder) ;;
  (* Lamp bulb *)
  SetTransformations (glm_vec3 (flit 2 1) (flit 2 1) (flit 2 1))
    (flit 0 0) (flit 0 0) (flit 0 0)
    (glm_vec3 (flit 55 1) (flit 36 1) (flit 0 0)) ;;
  SetShaderColor (flit 1 0) (flit 1 0) (flit 0 0) (flit 1 0) ;;
  shader_call (E_setIntValue "bUseTexture" (int_of_bool false)) ;;
  emit (E_DrawMesh Sphere) ;;
  (* Lamp joint *)
  SetTransformations (glm_vec3 (flit 15 2) (flit 3 1) (flit 15 2))
    (flit 0 0) (flit 0 0) (flit 90 0)
    (glm_vec3 (flit 6 0) (flit 4 0) (flit (-2) 1)) ;;
  SetShaderMaterial "gold" ;;
  emit (E_DrawMesh Cylinder) ;;
  (* Clock *)
  SetTransformations (glm_vec3 (flit 16 1) (flit 5 2) (flit 16 1))
    (flit 90 0) (flit 0 0) (flit 0 0)
    (glm_vec3 (flit (-2) 0) (flit 7 0) (flit (-495) 2)) ;;
  SetShaderMaterial "marble" ;;
  shader_call (E_setIntValue "bUseTexture" (int_of_bool false)) ;;
  SetShaderColor (flit 2 1) (flit 2 1) (flit 2 1) (flit 1 0) ;;
  emit (E_DrawMesh Cylinder) ;;
  (* Clock face *)
  SetTransformations (glm_vec3 (flit 15 1) (flit 1 1) (flit 15 1))
    (flit 90 0) (flit 0 0) (flit 0 0)
    (glm_vec3 (flit (-2) 0) (flit 7 0) (flit (-49) 1)) ;;
  SetShaderTexture "wood" ;;
  shader_call (E_setIntValue "bUseTexture" (int_of_bool true)) ;;
  emit (E_DrawMesh Cylinder) ;;
  (* Pot *)
  SetTransformations (glm_vec3 (flit 12 1) (flit 1 0) (flit 12 1))
    (flit 0 0) (flit 0 0) (flit 0 0)
    (glm_vec3 (flit 2 0) (flit 5 1) (flit 0 0)) ;;
  SetShaderMaterial "granite" ;;
  SetShaderColor (flit 8 1) (flit 8 1) (flit 8 1) (flit 1 0) ;;
  emit (E_DrawMesh Sphere) ;;
  (* Leaves *)
  shader_call (E_setIntValue "bUseTexture" (int_of_bool true)) ;;
  SetShaderTexture "leaf" ;;
  for_loop (Z.to_nat leafCount) 0 (fun i =>
    SetTransformations (glm_vec3 (flit 12 2) (randomHeight i) (flit 4 1))
      (xTilt i) (yRotation i) (zLean i)
      (glm_vec3 (flit 2 0) (flit 13 1) (flit 0 0)) ;;
    emit (E_DrawMesh TaperedCylinder)).

(** ** Construction *)

(** The constructor: the count starts at 0 by its member
    initialiser and the material vector is empty.  The sixteen array
    elements are default-initialised: empty tags, and handles that are
    indeterminate, given here as [junk]. *)
Definition SceneManager_new (pShaderManager : ShaderManagerPtr) (junk : Z)
    : SceneManager :=
  {| m_pShaderManager := pShaderManager;
     m_loadedTextures := 0;
     m_textureIDs := replicate 16 {| tag := ""; ID := junk |};
     m_objectMaterials := [] |}.

End Methods.

(** ** The state of a C++ object

    The array [m_textureIDs] has sixteen elements and the count of loaded
    textures lies within it.  No execution free of undefined behaviour
    leaves these bounds. *)
Definition registry_ok (s : SceneManager) : Prop :=
  length (m_textureIDs s) = 16%nat /\ 0 <= m_loadedTextures s <= TEXTURE_CAPACITY.

(** ** A sample environment

    One implementation of the interfaces, on which the general results are
    instantiated: matrices are kept as the expressions that build them;
    two of the scene's image files are unusable; texture names are handed
    out in increasing order. *)

Inductive expr_mat4 : Type :=
  | Scale (v : vec3)
  | Rotate (angle : float) (axis : vec3)
  | Translate (v : vec3)
  | Mul (a b : expr_mat4).

Definition sample_glm : GlmLib :=
  {| mat4 := expr_mat4;
     glm_radians := fun degrees => fmul degrees (flit 17453292 9);
     glm_cos := fun angle => angle;
     glm_scale := Scale;
     glm_rotate := Rotate;
     glm_translate := Translate;
     mat4_mul := Mul |}.

Definition sample_host : Host :=
  {| stbi_load := fun filename =>
       if String.eqb filename "textures/pot.jpg" then None
       else if String.eqb filename "textures/marble.jpg" then
         Some {| width := 64; height := 64; colorChannels := 1 |}
       else if String.eqb filename "textures/leaf.jpg" then
         Some {| width := 256; height := 256; colorChannels := 4 |}
       else Some {| width := 512; height := 512; colorChannels := 3 |};
     gen_name := fun used => 1 + fold_right Z.max 0 used;
     indeterminate_material :=
       {| material_tag := "";
          ambientColor := glm_vec3 (flit 0 0) (flit 0 0) (flit 0 0);
          ambientStrength := flit 0 0;
          diffuseColor := glm_vec3 (flit 0 0) (flit 0 0) (flit 0 0);
          specularColor := glm_vec3 (flit 0 0) (flit 0 0) (flit 0 0);
          shininess := flit 0 0 |} |}.

(** A registry of three textures and the five materials of the scene. *)
Definition sample_scene (pShaderManager : ShaderManagerPtr) : SceneManager :=
  {| m_pShaderManager := pShaderManager;
     m_loadedTextures := 3;
     m_textureIDs :=
       [ {| tag := "wood"; ID := 1 |}; {| tag := "wall"; ID := 2 |};
         {| tag := "leaf"; ID := 3 |} ]
       ++ replicate 13 {| tag := ""; ID := 0 |};
     m_objectMaterials := [marble; gold; granite; wall; lamp] |}.

(** The world right after construction, nothing loaded and no call made. *)
Definition initial_world {glm : GlmLib}
    (pShaderManager : ShaderManagerPtr) (junk : Z) : World :=
  {| scene := SceneManager_new pShaderManager junk; gl_names := []; trace := [] |}.

Section Observations.

Context {glm : GlmLib} {host : Host}.

(** The world after further calls to the collaborators, the object and
    the texture names untouched. *)
Definition append_trace (w : World) (events : list Event) : World :=
  {| scene := scene w; gl_names := gl_names w; trace := trace w ++ events |}.

(** The draw calls of a trace, in order. *)
Definition draws (events : list Event) : list MeshKind :=
  flat_map (fun e => match e with E_DrawMesh k => [k] | _ => [] end) events.

(** The calls that decide where and how a mesh is drawn: uploads of the
    model matrix, writes of the texturing flag, and the draws. *)
Definition is_key_event (e : Event) : bool :=
  match e with
  | E_setMat4Value name _ => String.eqb name g_ModelName
  | E_setIntValue name _ => String.eqb name g_UseTextureName
  | E_DrawMesh _ => true
  | _ => false
  end.

Definition key_events (events : list Event) : list Event :=
  List.filter is_key_event events.

(** Each draw of a trace with the value of "bUseTexture" in force when it
    is issued, [flag] being the value in force at the start. *)
Fixpoint draw_modes (flag : option Z) (events : list Event)
    : list (MeshKind * option Z) :=
  match events with
  | [] => []
  | E_setIntValue name v :: rest =>
      draw_modes (if String.eqb name g_UseTextureName then Some v else flag) rest
  | E_DrawMesh k :: rest => (k, flag) :: draw_modes flag rest
  | _ :: rest => draw_modes flag rest
  end.

(** An object of the scene as the shader and the meshes see it: the model
    matrix uploaded for it, then its draw. *)
Definition object_calls (o : mat4 * MeshKind) : list Event :=
  [E_setMat4Value g_ModelName (fst o); E_DrawMesh (snd o)].

(** The ten objects [RenderScene] draws before the leaf loop, each with
    the arguments of its [SetTransformations] call. *)
Definition fixed_objects : list (mat4 * MeshKind) :=
  [ (modelView (glm_vec3 (flit 40 0) (flit 1 0) (flit 40 0))
       (flit (-90) 0) (flit 0 0) (flit 0 0)
       (glm_vec3 (flit 0 0) (flit 4 0) (flit (-10) 0)), Plane);
    (modelView (glm_vec3 (flit 20 0) (flit 1 0) (flit 20 0))
       (flit 0 0) (flit 0 0) (flit 0 0)
       (glm_vec3 (flit 0 0) (flit (-5) 1) (flit 0 0)), Plane);
    (modelView (glm_vec3 (flit 15 1) (flit 2 1) (flit 15 1))
       (flit 0 0) (flit 0 0) (flit 0 0)
       (glm_vec3 (flit 5 0) (flit 0 0) (flit 0 0)), Cylinder);
    (modelView (glm_vec3 (flit 5 2) (flit 4 0) (flit 5 2))
       (flit 0 0) (flit 0 0) (flit 0 0)
       (glm_vec3 (flit 6 0) (flit 0 0) (flit 0 0)), Cylinder);
    (modelView (glm_vec3 (flit 12 1) (flit 15 1) (flit 12 1))
       (flit (-45) 0) (flit 0 0) (flit 0 0)
       (glm_vec3 (flit 55 1) (flit 38 1) (flit 0 0)), TaperedCylinder);
    (modelView (glm_vec3 (flit 2 1) (flit 2 1) (flit 2 1))
       (flit 0 0) (flit 0 0) (flit 0 0)
       (glm_vec3 (flit 55 1) (flit 36 1) (flit 0 0)), Sphere);
    (modelView (glm_vec3 (flit 15 2) (flit 3 1) (flit 15 2))
       (flit 0 0) (flit 0 0) (flit 90 0)
       (glm_vec3 (flit 6 0) (flit 4 0) (flit (-2) 1)), Cylinder);
    (modelView (glm_vec3 (flit 16 1) (flit 5 2) (flit 16 1))
       (flit 90 0) (flit 0 0) (flit 0 0)
       (glm_vec3 (flit (-2) 0) (flit 7 0) (flit (-495) 2)), Cylinder);
    (modelView (glm_vec3 (flit 15 1) (flit 1 1) (flit 15 1))
       (flit 90 0) (flit 0 0) (flit 0 0)
       (glm_vec3 (flit (-2) 0) (flit 7 0) (flit (-49) 1)), Cylinder);
    (modelView (glm_vec3 (flit 12 1) (flit 1 0) (flit 12 1))
       (flit 0 0) (flit 0 0) (flit 0 0)
       (glm_vec3 (flit 2 0) (flit 5 1) (flit 0 0)), Sphere) ].

(** The leaf drawn by iteration [i] of the loop. *)
Definition leaf_object (i : Z) : mat4 * MeshKind :=
  (modelView (glm_vec3 (flit 12 2) (randomHeight i) (flit 4 1))
     (xTilt i) (yRotation i) (zLean i)
     (glm_vec3 (flit 2 0) (flit 13 1) (flit 0 0)), TaperedCylinder).

(** The key calls of one object: its model matrix, the values written to
    "bUseTexture" before it is drawn, and its draw. *)
Definition object_key_calls (o : (mat4 * MeshKind) * list Z) : list Event :=
  E_setMat4Value g_ModelName (fst (fst o))
  :: map (E_setIntValue g_UseTextureName) (snd o)
  ++ [E_DrawMesh (snd (fst o))].

(** The values [RenderScene] writes to "bUseTexture" between the transform
    and the draw of each of the ten fixed objects, through
    [SetShaderTexture], [SetShaderColor] and its own [setIntValue] calls;
    the neck, the shade and the joint write none. *)
Definition fixed_flag_writes : list (list Z) :=
  [ [1; 1]; [0]; [0]; []; []; [0; 0]; []; [0; 0]; [1; 1]; [0] ].

(** The loop counter's values. *)
Definition leaf_indices : list Z := [0; 1; 2; 3; 4; 5; 6; 7; 8; 9].

(** [issues s c K]: run on the object [s], [c] returns, changes nothing but
    the trace, and the key calls it makes are [K]. *)
Definition issues (s : SceneManager) (c : M unit) (K : list Event) : Prop :=
  forall w : World, scene w = s ->
    exists events : list Event,
      c w = Ok (tt, append_trace w events) /\ key_events events = K.

(** The object with its texture registry replaced. *)
Definition registry_with (s : SceneManager) (count : Z)
    (entries : list TEXTURE_INFO) : SceneManager :=
  {| m_pShaderManager := m_pShaderManager s;
     m_loadedTextures := count;
     m_textureIDs := entries;
     m_objectMaterials := m_objectMaterials s |}.

(** The calls [CreateGLTexture] makes up to and including [glTexImage2D]
    for an image that decodes. *)
Definition upload_calls (filename : string) (image : Image) (name : Z)
    : list Event :=
  [ E_stbi_set_flip_vertically_on_load true;
    E_stbi_load filename;
    E_cout (SuccessfullyLoaded filename (width image) (height image)
              (colorChannels image));
    E_glGenTextures name;
    E_glBindTexture name;
    E_glTexParameteri GL_TEXTURE_WRAP_S GL_REPEAT;
    E_glTexParameteri GL_TEXTURE_WRAP_T GL_REPEAT;
    E_glTexParameteri GL_TEXTURE_MIN_FILTER GL_LINEAR;
    E_glTexParameteri GL_TEXTURE_MAG_FILTER GL_LINEAR ].

(** A world of the sample environment around the sample registry. *)
Definition sample_world (p : ShaderManagerPtr) : World :=
  {| scene := sample_scene p; gl_names := [3; 2; 1]; trace := [] |}.

(** The sample registry filled to capacity. *)
Definition full_world (p : ShaderManagerPtr) : World :=
  {| scene := registry_with (sample_scene p) 16
                (replicate 16 {| tag := "wood"; ID := 1 |});
     gl_names := [1]; trace := [] |}.

(** The registered entries: the part of the texture array below the count
    of loaded textures. *)
Definition registered (s : SceneManager) : list TEXTURE_INFO :=
  take (Z.to_nat (m_loadedTextures s)) (m_textureIDs s).

Definition registered_tags (s : SceneManager) : list string :=
  map tag (registered s).

(** The file and tag of each [CreateGLTexture] call of
    [LoadSceneTextures], in order. *)
Definition scene_textures : list (string * string) :=
  [ ("textures/wood.jpg", "wood"); ("textures/wall.jpg", "wall");
    ("textures/pot.jpg", "pot"); ("textures/leaf.jpg", "leaf");
    ("textures/lamp.jpg", "lamp"); ("textures/marble.jpg", "marble");
    ("textures/granite.jpg", "granite"); ("textures/gold.jpg", "gold") ].

(** A run of [CreateGLTexture] calls, the returned flags dropped as
    [LoadSceneTextures] drops them. *)
Fixpoint load_textures (calls : list (string * string)) : M unit :=
  match calls with
  | [] => ret tt
  | (filename, tag') :: rest =>
      bReturn <- CreateGLTexture filename tag' ;; load_textures rest
  end.

(** Whether [CreateGLTexture] registers the file: it decodes, with three
    or four colour channels. *)
Definition loads (filename : string) : bool :=
  match stbi_load filename with
  | Some image => (colorChannels image =? 3) || (colorChannels image =? 4)
  | None => false
  end.

(** The tags among [calls] whose file registers. *)
Definition loaded_tags (calls : list (string * string)) : list string :=
  map snd (List.filter (fun c => loads (fst c)) calls).

(** The calls of the texture registry: image decoder, log and OpenGL. *)
Definition is_texture_call (e : Event) : bool :=
  match e with
  | E_stbi_set_flip_vertically_on_load _ | E_stbi_load _ | E_stbi_image_free
  | E_cout _ | E_glGenTextures _ | E_glBindTexture _ | E_glTexParameteri _ _
  | E_glTexImage2D _ _ _ _ | E_glGenerateMipmap | E_glActiveTexture _ => true
  | _ => false
  end.

(** The mesh loads of a trace, in order. *)
Definition mesh_loads (events : list Event) : list MeshKind :=
  flat_map (fun e => match e with E_LoadMesh k => [k] | _ => [] end) events.

(** The number of [stbi_load] calls in a trace. *)
Definition load_calls (events : list Event) : nat :=
  length (List.filter (fun e => match e with E_stbi_load _ => true | _ => false end)
            events).

(** ** The fixed scene script

    The application constructs the object, calls [PrepareScene] once and
    then [RenderScene] for every frame.  [script_state w] holds of the
    worlds this run goes through: after any number of the texture loads,
    after [LoadSceneTextures], after [PrepareScene], and after each
    frame. *)
Inductive frame_state : World -> Prop :=
  | after_PrepareScene (p : ShaderManagerPtr) (junk : Z) (w : World) :
      PrepareScene (initial_world p junk) = Ok (tt, w) ->
      frame_state w
  | after_RenderScene (w w' : World) :
      frame_state w -> RenderScene w = Ok (tt, w') ->
      frame_state w'.

Inductive script_state : World -> Prop :=
  | after_loads (p : ShaderManagerPtr) (junk : Z) (k : nat) (w : World) :
      load_textures (take k scene_textures) (initial_world p junk) = Ok (tt, w) ->
      script_state w
  | after_LoadSceneTextures (p : ShaderManagerPtr) (junk : Z) (w : World) :
      LoadSceneTextures (initial_world p junk) = Ok (tt, w) ->
      script_state w
  | in_frames (w : World) :
      frame_state w -> script_state w.

(** The calls of the loop of [BindGLTextures] over [entries], the first
    of them bound to unit [first]. *)
Fixpoint bind_calls (first : Z) (entries : list TEXTURE_INFO) : list Event :=
  match entries with
  | [] => []
  | e :: rest =>
      E_glActiveTexture first :: E_glBindTexture (ID e)
      :: bind_calls (first + 1) rest
  end.

(** The five uploads of [SetShaderMaterial] for the material it found. *)
Definition material_uploads (material : OBJECT_MATERIAL) : list Event :=
  [ E_setVec3Value "material.ambientColor" (ambientColor material);
    E_setFloatValue "material.ambientStrength" (ambientStrength material);
    E_setVec3Value "material.diffuseColor" (diffuseColor material);
    E_setVec3Value "material.specularColor" (specularColor material);
    E_setFloatValue "material.shininess" (shininess material) ].

(** [replays s c]: on every world around the object [s], [c] returns
    having made one and the same sequence of calls and changed nothing
    else. *)
Definition replays (s : SceneManager) (c : M unit) : Prop :=
  exists events : list Event,
    forall w : World, scene w = s -> c w = Ok (tt, append_trace w events).

(** The registered handles are pairwise different and in use. *)
Definition handles_ok (w : World) : Prop :=
  NoDup (map ID (registered (scene w))) /\
  forall name : Z, In name (map ID (registered (scene w))) -> In name (gl_names w).

(** ** The calls of one frame

    [emits s c events]: on every world around the object [s], [c] returns
    having made exactly the calls [events], in this order, and changed
    nothing else. *)
Definition emits (s : SceneManager) (c : M unit) (events : list Event) : Prop :=
  forall w : World, scene w = s -> c w = Ok (tt, append_trace w events).

(** The thirteen uploads of [SetupSceneLights]. *)
Definition light_uploads : list Event :=
  [ E_setVec3Value "dirLight.direction"
      (glm_vec3 (flit (-5) 1) (flit (-8) 1) (flit 8 1));
    E_setVec3Value "dirLight.ambient" (glm_vec3 (flit 3 1) (flit 3 1) (flit 3 1));
    E_setVec3Value "dirLight.diffuse" (glm_vec3 (flit 7 1) (flit 7 1) (flit 7 1));
    E_setVec3Value "spotLight.position"
      (glm_vec3 (flit 55 1) (flit 4 0) (flit 5 1));
    E_setVec3Value "spotLight.direction"
      (glm_vec3 (flit (-8) 1) (flit (-1) 0) (flit (-2) 1));
    E_setVec3Value "spotLight.ambient" (glm_vec3 (flit 1 1) (flit 1 1) (flit 1 1));
    E_setVec3Value "spotLight.diffuse"
      (glm_vec3 (flit 1 0) (flit 95 2) (flit 8 1));
    E_setVec3Value "spotLight.specular" (glm_vec3 (flit 1 0) (flit 1 0) (flit 1 0));
    E_setFloatValue "spotLight.constant" (flit 1 0);
    E_setFloatValue "spotLight.linear" (flit 45 3);
    E_setFloatValue "spotLight.quadratic" (flit 75 4);
    E_setFloatValue "spotLight.cutOff" (glm_cos (glm_radians (flit 15 0)));
    E_setFloatValue "spotLight.outerCutOff" (glm_cos (glm_radians (flit 25 0))) ].

(** What [FindTextureSlot] returns for [textureTag]. *)
Definition slot_of (s : SceneManager) (textureTag : string) : Z :=
  match FindTextureSlot s textureTag with
  | Ok slot => slot
  | Crash _ => -1
  end.

(** The calls of [SetShaderTexture]: the flag, then the sampler with the
    slot found for the tag. *)
Definition texture_state (s : SceneManager) (textureTag : string) : list Event :=
  [ E_setIntValue g_UseTextureName 1;
    E_setSampler2DValue g_TextureValueName (slot_of s textureTag) ].

(** The calls of [SetShaderColor]: the flag, then the colour. *)
Definition color_state (r g b a : float) : list Event :=
  [ E_setIntValue g_UseTextureName 0;
    E_setVec4Value g_ColorValueName (glm_vec4 r g b a) ].

(** The calls of [SetShaderMaterial]: none on an empty table, otherwise
    the five uploads of the material [FindMaterial] hands back. *)
Definition material_state (s : SceneManager) (materialTag : string)
    : list Event :=
  if 0 <? Z.of_nat (length (m_objectMaterials s)) then
    match FindMaterial s materialTag indeterminate_material with
    | Ok (true, material) => material_uploads material
    | _ => []
    end
  else [].

(** The calls [RenderScene] makes between the transform and the draw of
    each of the ten fixed objects: back wall, desk, lamp base, neck, shade,
    bulb, joint, clock, clock face, pot. *)
Definition fixed_object_states (s : SceneManager) : list (list Event) :=
  [ texture_state s "wall"
    ++ [E_setIntValue "bUseTexture" 1;
        E_setVec2Value "UVscale" (glm_vec2 (flit 1 0) (flit 1 0))]
    ++ material_state s "wall";
    material_state s "wall"
    ++ color_state (flit 1 0) (flit 1 0) (flit 1 0) (flit 1 0);
    material_state s "granite"
    ++ color_state (flit 85 2) (flit 85 2) (flit 85 2) (flit 1 0);
    material_state s "lamp";
    material_state s "lamp";
    color_state (flit 1 0) (flit 1 0) (flit 0 0) (flit 1 0)
    ++ [E_setIntValue "bUseTexture" 0];
    material_state s "gold";
    material_state s "marble"
    ++ [E_setIntValue "bUseTexture" 0]
    ++ color_state (flit 2 1) (flit 2 1) (flit 2 1) (flit 1 0);
    texture_state s "wood" ++ [E_setIntValue "bUseTexture" 1];
    material_state s "granite"
    ++ color_state (flit 8 1) (flit 8 1) (flit 8 1) (flit 1 0) ].

(** The calls made once between the pot and the leaf loop. *)
Definition leaf_texture_state (s : SceneManager) : list Event :=
  E_setIntValue "bUseTexture" 1 :: texture_state s "leaf".

(** All the calls made for one object: its model matrix, its state, its
    draw. *)
Definition object_events (o : (mat4 * MeshKind) * list Event) : list Event :=
  E_setMat4Value g_ModelName (fst (fst o)) :: snd o ++ [E_DrawMesh (snd (fst o))].

(** The calls of a frame after the lights: the ten fixed objects, the
    leaf texture, the ten leaves. *)
Definition scene_calls (s : SceneManager) : list Event :=
  flat_map object_events (combine fixed_objects (fixed_object_states s))
  ++ leaf_texture_state s
  ++ flat_map object_calls (map leaf_object leaf_indices).

(** The calls to OpenGL. *)
Definition is_gl_call (e : Event) : bool :=
  match e with
  | E_glGenTextures _ | E_glBindTexture _ | E_glTexParameteri _ _
  | E_glTexImage2D _ _ _ _ | E_glGenerateMipmap | E_glActiveTexture _ => true
  | _ => false
  end.

(** The files passed to [stbi_load] in a trace, in order. *)
Definition loaded_files (events : list Event) : list string :=
  flat_map (fun e => match e with E_stbi_load filename => [filename] | _ => [] end)
    events.

End Observations.

(** What [LoadSceneTextures] leaves of the newly constructed object in the
    sample environment. *)
Definition loaded_sample_world : @World sample_glm :=
  Eval cbv -[sample_glm] in
    match @LoadSceneTextures sample_glm sample_host
            (initial_world ShaderManagerAt 0) with
    | Ok (_, w) => w
    | Crash _ => initial_world ShaderManagerAt 0
    end.

(** * Properties *)

Section Lookup.

Lemma read_texture_Ok (s : SceneManager) (i : Z) (e : TEXTURE_INFO) :
  0 <= i < TEXTURE_CAPACITY ->
  m_textureIDs s !! Z.to_nat i = Some e ->
  read_texture s i = Ok e.
Proof.
  intros [H0 H1] He. unfold read_texture.
  apply Z.leb_le in H0. apply Z.ltb_lt in H1.
  now rewrite H0, H1, He.
Qed.

Lemma registry_ok_lookup (s : SceneManager) (i : Z) :
  registry_ok s -> 0 <= i < m_loadedTextures s ->
  exists e, m_textureIDs s !! Z.to_nat i = Some e.
Proof.
  intros [Hlen Hcount] Hi. unfold TEXTURE_CAPACITY in Hcount.
  destruct (lookup_lt_is_Some_2 (m_textureIDs s) (Z.to_nat i)) as [e He];
    [lia | eauto].
Qed.

(** The entry read by an iteration of a scan below the count. *)
Ltac read_registered s index Hok :=
  let e' := fresh "e'" in
  let He' := fresh "He'" in
  destruct (registry_ok_lookup s index Hok) as [e' He']; [lia |];
  rewrite (read_texture_Ok s index e')
    by (unfold TEXTURE_CAPACITY; auto with zarith).

(** Once [bFound] is set the loop test fails, whatever fuel is left. *)
Lemma FindTextureID_while_found fuel s q textureID index :
  FindTextureID_while fuel s q textureID index true = Ok textureID.
Proof. destruct fuel; simpl; now rewrite andb_false_r. Qed.

Lemma FindTextureSlot_while_found fuel s q textureSlot index :
  FindTextureSlot_while fuel s q textureSlot index true = Ok textureSlot.
Proof. destruct fuel; simpl; now rewrite andb_false_r. Qed.

(** The scan from [index] stops at the first entry [i] tagged [q]. *)
Lemma FindTextureID_while_hit s q e i :
  registry_ok s ->
  0 <= i < m_loadedTextures s ->
  m_textureIDs s !! Z.to_nat i = Some e -> tag e = q ->
  forall (n : nat) (index : Z) (fuel : nat) (textureID : Z),
    0 <= index -> i = index + Z.of_nat n -> (n < fuel)%nat ->
    (forall j e', index <= j < i ->
       m_textureIDs s !! Z.to_nat j = Some e' -> tag e' <> q) ->
    FindTextureID_while fuel s q textureID index false = Ok (int_of_uint32 (ID e)).
Proof.
  intros Hok Hi He Hq n.
  assert (Hcap : m_loadedTextures s <= 16) by (destruct Hok as [_ H]; apply H).
  induction n as [|n IH]; intros index fuel textureID H0 Hn Hfuel Hmiss;
    (destruct fuel as [|fuel]; [lia|]); simpl.
  - replace index with i by lia.
    destruct (Z.ltb_spec i (m_loadedTextures s)); [simpl | lia].
    rewrite (read_texture_Ok s i e) by (unfold TEXTURE_CAPACITY; auto with zarith).
    apply String.eqb_eq in Hq. rewrite Hq.
    apply FindTextureID_while_found.
  - destruct (Z.ltb_spec index (m_loadedTextures s)); [simpl | lia].
    read_registered s index Hok.
    destruct (String.eqb_spec (tag e') q) as [Heq|Hne].
    + exfalso. apply (Hmiss index e'); [lia | assumption | assumption].
    + apply IH; [lia | lia | lia |].
      intros j e'' Hj. apply Hmiss. lia.
Qed.

Lemma FindTextureSlot_while_hit s q e i :
  registry_ok s ->
  0 <= i < m_loadedTextures s ->
  m_textureIDs s !! Z.to_nat i = Some e -> tag e = q ->
  forall (n : nat) (index : Z) (fuel : nat) (textureSlot : Z),
    0 <= index -> i = index + Z.of_nat n -> (n < fuel)%nat ->
    (forall j e', index <= j < i ->
       m_textureIDs s !! Z.to_nat j = Some e' -> tag e' <> q) ->
    FindTextureSlot_while fuel s q textureSlot index false = Ok i.
Proof.
  intros Hok Hi He Hq n.
  assert (Hcap : m_loadedTextures s <= 16) by (destruct Hok as [_ H]; apply H).
  induction n as [|n IH]; intros index fuel textureSlot H0 Hn Hfuel Hmiss;
    (destruct fuel as [|fuel]; [lia|]); simpl.
  - replace index with i by lia.
    destruct (Z.ltb_spec i (m_loadedTextures s)); [simpl | lia].
    rewrite (read_texture_Ok s i e) by (unfold TEXTURE_CAPACITY; auto with zarith).
    apply String.eqb_eq in Hq. rewrite Hq.
    apply FindTextureSlot_while_found.
  - destruct (Z.ltb_spec index (m_loadedTextures s)); [simpl | lia].
    read_registered s index Hok.
    destruct (String.eqb_spec (tag e') q) as [Heq|Hne].
    + exfalso. apply (Hmiss index e'); [lia | assumption | assumption].
    + apply IH; [lia | lia | lia |].
      intros j e'' Hj. apply Hmiss. lia.
Qed.

(** With no entry tagged [q] from [index] on, the scan runs to the count
    and the initial value of the result is returned. *)
Lemma FindTextureID_while_miss s q :
  registry_ok s ->
  forall (n : nat) (index : Z) (fuel : nat) (textureID : Z),
    0 <= index -> m_loadedTextures s <= index + Z.of_nat n -> (n <= fuel)%nat ->
    (forall j e', index <= j < m_loadedTextures s ->
       m_textureIDs s !! Z.to_nat j = Some e' -> tag e' <> q) ->
    FindTextureID_while fuel s q textureID index false = Ok textureID.
Proof.
  intros Hok n.
  assert (Hcap : m_loadedTextures s <= 16) by (destruct Hok as [_ H]; apply H).
  induction n as [|n IH]; intros index fuel textureID H0 Hn Hfuel Hmiss.
  - destruct fuel; simpl;
      (destruct (Z.ltb_spec index (m_loadedTextures s)); [lia | reflexivity]).
  - destruct fuel as [|fuel]; [lia|]. simpl.
    destruct (Z.ltb_spec index (m_loadedTextures s)); [simpl | reflexivity].
    read_registered s index Hok.
    destruct (String.eqb_spec (tag e') q) as [Heq|Hne].
    + exfalso. apply (Hmiss index e'); [lia | assumption | assumption].
    + apply IH; [lia | lia | lia |].
      intros j e'' Hj. apply Hmiss. lia.
Qed.

Lemma FindTextureSlot_while_miss s q :
  registry_ok s ->
  forall (n : nat) (index : Z) (fuel : nat) (textureSlot : Z),
    0 <= index -> m_loadedTextures s <= index + Z.of_nat n -> (n <= fuel)%nat ->
    (forall j e', index <= j < m_loadedTextures s ->
       m_textureIDs s !! Z.to_nat j = Some e' -> tag e' <> q) ->
    FindTextureSlot_while fuel s q textureSlot index false = Ok textureSlot.
Proof.
  intros Hok n.
  assert (Hcap : m_loadedTextures s <= 16) by (destruct Hok as [_ H]; apply H).
  induction n as [|n IH]; intros index fuel textureSlot H0 Hn Hfuel Hmiss.
  - destruct fuel; simpl;
      (destruct (Z.ltb_spec index (m_loadedTextures s)); [lia | reflexivity]).
  - destruct fuel as [|fuel]; [lia|]. simpl.
    destruct (Z.ltb_spec index (m_loadedTextures s)); [simpl | reflexivity].
    read_registered s index Hok.
    destruct (String.eqb_spec (tag e') q) as [Heq|Hne].
    + exfalso. apply (Hmiss index e'); [lia | assumption | assumption].
    + apply IH; [lia | lia | lia |].
      intros j e'' Hj. apply Hmiss. lia.
Qed.

Lemma int_of_uint32_small (v : Z) : 0 <= v < 2 ^ 31 -> int_of_uint32 v = v.
Proof.
  intros Hv. unfold int_of_uint32. cbv zeta.
  rewrite Z.mod_small by lia.
  destruct (Z.ltb_spec v (2 ^ 31)); [reflexivity | lia].
Qed.

(** The scan always ends within its fuel, on -1 or on a registered index. *)
Lemma FindTextureSlot_while_total s q :
  registry_ok s ->
  forall (n : nat) (index : Z) (fuel : nat) (textureSlot : Z) (bFound : bool),
    0 <= index -> m_loadedTextures s <= index + Z.of_nat n -> (n <= fuel)%nat ->
    exists r, FindTextureSlot_while fuel s q textureSlot index bFound = Ok r /\
              (r = textureSlot \/ index <= r < m_loadedTextures s).
Proof.
  intros Hok n.
  assert (Hcap : m_loadedTextures s <= 16) by (destruct Hok as [_ H]; apply H).
  induction n as [|n IH]; intros index fuel textureSlot bFound H0 Hn Hfuel;
    (destruct bFound;
     [rewrite FindTextureSlot_while_found; eauto |]).
  - exists textureSlot. split; [|auto].
    destruct fuel; simpl;
      (destruct (Z.ltb_spec index (m_loadedTextures s)); [lia | reflexivity]).
  - destruct fuel as [|fuel]; [lia|]. simpl.
    destruct (Z.ltb_spec index (m_loadedTextures s)); [simpl | eauto].
    read_registered s index Hok.
    destruct (String.eqb (tag e') q).
    + rewrite FindTextureSlot_while_found. exists index. split; [reflexivity | lia].
    + destruct (IH (index + 1) fuel textureSlot false) as [r [Hr Hrange]];
        [lia | lia | lia |].
      exists r. split; [exact Hr | lia].
Qed.

Lemma FindTextureSlot_total (s : SceneManager) (q : string) :
  registry_ok s ->
  exists slot, FindTextureSlot s q = Ok slot /\ -1 <= slot < m_loadedTextures s.
Proof.
  intros Hok. unfold FindTextureSlot.
  destruct (FindTextureSlot_while_total s q Hok (Z.to_nat (m_loadedTextures s))
              0 (Z.to_nat (m_loadedTextures s)) (-1) false) as [r [Hr Hrange]];
    [lia | lia | lia |].
  exists r. split; [exact Hr |].
  destruct Hok as [_ Hcount]. lia.
Qed.

Lemma registered_tags_lookup (s : SceneManager) (j : Z) (e : TEXTURE_INFO) :
  0 <= j < m_loadedTextures s ->
  m_textureIDs s !! Z.to_nat j = Some e ->
  In (tag e) (registered_tags s).
Proof.
  intros Hj He. unfold registered_tags, registered.
  apply in_map. apply list_elem_of_In.
  apply list_elem_of_lookup. exists (Z.to_nat j).
  rewrite lookup_take_lt by lia. exact He.
Qed.

Lemma FindTextureSlot_unregistered (s : SceneManager) (q : string) :
  registry_ok s -> ~ In q (registered_tags s) -> FindTextureSlot s q = Ok (-1).
Proof.
  intros Hok Hq. unfold FindTextureSlot.
  apply (FindTextureSlot_while_miss s q Hok (Z.to_nat (m_loadedTextures s)));
    [lia | lia | lia |].
  intros j e' Hj He' Heq. apply Hq. rewrite <- Heq.
  apply (registered_tags_lookup s j e'); [lia | exact He'].
Qed.

Lemma FindTextureID_while_total s q :
  registry_ok s ->
  forall (n : nat) (index : Z) (fuel : nat) (textureID : Z) (bFound : bool),
    0 <= index -> m_loadedTextures s <= index + Z.of_nat n -> (n <= fuel)%nat ->
    exists r, FindTextureID_while fuel s q textureID index bFound = Ok r.
Proof.
  intros Hok n.
  assert (Hcap : m_loadedTextures s <= 16) by (destruct Hok as [_ H]; apply H).
  induction n as [|n IH]; intros index fuel textureID bFound H0 Hn Hfuel;
    (destruct bFound;
     [rewrite FindTextureID_while_found; eauto |]).
  - exists textureID.
    destruct fuel; simpl;
      (destruct (Z.ltb_spec index (m_loadedTextures s)); [lia | reflexivity]).
  - destruct fuel as [|fuel]; [lia|]. simpl.
    destruct (Z.ltb_spec index (m_loadedTextures s)); [simpl | eauto].
    read_registered s index Hok.
    destruct (String.eqb (tag e') q).
    + rewrite FindTextureID_while_found. eauto.
    + apply IH; lia.
Qed.

Lemma FindTextureID_total (s : SceneManager) (q : string) :
  registry_ok s -> exists id, FindTextureID s q = Ok id.
Proof.
  intros Hok. unfold FindTextureID.
  apply (FindTextureID_while_total s q Hok (Z.to_nat (m_loadedTextures s))); lia.
Qed.

End Lookup.

Section TextureLookup.

(** C3. On a registry within its bounds, [FindTextureID] and
    [FindTextureSlot] scan the registered entries from index 0: for the
    first entry whose tag equals the query they return its handle (as the
    [int] the function returns, the handle itself when below 2^31) and its
    index; when no registered entry carries the tag both return -1, and
    neither faults. *)
Theorem texture_lookup_first_match_or_sentinel (s : SceneManager) (q : string) :
  registry_ok s ->
  (forall (i : Z) (e : TEXTURE_INFO),
     0 <= i < m_loadedTextures s ->
     m_textureIDs s !! Z.to_nat i = Some e -> tag e = q ->
     (forall (j : Z) (e' : TEXTURE_INFO), 0 <= j < i ->
        m_textureIDs s !! Z.to_nat j = Some e' -> tag e' <> q) ->
     FindTextureID s q = Ok (int_of_uint32 (ID e)) /\
     (0 <= ID e < 2 ^ 31 -> FindTextureID s q = Ok (ID e)) /\
     FindTextureSlot s q = Ok i)
  /\
  ((forall (j : Z) (e' : TEXTURE_INFO), 0 <= j < m_loadedTextures s ->
      m_textureIDs s !! Z.to_nat j = Some e' -> tag e' <> q) ->
   FindTextureID s q = Ok (-1) /\ FindTextureSlot s q = Ok (-1)).
Proof.
  intros Hok. split.
  - intros i e Hi He Hq Hfirst.
    assert (HID : FindTextureID s q = Ok (int_of_uint32 (ID e))).
    { unfold FindTextureID.
      apply (FindTextureID_while_hit s q e i Hok Hi He Hq (Z.to_nat i));
        [lia | lia | lia |].
      intros j e' Hj. apply Hfirst. lia. }
    split; [exact HID | split].
    + intros Hsmall. rewrite HID. now rewrite int_of_uint32_small.
    + unfold FindTextureSlot.
      apply (FindTextureSlot_while_hit s q e i Hok Hi He Hq (Z.to_nat i));
        [lia | lia | lia |].
      intros j e' Hj. apply Hfirst. lia.
  - intros Hmiss. split.
    + unfold FindTextureID.
      apply (FindTextureID_while_miss s q Hok (Z.to_nat (m_loadedTextures s)));
        [lia | lia | lia |].
      intros j e' Hj. apply Hmiss. lia.
    + unfold FindTextureSlot.
      apply (FindTextureSlot_while_miss s q Hok (Z.to_nat (m_loadedTextures s)));
        [lia | lia | lia |].
      intros j e' Hj. apply Hmiss. lia.
Qed.

Lemma sample_scene_ok (p : ShaderManagerPtr) : registry_ok (sample_scene p).
Proof. split; [reflexivity | unfold TEXTURE_CAPACITY; simpl; lia]. Defined.

(** The theorem at the sample registry: "leaf" is the third entry. *)
Lemma texture_lookup_witness :
  registry_ok (sample_scene NULL) /\
  FindTextureID (sample_scene NULL) "leaf" = Ok 3 /\
  FindTextureSlot (sample_scene NULL) "leaf" = Ok 2.
Proof.
  split; [apply sample_scene_ok |].
  destruct (texture_lookup_first_match_or_sentinel (sample_scene NULL) "leaf"
              (sample_scene_ok NULL)) as [Hhit _].
  destruct (Hhit 2 {| tag := "leaf"; ID := 3 |}) as (_ & HID & Hslot).
  - simpl. lia.
  - reflexivity.
  - reflexivity.
  - intros j e' Hj He'.
    assert (Hj' : j = 0 \/ j = 1) by lia.
    destruct Hj' as [-> | ->]; simpl in He'; inversion He'; discriminate.
  - split; [apply HID; simpl; lia | exact Hslot].
Defined.

End TextureLookup.

Section MaterialLookup.

Lemma FindMaterial_while_found fuel s q material index :
  FindMaterial_while fuel s q material index true = Ok (true, material).
Proof. destruct fuel; simpl; now rewrite andb_false_r. Qed.

(** No preset from [index] on carries the tag: the loop runs off the end of
    the vector with [bFound] still false and the output untouched. *)
Lemma FindMaterial_while_miss s q material :
  forall (n : nat) (index : Z) (fuel : nat),
    0 <= index ->
    Z.of_nat (length (m_objectMaterials s)) <= index + Z.of_nat n ->
    (n <= fuel)%nat ->
    (forall j m, (Z.to_nat index <= j)%nat ->
       m_objectMaterials s !! j = Some m -> material_tag m <> q) ->
    FindMaterial_while fuel s q material index false = Ok (false, material).
Proof.
  induction n as [|n IH]; intros index fuel H0 Hn Hfuel Hmiss.
  - destruct fuel; simpl;
      (destruct (Z.ltb_spec index (Z.of_nat (length (m_objectMaterials s))));
       [lia | reflexivity]).
  - destruct fuel as [|fuel]; [lia|]. simpl.
    destruct (Z.ltb_spec index (Z.of_nat (length (m_objectMaterials s))));
      [simpl | reflexivity].
    destruct (lookup_lt_is_Some_2 (m_objectMaterials s) (Z.to_nat index))
      as [m Hm]; [lia|].
    rewrite Hm.
    destruct (String.eqb_spec (material_tag m) q) as [Heq|Hne].
    + exfalso. apply (Hmiss (Z.to_nat index) m); [lia | assumption | assumption].
    + apply IH; [lia | lia | lia |].
      intros j m' Hj. apply Hmiss. lia.
Qed.

(** The first preset carrying the tag is copied into the output. *)
Lemma FindMaterial_while_hit s q material i m :
  m_objectMaterials s !! i = Some m -> material_tag m = q ->
  forall (n : nat) (index : Z) (fuel : nat),
    0 <= index -> Z.of_nat i = index + Z.of_nat n -> (n < fuel)%nat ->
    (forall j m', (Z.to_nat index <= j < i)%nat ->
       m_objectMaterials s !! j = Some m' -> material_tag m' <> q) ->
    FindMaterial_while fuel s q material index false
    = Ok (true, copy_material m material).
Proof.
  intros Hm Hq n.
  assert (Hlt : (i < length (m_objectMaterials s))%nat)
    by (apply lookup_lt_is_Some_1; eauto).
  induction n as [|n IH]; intros index fuel H0 Hn Hfuel Hmiss;
    (destruct fuel as [|fuel]; [lia|]); simpl;
    (destruct (Z.ltb_spec index (Z.of_nat (length (m_objectMaterials s))));
     [simpl | lia]).
  - replace (Z.to_nat index) with i by lia. rewrite Hm.
    apply String.eqb_eq in Hq. rewrite Hq.
    apply FindMaterial_while_found.
  - destruct (lookup_lt_is_Some_2 (m_objectMaterials s) (Z.to_nat index))
      as [m' Hm']; [lia|].
    rewrite Hm'.
    destruct (String.eqb_spec (material_tag m') q) as [Heq|Hne].
    + exfalso. apply (Hmiss (Z.to_nat index) m'); [lia | assumption | assumption].
    + apply IH; [lia | lia | lia |].
      intros j m'' Hj. apply Hmiss. lia.
Qed.

(** What [FindMaterial] returns for a tag that no preset carries: [false]
    only when the table is empty, [true] otherwise, the output untouched. *)
Lemma FindMaterial_absent (s : SceneManager) (q : string) (material : OBJECT_MATERIAL) :
  (forall j m, m_objectMaterials s !! j = Some m -> material_tag m <> q) ->
  FindMaterial s q material
  = Ok (negb (Z.of_nat (length (m_objectMaterials s)) =? 0), material).
Proof.
  intros Hmiss. unfold FindMaterial.
  destruct (Z.eqb_spec (Z.of_nat (length (m_objectMaterials s))) 0);
    [reflexivity|].
  rewrite (FindMaterial_while_miss s q material (length (m_objectMaterials s)));
    [reflexivity | lia | lia | lia |].
  intros j m _. apply Hmiss.
Qed.

(** For a tag that a preset carries, [true] and the first such preset's
    five values. *)
Lemma FindMaterial_present (s : SceneManager) (q : string)
    (material : OBJECT_MATERIAL) (i : nat) (m : OBJECT_MATERIAL) :
  m_objectMaterials s !! i = Some m -> material_tag m = q ->
  (forall j m', (j < i)%nat ->
     m_objectMaterials s !! j = Some m' -> material_tag m' <> q) ->
  FindMaterial s q material = Ok (true, copy_material m material).
Proof.
  intros Hm Hq Hfirst. unfold FindMaterial.
  assert (Hlt : (i < length (m_objectMaterials s))%nat)
    by (apply lookup_lt_is_Some_1; eauto).
  destruct (Z.eqb_spec (Z.of_nat (length (m_objectMaterials s))) 0); [lia|].
  rewrite (FindMaterial_while_hit s q material i m Hm Hq i); [reflexivity | | | |];
    [lia | lia | lia |].
  intros j m' Hj. apply Hfirst. lia.
Qed.

(** The loop of [FindMaterial] always ends within its fuel. *)
Lemma FindMaterial_while_total s q :
  forall (n : nat) (index : Z) (fuel : nat) (material : OBJECT_MATERIAL)
         (bFound : bool),
    0 <= index ->
    Z.of_nat (length (m_objectMaterials s)) <= index + Z.of_nat n ->
    (n <= fuel)%nat ->
    exists r, FindMaterial_while fuel s q material index bFound = Ok r.
Proof.
  induction n as [|n IH]; intros index fuel material bFound H0 Hn Hfuel;
    (destruct bFound; [rewrite FindMaterial_while_found; eauto |]).
  - exists (false, material).
    destruct fuel; simpl;
      (destruct (Z.ltb_spec index (Z.of_nat (length (m_objectMaterials s))));
       [lia | reflexivity]).
  - destruct fuel as [|fuel]; [lia|]. simpl.
    destruct (Z.ltb_spec index (Z.of_nat (length (m_objectMaterials s))));
      [simpl | eauto].
    destruct (lookup_lt_is_Some_2 (m_objectMaterials s) (Z.to_nat index))
      as [m Hm]; [lia|].
    rewrite Hm.
    destruct (String.eqb (material_tag m) q).
    + rewrite FindMaterial_while_found. eauto.
    + apply IH; lia.
Qed.

Lemma FindMaterial_total (s : SceneManager) (q : string) (material : OBJECT_MATERIAL) :
  exists (b : bool) (material' : OBJECT_MATERIAL),
    FindMaterial s q material = Ok (b, material').
Proof.
  unfold FindMaterial.
  destruct (Z.of_nat (length (m_objectMaterials s)) =? 0); [eauto |].
  destruct (FindMaterial_while_total s q (length (m_objectMaterials s)) 0
              (length (m_objectMaterials s)) material false) as [[b m] Hr];
    [lia | lia | lia |].
  rewrite Hr. eauto.
Qed.

Context {glm : GlmLib} {host : Host}.

(** [LoadSceneMaterials] appends the five presets, in the order of its
    [push_back] calls. *)
Lemma LoadSceneMaterials_run (w : World) :
  LoadSceneMaterials w
  = Ok (tt, {| scene :=
                 {| m_pShaderManager := m_pShaderManager (scene w);
                    m_loadedTextures := m_loadedTextures (scene w);
                    m_textureIDs := m_textureIDs (scene w);
                    m_objectMaterials :=
                      m_objectMaterials (scene w)
                      ++ [marble; gold; granite; wall; lamp] |};
               gl_names := gl_names w;
               trace := trace w
                        ++ map E_push_back [marble; gold; granite; wall; lamp] |}).
Proof.
  unfold LoadSceneMaterials, push_back_material, bind, get_scene, put_scene,
    emit.
  cbn [scene gl_names trace m_pShaderManager m_loadedTextures m_textureIDs
       m_objectMaterials map].
  repeat rewrite <- app_assoc. reflexivity.
Qed.

(** C1, the failing input.  After [LoadSceneMaterials] on a newly
    constructed object, no preset is tagged "wood", and yet
    [FindMaterial] returns [true] for "wood", with the output material
    left as it was: the not-found case is not reported. *)
Theorem FindMaterial_reports_found_for_absent_tag
    (p : ShaderManagerPtr) (junk : Z) (material : OBJECT_MATERIAL) :
  exists w' : World,
    LoadSceneMaterials (initial_world p junk) = Ok (tt, w') /\
    Forall (fun m => material_tag m <> "wood") (m_objectMaterials (scene w')) /\
    FindMaterial (scene w') "wood" material = Ok (true, material).
Proof.
  rewrite LoadSceneMaterials_run.
  eexists. split; [reflexivity |]. split.
  - cbn [scene m_objectMaterials initial_world SceneManager_new app].
    repeat constructor; discriminate.
  - reflexivity.
Qed.

End MaterialLookup.

Section UniformBridge.

Context {glm : GlmLib} {host : Host}.

Lemma append_trace_nil (w : World) : append_trace w [] = w.
Proof. destruct w; unfold append_trace; simpl. now rewrite app_nil_r. Qed.

Lemma append_trace_app (w : World) (a b : list Event) :
  append_trace (append_trace w a) b = append_trace w (a ++ b).
Proof. unfold append_trace; simpl. now rewrite app_assoc. Qed.

Lemma emit_append (e : Event) (w : World) : emit e w = Ok (tt, append_trace w [e]).
Proof. reflexivity. Qed.

Lemma shader_call_at (e : Event) (w : World) :
  m_pShaderManager (scene w) = ShaderManagerAt ->
  shader_call e w = Ok (tt, append_trace w [e]).
Proof. intros H. unfold shader_call, bind, get_scene. now rewrite H. Qed.

Lemma shader_call_NULL (e : Event) (w : World) :
  m_pShaderManager (scene w) = NULL ->
  shader_call e w = Crash NullDereference.
Proof. intros H. unfold shader_call, bind, get_scene. now rewrite H. Qed.

Lemma if_shader_at (body : M unit) (w : World) :
  m_pShaderManager (scene w) = ShaderManagerAt -> if_shader body w = body w.
Proof. intros H. unfold if_shader, bind, get_scene. now rewrite H. Qed.

Lemma if_shader_NULL (body : M unit) (w : World) :
  m_pShaderManager (scene w) = NULL -> if_shader body w = Ok (tt, w).
Proof. intros H. unfold if_shader, bind, get_scene. now rewrite H. Qed.

(** C2, as the code has it.  [SetTransformations] computes
    translate(position) * rotateX * rotateY * rotateZ * scale, each
    rotation about its coordinate axis by the angle converted to radians;
    it uploads exactly that matrix to the uniform "model" when the shader
    manager pointer is not null, and does nothing when it is null. *)
Theorem SetTransformations_uploads_model_matrix
    (w : World) (scaleXYZ : vec3) (rx ry rz : float) (positionXYZ : vec3) :
  SetTransformations scaleXYZ rx ry rz positionXYZ w
  = Ok (tt,
        match m_pShaderManager (scene w) with
        | NULL => w
        | ShaderManagerAt =>
            append_trace w
              [E_setMat4Value "model"
                 (mat4_mul
                    (mat4_mul
                       (mat4_mul
                          (mat4_mul (glm_translate positionXYZ)
                             (glm_rotate (glm_radians rx)
                                (glm_vec3 (flit 1 0) (flit 0 0) (flit 0 0))))
                          (glm_rotate (glm_radians ry)
                             (glm_vec3 (flit 0 0) (flit 1 0) (flit 0 0))))
                       (glm_rotate (glm_radians rz)
                          (glm_vec3 (flit 0 0) (flit 0 0) (flit 1 0))))
                    (glm_scale scaleXYZ))]
        end).
Proof.
  unfold SetTransformations.
  destruct (m_pShaderManager (scene w)) eqn:Hp.
  - now apply if_shader_NULL.
  - rewrite if_shader_at by assumption. now apply shader_call_at.
Qed.

End UniformBridge.

(** C2 does not hold of every object: on one constructed with a null
    shader manager, [SetTransformations] returns without uploading
    anything to "model". *)
Lemma SetTransformations_null_shader_uploads_nothing :
  let scaleXYZ := glm_vec3 (flit 2 0) (flit 2 0) (flit 2 0) in
  let positionXYZ := glm_vec3 (flit 1 0) (flit 0 0) (flit 0 0) in
  ~ exists w' : @World sample_glm,
      @SetTransformations sample_glm scaleXYZ (flit 90 0) (flit 0 0) (flit 0 0)
        positionXYZ (@initial_world sample_glm NULL 0) = Ok (tt, w') /\
      In (E_setMat4Value "model"
            (@modelView sample_glm scaleXYZ (flit 90 0) (flit 0 0) (flit 0 0)
               positionXYZ))
         (trace w').
Proof.
  intros scaleXYZ positionXYZ [w' [Hrun Hin]].
  unfold SetTransformations in Hrun.
  rewrite if_shader_NULL in Hrun by reflexivity.
  inversion Hrun; subst w'. exact Hin.
Qed.

Section TexturingFlag.

Context {glm : GlmLib} {host : Host}.

(** The flag in force after a trace that ends by writing it and then
    making calls that are neither flag writes nor draws. *)
Lemma draw_modes_after_write (flag : option Z) (tr : list Event) (v : Z)
    (e : Event) (k : MeshKind) :
  is_key_event e = false ->
  draw_modes flag (tr ++ [E_setIntValue g_UseTextureName v; e; E_DrawMesh k])
  = draw_modes flag tr ++ [(k, Some v)].
Proof.
  intros He. revert flag. induction tr as [|e0 tr IH]; intros flag.
  - simpl. destruct e; simpl in *; try reflexivity; try discriminate.
    now rewrite He.
  - destruct e0; simpl; try apply IH. now rewrite IH.
Qed.

(** C10, as the code has it.  With a shader manager attached,
    [SetShaderColor] writes 0 to "bUseTexture" and then uploads the
    colour, and [SetShaderTexture] writes 1 to "bUseTexture" and then
    uploads as sampler the slot found by [FindTextureSlot], -1 for a tag
    that is not registered; a draw issued right after the first is made
    with the flag at 0, and right after the second with the flag at 1. *)
Theorem color_and_texture_set_the_texturing_flag
    (w : World) (r g b a : float) (textureTag : string) (k : MeshKind) :
  m_pShaderManager (scene w) = ShaderManagerAt ->
  registry_ok (scene w) ->
  SetShaderColor r g b a w
  = Ok (tt, append_trace w [E_setIntValue "bUseTexture" 0;
                            E_setVec4Value "objectColor" (glm_vec4 r g b a)])
  /\
  (exists slot : Z,
     FindTextureSlot (scene w) textureTag = Ok slot /\
     (~ In textureTag (registered_tags (scene w)) -> slot = -1) /\
     SetShaderTexture textureTag w
     = Ok (tt, append_trace w [E_setIntValue "bUseTexture" 1;
                               E_setSampler2DValue "objectTexture" slot]))
  /\
  (exists w' : World,
     bind (SetShaderColor r g b a) (fun _ => emit (E_DrawMesh k)) w = Ok (tt, w') /\
     draw_modes None (trace w') = draw_modes None (trace w) ++ [(k, Some 0)])
  /\
  (exists w' : World,
     bind (SetShaderTexture textureTag) (fun _ => emit (E_DrawMesh k)) w = Ok (tt, w') /\
     draw_modes None (trace w') = draw_modes None (trace w) ++ [(k, Some 1)]).
Proof.
  intros Hp Hok.
  assert (Hcolor : SetShaderColor r g b a w
    = Ok (tt, append_trace w [E_setIntValue "bUseTexture" 0;
                              E_setVec4Value "objectColor" (glm_vec4 r g b a)])).
  { unfold SetShaderColor. rewrite if_shader_at by assumption.
    unfold bind. rewrite shader_call_at by assumption.
    rewrite shader_call_at by assumption.
    now rewrite append_trace_app. }
  destruct (FindTextureSlot_total (scene w) textureTag Hok) as [slot [Hslot _]].
  assert (Htexture : SetShaderTexture textureTag w
    = Ok (tt, append_trace w [E_setIntValue "bUseTexture" 1;
                              E_setSampler2DValue "objectTexture" slot])).
  { unfold SetShaderTexture. rewrite if_shader_at by assumption.
    unfold bind. rewrite shader_call_at by assumption.
    unfold get_scene, lift. simpl scene. rewrite Hslot.
    rewrite shader_call_at by assumption.
    now rewrite append_trace_app. }
  split; [exact Hcolor | split; [| split]].
  - exists slot. split; [exact Hslot | split; [| exact Htexture]].
    intros Hnot.
    rewrite (FindTextureSlot_unregistered _ _ Hok Hnot) in Hslot.
    now inversion Hslot.
  - eexists. split.
    + unfold bind at 1. rewrite Hcolor. rewrite emit_append.
      rewrite append_trace_app. reflexivity.
    + simpl trace. now apply draw_modes_after_write.
  - eexists. split.
    + unfold bind at 1. rewrite Htexture. rewrite emit_append.
      rewrite append_trace_app. reflexivity.
    + simpl trace. now apply draw_modes_after_write.
Qed.

End TexturingFlag.

Section Registry.

Context {glm : GlmLib} {host : Host}.

Lemma write_texture_Ok (w : World) (i : Z) (f : TEXTURE_INFO -> TEXTURE_INFO)
    (e : TEXTURE_INFO) :
  0 <= i < TEXTURE_CAPACITY ->
  m_textureIDs (scene w) !! Z.to_nat i = Some e ->
  write_texture i f w
  = Ok (tt, {| scene := registry_with (scene w) (m_loadedTextures (scene w))
                          (<[Z.to_nat i := f e]> (m_textureIDs (scene w)));
               gl_names := gl_names w; trace := trace w |}).
Proof.
  intros Hi He. unfold write_texture, bind, get_scene, lift.
  now rewrite (read_texture_Ok (scene w) i e Hi He).
Qed.

Lemma write_texture_out_of_bounds (w : World) (i : Z)
    (f : TEXTURE_INFO -> TEXTURE_INFO) :
  ~ 0 <= i < TEXTURE_CAPACITY ->
  write_texture i f w = Crash (OutOfBounds i).
Proof.
  intros Hi. unfold write_texture, bind, get_scene, lift, read_texture.
  unfold TEXTURE_CAPACITY in *.
  destruct (Z.leb_spec 0 i); destruct (Z.ltb_spec i 16); simpl;
    try reflexivity; lia.
Qed.

(** The shared tail of the two accepting branches. *)
Lemma register_texture_Ok (w : World) (name : Z) (t : string) :
  registry_ok (scene w) -> m_loadedTextures (scene w) < TEXTURE_CAPACITY ->
  register_texture name t w
  = Ok (true,
        {| scene := registry_with (scene w) (m_loadedTextures (scene w) + 1)
                      (<[Z.to_nat (m_loadedTextures (scene w)) :=
                           {| tag := t; ID := name |}]> (m_textureIDs (scene w)));
           gl_names := gl_names w;
           trace := trace w ++ [E_glGenerateMipmap; E_stbi_image_free;
                                E_glBindTexture 0] |}).
Proof.
  intros [Hlen [Hlo _]] Hroom. unfold TEXTURE_CAPACITY in Hroom.
  set (n := m_loadedTextures (scene w)) in *.
  destruct (lookup_lt_is_Some_2 (m_textureIDs (scene w)) (Z.to_nat n))
    as [e He]; [lia|].
  unfold register_texture, bind, emit, get_scene. simpl scene. fold n.
  rewrite (write_texture_Ok _ n (set_ID name) e)
    by (unfold TEXTURE_CAPACITY; simpl; auto with zarith).
  simpl scene. fold n.
  rewrite (write_texture_Ok _ n (set_tag t) (set_ID name e)).
  - unfold increment_loadedTextures, bind, get_scene, put_scene, ret,
      registry_with. simpl.
    rewrite list_insert_insert_eq.
    repeat rewrite <- app_assoc. reflexivity.
  - unfold TEXTURE_CAPACITY. lia.
  - simpl. apply list_lookup_insert_eq. lia.
Qed.

Lemma register_texture_overflow (w : World) (name : Z) (t : string) :
  ~ 0 <= m_loadedTextures (scene w) < TEXTURE_CAPACITY ->
  register_texture name t w = Crash (OutOfBounds (m_loadedTextures (scene w))).
Proof.
  intros Hfull. unfold register_texture, bind, emit, get_scene. simpl scene.
  now rewrite write_texture_out_of_bounds.
Qed.

(** The three ways through [CreateGLTexture]. *)
Lemma CreateGLTexture_could_not_load (w : World) (filename t : string) :
  stbi_load filename = None ->
  CreateGLTexture filename t w
  = Ok (false, append_trace w [E_stbi_set_flip_vertically_on_load true;
                               E_stbi_load filename;
                               E_cout (CouldNotLoad filename)]).
Proof.
  intros Hload. unfold CreateGLTexture, bind, emit, ret. rewrite Hload.
  unfold append_trace. simpl. repeat rewrite <- app_assoc. reflexivity.
Qed.

Lemma CreateGLTexture_not_implemented (w : World) (filename t : string)
    (image : Image) :
  stbi_load filename = Some image ->
  colorChannels image <> 3 -> colorChannels image <> 4 ->
  CreateGLTexture filename t w
  = Ok (false,
        {| scene := scene w;
           gl_names := gen_name (gl_names w) :: gl_names w;
           trace := trace w
                    ++ upload_calls filename image (gen_name (gl_names w))
                    ++ [E_cout (NotImplementedChannels (colorChannels image))] |}).
Proof.
  intros Hload H3 H4.
  unfold CreateGLTexture, bind, emit, ret, glGenTextures. rewrite Hload. simpl.
  destruct (Z.eqb_spec (colorChannels image) 3); [contradiction|].
  destruct (Z.eqb_spec (colorChannels image) 4); [contradiction|].
  simpl. repeat rewrite <- app_assoc. reflexivity.
Qed.

Lemma CreateGLTexture_registers (w : World) (filename t : string) (image : Image) :
  stbi_load filename = Some image ->
  colorChannels image = 3 \/ colorChannels image = 4 ->
  registry_ok (scene w) -> m_loadedTextures (scene w) < TEXTURE_CAPACITY ->
  CreateGLTexture filename t w
  = Ok (true,
        {| scene := registry_with (scene w) (m_loadedTextures (scene w) + 1)
                      (<[Z.to_nat (m_loadedTextures (scene w)) :=
                           {| tag := t; ID := gen_name (gl_names w) |}]>
                         (m_textureIDs (scene w)));
           gl_names := gen_name (gl_names w) :: gl_names w;
           trace := trace w
                    ++ upload_calls filename image (gen_name (gl_names w))
                    ++ [E_glTexImage2D
                          (if colorChannels image =? 3 then GL_RGB8 else GL_RGBA8)
                          (width image) (height image)
                          (if colorChannels image =? 3 then GL_RGB else GL_RGBA);
                        E_glGenerateMipmap; E_stbi_image_free;
                        E_glBindTexture 0] |}).
Proof.
  intros Hload Hch Hok Hroom.
  unfold CreateGLTexture, bind, emit, ret, glGenTextures. rewrite Hload. simpl.
  destruct (Z.eqb_spec (colorChannels image) 3) as [H3|H3].
  - rewrite register_texture_Ok by assumption. simpl.
    repeat rewrite <- app_assoc. reflexivity.
  - destruct (Z.eqb_spec (colorChannels image) 4) as [H4|H4]; [|lia].
    rewrite register_texture_Ok by assumption. simpl.
    repeat rewrite <- app_assoc. reflexivity.
Qed.

Lemma CreateGLTexture_overflow (w : World) (filename t : string) (image : Image) :
  stbi_load filename = Some image ->
  colorChannels image = 3 \/ colorChannels image = 4 ->
  ~ 0 <= m_loadedTextures (scene w) < TEXTURE_CAPACITY ->
  CreateGLTexture filename t w = Crash (OutOfBounds (m_loadedTextures (scene w))).
Proof.
  intros Hload Hch Hfull.
  unfold CreateGLTexture, bind, emit, ret, glGenTextures. rewrite Hload. simpl.
  destruct (Z.eqb_spec (colorChannels image) 3) as [H3|H3].
  - now rewrite register_texture_overflow.
  - destruct (Z.eqb_spec (colorChannels image) 4) as [H4|H4]; [|lia].
    now rewrite register_texture_overflow.
Qed.

Lemma registered_after_insert (s : SceneManager) (e : TEXTURE_INFO) :
  registry_ok s -> m_loadedTextures s < TEXTURE_CAPACITY ->
  registered (registry_with s (m_loadedTextures s + 1)
                (<[Z.to_nat (m_loadedTextures s) := e]> (m_textureIDs s)))
  = registered s ++ [e].
Proof.
  intros [Hlen [Hlo _]] Hroom. unfold TEXTURE_CAPACITY in Hroom.
  unfold registered. simpl.
  replace (Z.to_nat (m_loadedTextures s + 1))
    with (S (Z.to_nat (m_loadedTextures s))) by lia.
  rewrite (take_S_r _ _ e) by (apply list_lookup_insert_eq; lia).
  now rewrite take_insert_ge by lia.
Qed.

(** C6, as the code has it.  While the registry holds fewer than sixteen
    textures, [CreateGLTexture] returns [true] exactly when the image
    decodes with three or four colour channels; it then stores the entry
    made of the tag and a texture name that was not in use at the index
    equal to the count, right after the registered entries, and adds one
    to the count.  When it returns [false] the object is unchanged and a
    line was written to the log. *)
Theorem CreateGLTexture_registers_iff_image_usable
    (w : World) (filename t : string) :
  FreshNames host ->
  registry_ok (scene w) ->
  m_loadedTextures (scene w) < TEXTURE_CAPACITY ->
  exists (b : bool) (w' : World),
    CreateGLTexture filename t w = Ok (b, w') /\
    (b = true <->
     exists image, stbi_load filename = Some image /\
                   (colorChannels image = 3 \/ colorChannels image = 4)) /\
    (b = true ->
     exists name : Z,
       ~ In name (gl_names w) /\
       m_loadedTextures (scene w') = m_loadedTextures (scene w) + 1 /\
       m_textureIDs (scene w')
       = <[Z.to_nat (m_loadedTextures (scene w)) := {| tag := t; ID := name |}]>
           (m_textureIDs (scene w)) /\
       registered (scene w') = registered (scene w) ++ [{| tag := t; ID := name |}]) /\
    (b = false ->
     scene w' = scene w /\
     exists (events : list Event) (line : LogLine),
       trace w' = trace w ++ events /\ In (E_cout line) events /\
       (line = CouldNotLoad filename \/
        exists channels, line = NotImplementedChannels channels)).
Proof.
  intros Hfresh Hok Hroom.
  destruct (stbi_load filename) as [image|] eqn:Hload.
  - destruct (Z.eq_dec (colorChannels image) 3) as [H3|H3];
      [| destruct (Z.eq_dec (colorChannels image) 4) as [H4|H4]].
    1, 2: eexists true, _; split;
      [apply (CreateGLTexture_registers w filename t image Hload); auto |];
      (split; [split; [intros _; exists image; auto | reflexivity] |]);
      (split; [intros _ | discriminate]);
      exists (gen_name (gl_names w)); simpl;
      (split; [apply Hfresh |]); (split; [reflexivity |]);
      (split; [reflexivity |]); now apply registered_after_insert.
    eexists false, _. split;
      [apply (CreateGLTexture_not_implemented w filename t image Hload H3 H4) |].
    split; [split; [discriminate |] |].
    { intros [image' [Heq Hch]]. inversion Heq; subst image'. lia. }
    split; [discriminate |]. intros _. split; [reflexivity |].
    eexists _, (NotImplementedChannels (colorChannels image)).
    split; [reflexivity |]. split; [| right; eauto].
    apply in_or_app. right. now left.
  - eexists false, _. split;
      [apply (CreateGLTexture_could_not_load w filename t Hload) |].
    split; [split; [discriminate |] |].
    { intros [image' [Heq _]]. discriminate. }
    split; [discriminate |]. intros _. split; [reflexivity |].
    eexists _, (CouldNotLoad filename).
    split; [reflexivity |]. split; [| now left].
    right. right. now left.
Qed.

End Registry.

Lemma sample_host_fresh : FreshNames sample_host.
Proof.
  intros used Hin.
  assert (Hmax : forall x, In x used -> x <= fold_right Z.max 0 used).
  { clear Hin. induction used as [|y used IH]; intros x Hx; [destruct Hx |].
    simpl. destruct Hx as [-> | Hx]; [lia |]. specialize (IH x Hx). lia. }
  apply Hmax in Hin. simpl in Hin. lia.
Defined.

Lemma sample_world_room (p : ShaderManagerPtr) :
  m_loadedTextures (scene (@sample_world sample_glm p)) < TEXTURE_CAPACITY.
Proof. reflexivity. Defined.

(** The theorem at the sample world, for a file that does not decode. *)
Lemma CreateGLTexture_witness :
  FreshNames sample_host /\
  registry_ok (scene (@sample_world sample_glm NULL)) /\
  m_loadedTextures (scene (@sample_world sample_glm NULL)) < TEXTURE_CAPACITY /\
  exists w' : @World sample_glm,
    @CreateGLTexture sample_glm sample_host "textures/pot.jpg" "pot"
      (sample_world NULL) = Ok (false, w').
Proof.
  split; [exact sample_host_fresh |].
  split; [apply sample_scene_ok |].
  split; [apply sample_world_room |].
  destruct (@CreateGLTexture_registers_iff_image_usable sample_glm sample_host
              (sample_world NULL) "textures/pot.jpg" "pot"
              sample_host_fresh (sample_scene_ok NULL) (sample_world_room NULL))
    as [b [w' [Hrun [Hiff _]]]].
  exists w'. destruct b; [| exact Hrun].
  destruct (proj1 Hiff eq_refl) as [image [Hload _]]. discriminate Hload.
Defined.

(** C6 does not hold of a full registry: with sixteen textures
    registered, a file that decodes with three channels makes
    [CreateGLTexture] write past the end of the array instead of
    returning. *)
Lemma CreateGLTexture_full_registry_overflows :
  @stbi_load sample_host "textures/wood.jpg"
  = Some {| width := 512; height := 512; colorChannels := 3 |} /\
  @CreateGLTexture sample_glm sample_host "textures/wood.jpg" "wood"
    (full_world NULL) = Crash (OutOfBounds 16).
Proof. split; reflexivity. Qed.

Section Destroy.

Context {glm : GlmLib} {host : Host}.

(** One pass of the loop of [DestroyGLTextures] over the [n] slots from
    [i]: each gets a name that was not in use, nothing else changes. *)
Lemma DestroyGLTextures_loop (Hfresh : FreshNames host) :
  forall (n : nat) (i : Z) (w : World),
    0 <= i -> i + Z.of_nat n <= TEXTURE_CAPACITY ->
    length (m_textureIDs (scene w)) = 16%nat ->
    exists (w' : World) (names : list Z),
      for_loop n i (fun i => bind glGenTextures (fun name =>
                                write_texture i (set_ID name))) w
      = Ok (tt, w') /\
      m_loadedTextures (scene w') = m_loadedTextures (scene w) /\
      m_pShaderManager (scene w') = m_pShaderManager (scene w) /\
      m_objectMaterials (scene w') = m_objectMaterials (scene w) /\
      length (m_textureIDs (scene w')) = 16%nat /\
      map tag (m_textureIDs (scene w')) = map tag (m_textureIDs (scene w)) /\
      (forall j, (j < Z.to_nat i \/ Z.to_nat i + n <= j)%nat ->
         m_textureIDs (scene w') !! j = m_textureIDs (scene w) !! j) /\
      (forall j e', (Z.to_nat i <= j < Z.to_nat i + n)%nat ->
         m_textureIDs (scene w') !! j = Some e' ->
         ~ In (ID e') (gl_names w) /\ names !! (j - Z.to_nat i)%nat = Some (ID e')) /\
      (forall x, In x (gl_names w) -> In x (gl_names w')) /\
      length names = n /\
      trace w' = trace w ++ map E_glGenTextures names.
Proof.
  unfold TEXTURE_CAPACITY.
  induction n as [|n IH]; intros i w Hi Hcap Hlen.
  - exists w, []. simpl. rewrite app_nil_r.
    repeat split; auto. all: intros; lia.
  - destruct (lookup_lt_is_Some_2 (m_textureIDs (scene w)) (Z.to_nat i))
      as [e He]; [lia|].
    set (name := gen_name (gl_names w)).
    set (w1 := {| scene := registry_with (scene w) (m_loadedTextures (scene w))
                             (<[Z.to_nat i := set_ID name e]> (m_textureIDs (scene w)));
                  gl_names := name :: gl_names w;
                  trace := trace w ++ [E_glGenTextures name] |}).
    assert (Hstep : bind glGenTextures (fun name => write_texture i (set_ID name)) w
                    = Ok (tt, w1)).
    { unfold bind at 1. unfold glGenTextures. fold name.
      rewrite (write_texture_Ok _ i (set_ID name) e);
        [reflexivity | unfold TEXTURE_CAPACITY; lia | exact He]. }
    destruct (IH (i + 1) w1) as
      (w' & names & Hrun & Hcount & Hptr & Hmat & Hlen' & Htags & Hout & Hin
         & Hnames & Hnlen & Htrace);
      [lia | lia | simpl; now rewrite length_insert |].
    exists w', (name :: names).
    split.
    { simpl for_loop. unfold bind at 1. rewrite Hstep. exact Hrun. }
    split; [exact Hcount |]. split; [exact Hptr |]. split; [exact Hmat |].
    split; [exact Hlen' |].
    split.
    { rewrite Htags. simpl. rewrite list_fmap_insert. simpl.
      apply list_insert_id. change (map tag ?l) with (tag <$> l).
      rewrite list_lookup_fmap, He. reflexivity. }
    split.
    { intros j Hj. rewrite Hout by lia. simpl.
      apply list_lookup_insert_ne. lia. }
    split.
    { intros j e' Hj He'.
      destruct (decide (j = Z.to_nat i)) as [->|Hne].
      - rewrite Hout in He' by lia. simpl in He'.
        rewrite list_lookup_insert_eq in He' by lia.
        inversion He'; subst e'. simpl.
        split; [apply Hfresh |].
        replace (Z.to_nat i - Z.to_nat i)%nat with 0%nat by lia. reflexivity.
      - destruct (Hin j e') as [Hnot Hnth]; [lia | exact He' |].
        split; [intros Hold; apply Hnot; now right |].
        replace (j - Z.to_nat i)%nat with (S (j - Z.to_nat (i + 1)))%nat by lia.
        exact Hnth. }
    split; [intros x Hx; apply Hnames; now right |].
    split; [simpl; now rewrite Hnlen |].
    rewrite Htrace. simpl. now rewrite <- app_assoc.
Qed.

(** C5.  On a registry within its bounds [DestroyGLTextures] returns with
    the count of loaded textures and the tag of every array element
    unchanged; each registered slot now holds a texture name that was not
    in use before, the calls made are one [glGenTextures] per registered
    slot and nothing else, and every name in use before is still in use:
    no entry is removed and no handle is freed. *)
Theorem DestroyGLTextures_regenerates_handles (w : World) :
  FreshNames host ->
  registry_ok (scene w) ->
  exists (w' : World) (names : list Z),
    DestroyGLTextures w = Ok (tt, w') /\
    m_loadedTextures (scene w') = m_loadedTextures (scene w) /\
    map tag (m_textureIDs (scene w')) = map tag (m_textureIDs (scene w)) /\
    length (m_textureIDs (scene w')) = length (m_textureIDs (scene w)) /\
    map ID (registered (scene w')) = names /\
    (forall name, In name names -> ~ In name (gl_names w)) /\
    (forall name, In name (gl_names w) -> In name (gl_names w')) /\
    length names = Z.to_nat (m_loadedTextures (scene w)) /\
    trace w' = trace w ++ map E_glGenTextures names.
Proof.
  intros Hfresh [Hlen [Hlo Hhi]].
  destruct (DestroyGLTextures_loop Hfresh (Z.to_nat (m_loadedTextures (scene w)))
              0 w) as
    (w' & names & Hrun & Hcount & _ & _ & Hlen' & Htags & _ & Hin & Hnames
       & Hnlen & Htrace); [lia | lia | exact Hlen |].
  exists w', names.
  split; [exact Hrun |]. split; [exact Hcount |]. split; [exact Htags |].
  split; [congruence |].
  assert (HIDs : map ID (registered (scene w')) = names).
  { apply list_eq. intros j. unfold registered. rewrite Hcount.
    change (map ID ?l) with (ID <$> l). rewrite list_lookup_fmap.
    destruct (decide (j < Z.to_nat (m_loadedTextures (scene w)))%nat) as [Hj|Hj].
    - rewrite lookup_take_lt by exact Hj.
      destruct (lookup_lt_is_Some_2 (m_textureIDs (scene w')) j) as [e' He'];
        [unfold TEXTURE_CAPACITY in Hhi; lia |].
      rewrite He'. simpl.
      destruct (Hin j e') as [_ Hnth]; [simpl; lia | exact He' |].
      simpl in Hnth. rewrite Nat.sub_0_r in Hnth. now rewrite Hnth.
    - rewrite lookup_take_ge by lia. simpl.
      symmetry. apply lookup_ge_None. lia. }
  split; [exact HIDs |].
  split.
  { intros name Hname. apply list_elem_of_In in Hname.
    apply list_elem_of_lookup in Hname. destruct Hname as [j Hj].
    assert (Hjlt : (j < length names)%nat) by (apply lookup_lt_is_Some_1; eauto).
    destruct (lookup_lt_is_Some_2 (m_textureIDs (scene w')) j) as [e' He'];
      [unfold TEXTURE_CAPACITY in Hhi; lia |].
    destruct (Hin j e') as [Hnot Hnth]; [simpl; lia | exact He' |].
    simpl in Hnth. rewrite Nat.sub_0_r in Hnth.
    rewrite Hj in Hnth. inversion Hnth. exact Hnot. }
  split; [exact Hnames |]. split; [exact Hnlen | exact Htrace].
Qed.

End Destroy.

(** The theorem at the sample world: three names are generated. *)
Lemma DestroyGLTextures_witness :
  FreshNames sample_host /\
  registry_ok (scene (@sample_world sample_glm NULL)) /\
  exists (w' : @World sample_glm),
    @DestroyGLTextures sample_glm sample_host (sample_world NULL) = Ok (tt, w') /\
    m_loadedTextures (scene w') = 3.
Proof.
  split; [exact sample_host_fresh |].
  split; [apply sample_scene_ok |].
  destruct (@DestroyGLTextures_regenerates_handles sample_glm sample_host
              (sample_world NULL) sample_host_fresh (sample_scene_ok NULL))
    as (w' & names & Hrun & Hcount & _).
  exists w'. split; [exact Hrun | exact Hcount].
Defined.

(** The theorem at the sample world with a shader manager attached. *)
Lemma texturing_flag_witness :
  m_pShaderManager (scene (@sample_world sample_glm ShaderManagerAt))
  = ShaderManagerAt /\
  registry_ok (scene (@sample_world sample_glm ShaderManagerAt)) /\
  @SetShaderColor sample_glm (flit 1 0) (flit 1 0) (flit 0 0) (flit 1 0)
    (sample_world ShaderManagerAt)
  = Ok (tt, append_trace (sample_world ShaderManagerAt)
              [E_setIntValue "bUseTexture" 0;
               E_setVec4Value "objectColor"
                 (glm_vec4 (flit 1 0) (flit 1 0) (flit 0 0) (flit 1 0))]).
Proof.
  split; [reflexivity |]. split; [apply sample_scene_ok |].
  exact (proj1 (@color_and_texture_set_the_texturing_flag sample_glm
                  (sample_world ShaderManagerAt)
                  (flit 1 0) (flit 1 0) (flit 0 0) (flit 1 0) "leaf" Sphere
                  eq_refl (sample_scene_ok ShaderManagerAt))).
Defined.

(** C10 does not hold of every object: on one constructed with a null
    shader manager, [SetShaderColor] and [SetShaderTexture] return
    without writing "bUseTexture", and the draw that follows is issued
    with the flag never set. *)
Lemma null_shader_leaves_texturing_flag_unset :
  (exists w' : @World sample_glm,
     bind (@SetShaderColor sample_glm (flit 1 0) (flit 1 0) (flit 0 0) (flit 1 0))
       (fun _ => emit (E_DrawMesh Sphere)) (sample_world NULL) = Ok (tt, w') /\
     trace w' = [E_DrawMesh Sphere] /\
     draw_modes None (trace w') = [(Sphere, None)]) /\
  (exists w' : @World sample_glm,
     bind (@SetShaderTexture sample_glm "leaf")
       (fun _ => emit (E_DrawMesh Sphere)) (sample_world NULL) = Ok (tt, w') /\
     trace w' = [E_DrawMesh Sphere] /\
     draw_modes None (trace w') = [(Sphere, None)]).
Proof. split; eexists; (split; [reflexivity | split; reflexivity]). Qed.

Section Script.

Context {glm : GlmLib} {host : Host}.

Lemma load_calls_app (a b : list Event) :
  load_calls (a ++ b) = (load_calls a + load_calls b)%nat.
Proof. unfold load_calls. now rewrite List.filter_app, length_app. Qed.

Lemma forallb_texture_call_app (a b : list Event) :
  forallb is_texture_call a = true -> forallb is_texture_call b = true ->
  forallb is_texture_call (a ++ b) = true.
Proof. intros Ha Hb. rewrite forallb_app, Ha, Hb. reflexivity. Qed.

Lemma texture_calls_no_mesh (events : list Event) :
  forallb is_texture_call events = true ->
  mesh_loads events = [] /\ draws events = [].
Proof.
  induction events as [|e events IH]; [split; reflexivity |].
  simpl. intros H. apply andb_prop in H. destruct H as [He Hrest].
  destruct (IH Hrest) as [Hm Hd].
  unfold mesh_loads, draws in *. simpl. rewrite Hm, Hd.
  destruct e; simpl in He; try discriminate; split; reflexivity.
Qed.

Lemma registry_ok_after_insert (s : SceneManager) (e : TEXTURE_INFO) :
  registry_ok s -> m_loadedTextures s < TEXTURE_CAPACITY ->
  registry_ok (registry_with s (m_loadedTextures s + 1)
                 (<[Z.to_nat (m_loadedTextures s) := e]> (m_textureIDs s))).
Proof.
  intros [Hlen [Hlo Hhi]] Hroom. split; simpl.
  - now rewrite length_insert.
  - lia.
Qed.

(** One [CreateGLTexture] call on a registry with room. *)
Lemma CreateGLTexture_step (w : World) (filename t : string) :
  registry_ok (scene w) -> m_loadedTextures (scene w) < TEXTURE_CAPACITY ->
  exists (b : bool) (w' : World) (events : list Event),
    CreateGLTexture filename t w = Ok (b, w') /\
    registry_ok (scene w') /\
    m_pShaderManager (scene w') = m_pShaderManager (scene w) /\
    m_objectMaterials (scene w') = m_objectMaterials (scene w) /\
    registered_tags (scene w')
    = registered_tags (scene w) ++ (if loads filename then [t] else []) /\
    m_loadedTextures (scene w')
    = m_loadedTextures (scene w) + (if loads filename then 1 else 0) /\
    trace w' = trace w ++ events /\
    load_calls events = 1%nat /\
    forallb is_texture_call events = true.
Proof.
  intros Hok Hroom. unfold loads.
  destruct (stbi_load filename) as [image|] eqn:Hload.
  - destruct (Z.eqb_spec (colorChannels image) 3) as [H3|H3];
      [| destruct (Z.eqb_spec (colorChannels image) 4) as [H4|H4]]; simpl.
    1, 2: eexists true, _, _; split;
      [apply (CreateGLTexture_registers w filename t image Hload); auto |];
      simpl; (split; [now apply registry_ok_after_insert |]);
      (split; [reflexivity |]); (split; [reflexivity |]);
      (split; [unfold registered_tags; rewrite registered_after_insert by assumption;
               now rewrite map_app |]);
      (split; [reflexivity |]); (split; [reflexivity |]);
      split; reflexivity.
    eexists false, _, _. split;
      [apply (CreateGLTexture_not_implemented w filename t image Hload H3 H4) |].
    simpl. split; [exact Hok |]. split; [reflexivity |]. split; [reflexivity |].
    split; [now rewrite app_nil_r |]. split; [lia |].
    split; [reflexivity |]. split; reflexivity.
  - eexists false, _, _. split;
      [apply (CreateGLTexture_could_not_load w filename t Hload) |].
    simpl. split; [exact Hok |]. split; [reflexivity |]. split; [reflexivity |].
    split; [now rewrite app_nil_r |]. split; [lia |].
    split; [reflexivity |]. split; reflexivity.
Qed.

Lemma load_textures_run (calls : list (string * string)) :
  forall w : World,
    registry_ok (scene w) ->
    m_loadedTextures (scene w) + Z.of_nat (length calls) <= TEXTURE_CAPACITY ->
    exists (w' : World) (events : list Event),
      load_textures calls w = Ok (tt, w') /\
      registry_ok (scene w') /\
      m_pShaderManager (scene w') = m_pShaderManager (scene w) /\
      m_objectMaterials (scene w') = m_objectMaterials (scene w) /\
      registered_tags (scene w') = registered_tags (scene w) ++ loaded_tags calls /\
      m_loadedTextures (scene w')
      = m_loadedTextures (scene w) + Z.of_nat (length (loaded_tags calls)) /\
      trace w' = trace w ++ events /\
      load_calls events = length calls /\
      forallb is_texture_call events = true.
Proof.
  induction calls as [|[filename t] calls IH]; intros w Hok Hroom.
  - exists w, []. simpl. unfold loaded_tags. simpl.
    repeat rewrite app_nil_r. repeat split; auto; try apply Hok. lia.
  - simpl length in Hroom.
    destruct (CreateGLTexture_step w filename t Hok) as
      (b & w1 & ev1 & Hrun1 & Hok1 & Hp1 & Hm1 & Ht1 & Hc1 & Htr1 & Hl1 & Hf1);
      [lia |].
    destruct (IH w1 Hok1) as
      (w' & ev2 & Hrun2 & Hok2 & Hp2 & Hm2 & Ht2 & Hc2 & Htr2 & Hl2 & Hf2).
    { rewrite Hc1. destruct (loads filename); lia. }
    exists w', (ev1 ++ ev2).
    split. { simpl. unfold bind at 1. rewrite Hrun1. exact Hrun2. }
    split; [exact Hok2 |]. split; [congruence |]. split; [congruence |].
    split.
    { rewrite Ht2, Ht1. unfold loaded_tags. simpl.
      destruct (loads filename); simpl; now rewrite <- app_assoc. }
    split.
    { rewrite Hc2, Hc1. unfold loaded_tags. simpl.
      destruct (loads filename); simpl length; lia. }
    split; [rewrite Htr2, Htr1; now rewrite app_assoc |].
    split; [rewrite load_calls_app, Hl1, Hl2; reflexivity |].
    now apply forallb_texture_call_app.
Qed.

Lemma bind_assoc {A B C} (c : M A) (k : A -> M B) (k' : B -> M C) (w : World) :
  bind (bind c k) k' w = bind c (fun a => bind (k a) k') w.
Proof. unfold bind. destruct (c w) as [[a w']|f]; reflexivity. Qed.

Lemma bind_ret_tt (c : M unit) (w : World) : bind c (fun _ => ret tt) w = c w.
Proof. unfold bind, ret. destruct (c w) as [[[] w']|f]; reflexivity. Qed.

(** [LoadSceneTextures] is the run of its eight calls, then the binding. *)
Lemma LoadSceneTextures_unfold (w : World) :
  LoadSceneTextures w
  = bind (load_textures scene_textures) (fun _ => BindGLTextures) w.
Proof.
  unfold LoadSceneTextures, scene_textures, load_textures.
  repeat rewrite bind_assoc.
  unfold bind.
  repeat match goal with
         | |- context [CreateGLTexture ?f ?t ?w0] =>
             destruct (CreateGLTexture f t w0) as [[? ?]|?]; [| reflexivity]
         end.
  reflexivity.
Qed.

Lemma BindGLTextures_loop :
  forall (n : nat) (i : Z) (w : World),
    0 <= i -> i + Z.of_nat n <= TEXTURE_CAPACITY ->
    length (m_textureIDs (scene w)) = 16%nat ->
    exists events : list Event,
      for_loop n i (fun i =>
        bind (emit (E_glActiveTexture i)) (fun _ =>
        bind get_scene (fun s =>
        bind (lift (read_texture s i)) (fun e =>
        emit (E_glBindTexture (ID e)))))) w
      = Ok (tt, append_trace w events) /\
      forallb is_texture_call events = true /\ load_calls events = 0%nat.
Proof.
  unfold TEXTURE_CAPACITY.
  induction n as [|n IH]; intros i w Hi Hcap Hlen.
  - exists []. rewrite append_trace_nil. simpl. auto.
  - destruct (lookup_lt_is_Some_2 (m_textureIDs (scene w)) (Z.to_nat i))
      as [e He]; [lia|].
    destruct (IH (i + 1) (append_trace w [E_glActiveTexture i; E_glBindTexture (ID e)]))
      as [events [Hrun [Hcalls Hloads]]]; [lia | lia | exact Hlen |].
    exists ([E_glActiveTexture i; E_glBindTexture (ID e)] ++ events).
    split.
    + assert (Hstep :
        bind (emit (E_glActiveTexture i)) (fun _ =>
          bind get_scene (fun s =>
          bind (lift (read_texture s i)) (fun e =>
          emit (E_glBindTexture (ID e))))) w
        = Ok (tt, append_trace w [E_glActiveTexture i; E_glBindTexture (ID e)])).
      { unfold bind, get_scene, lift. rewrite emit_append. simpl scene.
        rewrite (read_texture_Ok (scene w) i e)
          by (unfold TEXTURE_CAPACITY; auto with zarith).
        rewrite emit_append. now rewrite append_trace_app. }
      simpl for_loop. unfold bind at 1. rewrite Hstep.
      rewrite Hrun. now rewrite append_trace_app.
    + split; [simpl; exact Hcalls | exact Hloads].
Qed.

Lemma BindGLTextures_run (w : World) :
  registry_ok (scene w) ->
  exists events : list Event,
    BindGLTextures w = Ok (tt, append_trace w events) /\
    forallb is_texture_call events = true /\ load_calls events = 0%nat.
Proof.
  intros [Hlen [Hlo Hhi]].
  destruct (BindGLTextures_loop (Z.to_nat (m_loadedTextures (scene w))) 0 w)
    as [events H]; [lia | lia | exact Hlen |].
  exists events. exact H.
Qed.

Lemma LoadSceneTextures_run (w : World) :
  registry_ok (scene w) ->
  m_loadedTextures (scene w) + 8 <= TEXTURE_CAPACITY ->
  exists (w' : World) (events : list Event),
    LoadSceneTextures w = Ok (tt, w') /\
    registry_ok (scene w') /\
    m_pShaderManager (scene w') = m_pShaderManager (scene w) /\
    m_objectMaterials (scene w') = m_objectMaterials (scene w) /\
    registered_tags (scene w')
    = registered_tags (scene w) ++ loaded_tags scene_textures /\
    m_loadedTextures (scene w')
    = m_loadedTextures (scene w) + Z.of_nat (length (loaded_tags scene_textures)) /\
    trace w' = trace w ++ events /\
    load_calls events = 8%nat /\
    forallb is_texture_call events = true.
Proof.
  intros Hok Hroom.
  destruct (load_textures_run scene_textures w Hok) as
    (w1 & ev1 & Hrun1 & Hok1 & Hp1 & Hm1 & Ht1 & Hc1 & Htr1 & Hl1 & Hf1);
    [simpl length; lia |].
  destruct (BindGLTextures_run w1 Hok1) as (ev2 & Hrun2 & Hf2 & Hl2).
  exists (append_trace w1 ev2), (ev1 ++ ev2).
  split.
  { rewrite LoadSceneTextures_unfold. unfold bind. rewrite Hrun1. exact Hrun2. }
  simpl. split; [exact Hok1 |]. split; [exact Hp1 |]. split; [exact Hm1 |].
  split; [exact Ht1 |]. split; [exact Hc1 |].
  split; [rewrite Htr1; now rewrite app_assoc |].
  split; [rewrite load_calls_app, Hl1, Hl2; reflexivity |].
  now apply forallb_texture_call_app.
Qed.

Lemma loaded_tags_bound (calls : list (string * string)) :
  (length (loaded_tags calls) <= length calls)%nat.
Proof.
  unfold loaded_tags. rewrite length_map. apply List.filter_length_le.
Qed.


End Script.

Section Render.

Context {glm : GlmLib} {host : Host}.

Lemma key_events_app (a b : list Event) :
  key_events (a ++ b) = key_events a ++ key_events b.
Proof. apply List.filter_app. Qed.

Lemma issues_bind (s : SceneManager) (c1 c2 : M unit) (K1 K2 : list Event) :
  issues s c1 K1 -> issues s c2 K2 -> issues s (bind c1 (fun _ => c2)) (K1 ++ K2).
Proof.
  intros H1 H2 w Hs.
  destruct (H1 w Hs) as [e1 [Hrun1 Hk1]].
  destruct (H2 (append_trace w e1) Hs) as [e2 [Hrun2 Hk2]].
  exists (e1 ++ e2). split.
  - unfold bind. rewrite Hrun1, Hrun2. now rewrite append_trace_app.
  - now rewrite key_events_app, Hk1, Hk2.
Qed.

Lemma issues_ret (s : SceneManager) : issues s (ret tt) [].
Proof.
  intros w _. exists []. now rewrite append_trace_nil.
Qed.

Lemma issues_emit (s : SceneManager) (e : Event) :
  issues s (emit e) (key_events [e]).
Proof. intros w _. exists [e]. split; reflexivity. Qed.

Section Attached.

Variable s : SceneManager.
Hypothesis Hat : m_pShaderManager s = ShaderManagerAt.

Lemma issues_shader_call (e : Event) : issues s (shader_call e) (key_events [e]).
Proof using Hat.
  intros w Hs. exists [e]. split; [| reflexivity].
  apply shader_call_at. now rewrite Hs.
Qed.

Lemma issues_if_shader (body : M unit) (K : list Event) :
  issues s body K -> issues s (if_shader body) K.
Proof using Hat.
  intros H w Hs. rewrite if_shader_at by (now rewrite Hs). now apply H.
Qed.

Lemma issues_SetTransformations (scaleXYZ : vec3) (rx ry rz : float)
    (positionXYZ : vec3) :
  issues s (SetTransformations scaleXYZ rx ry rz positionXYZ)
    [E_setMat4Value g_ModelName (modelView scaleXYZ rx ry rz positionXYZ)].
Proof using Hat.
  apply issues_if_shader.
  apply (issues_shader_call (E_setMat4Value g_ModelName _)).
Qed.

Lemma issues_SetShaderColor (r g b a : float) :
  issues s (SetShaderColor r g b a) [E_setIntValue g_UseTextureName 0].
Proof using Hat.
  apply issues_if_shader.
  apply (issues_bind s _ _ [E_setIntValue g_UseTextureName 0] []).
  - apply (issues_shader_call (E_setIntValue g_UseTextureName 0)).
  - apply (issues_shader_call (E_setVec4Value g_ColorValueName _)).
Qed.

Lemma issues_SetShaderTexture (textureTag : string) :
  registry_ok s ->
  issues s (SetShaderTexture textureTag) [E_setIntValue g_UseTextureName 1].
Proof using Hat.
  intros Hok. apply issues_if_shader.
  apply (issues_bind s _ _ [E_setIntValue g_UseTextureName 1] []).
  - apply (issues_shader_call (E_setIntValue g_UseTextureName 1)).
  - intros w Hs.
    destruct (FindTextureSlot_total s textureTag Hok) as [slot [Hslot _]].
    exists [E_setSampler2DValue g_TextureValueName slot]. split; [| reflexivity].
    unfold bind, get_scene, lift. rewrite Hs, Hslot.
    apply shader_call_at. now rewrite Hs.
Qed.

Lemma issues_SetTextureUVScale (u v : float) :
  issues s (SetTextureUVScale u v) [].
Proof using Hat.
  apply issues_if_shader.
  apply (issues_shader_call (E_setVec2Value "UVscale" _)).
Qed.

Lemma issues_eq (c : M unit) (K K' : list Event) :
  issues s c K -> K = K' -> issues s c K'.
Proof. intros H <-. exact H. Qed.

Lemma issues_SetShaderMaterial (materialTag : string) :
  issues s (SetShaderMaterial materialTag) [].
Proof using Hat.
  intros w Hs. unfold SetShaderMaterial. unfold bind at 1, get_scene at 1.
  rewrite Hs.
  destruct (0 <? Z.of_nat (length (m_objectMaterials s)));
    [| exists []; now rewrite append_trace_nil].
  destruct (FindMaterial_total s materialTag indeterminate_material)
    as [b [material Hfind]].
  unfold bind at 1, lift. rewrite Hfind.
  destruct b; simpl Bool.eqb; cbv iota;
    [| exists []; now rewrite append_trace_nil].
  assert (H : issues s
    (bind (shader_call (E_setVec3Value "material.ambientColor" (ambientColor material))) (fun _ =>
     bind (shader_call (E_setFloatValue "material.ambientStrength" (ambientStrength material))) (fun _ =>
     bind (shader_call (E_setVec3Value "material.diffuseColor" (diffuseColor material))) (fun _ =>
     bind (shader_call (E_setVec3Value "material.specularColor" (specularColor material))) (fun _ =>
     shader_call (E_setFloatValue "material.shininess" (shininess material))))))) []).
  { eapply issues_eq;
      [repeat (eapply issues_bind; [apply issues_shader_call |]);
       apply issues_shader_call | reflexivity]. }
  exact (H w Hs).
Qed.

(** The light uniforms come first and are thirteen; none is a key call. *)
Lemma SetupSceneLights_run (w : World) :
  scene w = s ->
  exists lights : list Event,
    SetupSceneLights w = Ok (tt, append_trace w lights) /\
    length lights = 13%nat /\ key_events lights = [] /\ draws lights = [].
Proof using Hat.
  intros Hs. unfold SetupSceneLights.
  rewrite if_shader_at by (now rewrite Hs).
  eexists. split.
  - unfold bind.
    repeat (rewrite shader_call_at by (simpl scene; now rewrite Hs)).
    repeat rewrite append_trace_app. simpl app. reflexivity.
  - split; [reflexivity | split; reflexivity].
Qed.

Hypothesis Hok : registry_ok s.

Ltac issue :=
  lazymatch goal with
  | |- issues _ (bind _ _) _ => eapply issues_bind; [issue | issue]
  | |- issues _ (ret tt) _ => apply issues_ret
  | |- issues _ (emit _) _ => apply issues_emit
  | |- issues _ (shader_call _) _ => apply issues_shader_call
  | |- issues _ (SetTransformations _ _ _ _ _) _ => apply issues_SetTransformations
  | |- issues _ (SetShaderColor _ _ _ _) _ => apply issues_SetShaderColor
  | |- issues _ (SetShaderTexture _) _ => apply issues_SetShaderTexture; exact Hok
  | |- issues _ (SetTextureUVScale _ _) _ => apply issues_SetTextureUVScale
  | |- issues _ (SetShaderMaterial _) _ => apply issues_SetShaderMaterial
  end.

(** The whole of [RenderScene]: the lights, then the key calls of the ten
    fixed objects and of the ten leaves. *)
Lemma RenderScene_run (w : World) :
  scene w = s ->
  exists lights objects : list Event,
    SetupSceneLights w = Ok (tt, append_trace w lights) /\
    RenderScene w = Ok (tt, append_trace w (lights ++ objects)) /\
    length lights = 13%nat /\ draws lights = [] /\
    key_events objects
    = flat_map object_key_calls (combine fixed_objects fixed_flag_writes)
      ++ [E_setIntValue g_UseTextureName 1; E_setIntValue g_UseTextureName 1]
      ++ flat_map object_calls (map leaf_object leaf_indices).
Proof using Hat Hok.
  intros Hs.
  destruct (SetupSceneLights_run w Hs) as (lights & Hlights & Hlen & _ & Hdraws).
  exists lights.
  unfold RenderScene. unfold bind at 1. rewrite Hlights.
  change (Z.to_nat leafCount) with 10%nat. cbn [for_loop].
  lazymatch goal with
  | |- exists objects, _ /\ ?body (append_trace w lights) = _ /\ _ =>
      assert (Hbody : issues s body
        (flat_map object_key_calls (combine fixed_objects fixed_flag_writes)
         ++ [E_setIntValue g_UseTextureName 1; E_setIntValue g_UseTextureName 1]
         ++ flat_map object_calls (map leaf_object leaf_indices)))
  end.
  { eapply issues_eq; [issue | reflexivity]. }
  destruct (Hbody (append_trace w lights) Hs) as (objects & Hrun & Hkey).
  exists objects. split; [reflexivity |].
  split; [rewrite Hrun; now rewrite append_trace_app |].
  split; [exact Hlen |]. split; [exact Hdraws | exact Hkey].
Qed.

End Attached.

Lemma draws_key_events (events : list Event) :
  draws (key_events events) = draws events.
Proof.
  induction events as [|e events IH]; [reflexivity |].
  unfold draws, key_events in *. simpl.
  destruct (is_key_event e) eqn:He; simpl; rewrite IH;
    [reflexivity |]. now destruct e.
Qed.

Lemma draw_modes_key_events (events : list Event) :
  forall flag, draw_modes flag (key_events events) = draw_modes flag events.
Proof.
  induction events as [|e events IH]; intros flag; [reflexivity |].
  unfold key_events in *. simpl.
  destruct e; simpl; try apply IH.
  - destruct (String.eqb name g_ModelName); simpl; apply IH.
  - destruct (String.eqb name g_UseTextureName) eqn:E; simpl; rewrite ?E;
      apply IH.
  - now rewrite IH.
Qed.

End Render.

(** C4 with its count of 21 does not hold: a frame of the sample world
    issues 20 draw calls. *)
Lemma RenderScene_issues_twenty_draws :
  exists w' : @World sample_glm,
    @RenderScene sample_glm sample_host (sample_world ShaderManagerAt)
    = Ok (tt, w') /\
    length (draws (trace w')) = 20%nat /\
    length (draws (trace w')) <> 21%nat.
Proof.
  destruct (@RenderScene_run sample_glm sample_host
              (scene (sample_world ShaderManagerAt)) eq_refl
              (sample_scene_ok ShaderManagerAt)
              (sample_world ShaderManagerAt) eq_refl)
    as (lights & objects & _ & Hrun & _ & Hlights & Hkey).
  exists (append_trace (sample_world ShaderManagerAt) (lights ++ objects)).
  split; [exact Hrun |].
  assert (Hcount : length (draws (trace (append_trace
            (@sample_world sample_glm ShaderManagerAt) (lights ++ objects))))
          = 20%nat).
  { simpl trace. unfold draws in *. rewrite flat_map_app, Hlights.
    fold (draws objects). rewrite <- draws_key_events, Hkey. reflexivity. }
  split; [exact Hcount | rewrite Hcount; discriminate].
Qed.

Section SceneScript.

Context {glm : GlmLib} {host : Host}.

Lemma initial_world_ok (p : ShaderManagerPtr) (junk : Z) :
  registry_ok (scene (initial_world p junk)).
Proof. split; [reflexivity | unfold TEXTURE_CAPACITY; simpl; lia]. Qed.

Lemma PrepareScene_run (w : World) :
  registry_ok (scene w) ->
  m_loadedTextures (scene w) + 8 <= TEXTURE_CAPACITY ->
  exists (w1 w2 : World) (texture_calls : list Event),
    LoadSceneTextures w = Ok (tt, w1) /\
    trace w1 = trace w ++ texture_calls /\
    forallb is_texture_call texture_calls = true /\
    LoadSceneMaterials w1 = Ok (tt, w2) /\
    PrepareScene w
    = Ok (tt, append_trace w2
                (map E_LoadMesh [Plane; Box; Cone; Prism; Pyramid3; Sphere; Torus;
                                 TaperedCylinder; Cylinder])).
Proof.
  intros Hok Hroom.
  destruct (LoadSceneTextures_run w Hok Hroom) as
    (w1 & ev & Hrun & _ & _ & _ & _ & _ & Htrace & _ & Hcalls).
  eexists w1, _, ev.
  split; [exact Hrun |]. split; [exact Htrace |]. split; [exact Hcalls |].
  split; [apply LoadSceneMaterials_run |].
  unfold PrepareScene. unfold bind at 1. rewrite Hrun.
  unfold bind at 1. rewrite LoadSceneMaterials_run.
  unfold bind. repeat rewrite emit_append.
  repeat rewrite append_trace_app. reflexivity.
Qed.

Lemma RenderScene_NULL (w : World) :
  m_pShaderManager (scene w) = NULL -> RenderScene w = Crash NullDereference.
Proof.
  intros Hp. unfold RenderScene, SetupSceneLights, SetTransformations,
    SetShaderTexture.
  unfold bind at 1. rewrite if_shader_NULL by assumption.
  unfold bind at 1. rewrite if_shader_NULL by assumption.
  unfold bind at 1. rewrite if_shader_NULL by assumption.
  unfold bind at 1. now rewrite shader_call_NULL.
Qed.

(** A frame leaves the object as it was. *)
Lemma RenderScene_keeps_scene (w w' : World) :
  registry_ok (scene w) -> RenderScene w = Ok (tt, w') -> scene w' = scene w.
Proof.
  intros Hok Hrun.
  destruct (m_pShaderManager (scene w)) eqn:Hp.
  - rewrite RenderScene_NULL in Hrun by assumption. discriminate.
  - destruct (RenderScene_run (scene w) Hp Hok w eq_refl)
      as (lights & objects & _ & Hrun' & _).
    rewrite Hrun' in Hrun. inversion Hrun. reflexivity.
Qed.

Lemma loaded_tags_sublist (calls : list (string * string)) :
  sublist (loaded_tags calls) (map snd calls).
Proof.
  unfold loaded_tags.
  induction calls as [|c calls IH]; simpl; [constructor |].
  destruct (loads (fst c)); simpl; now constructor.
Qed.

Lemma scene_tags_distinct : NoDup (map snd scene_textures).
Proof.
  apply NoDup_ListNoDup. simpl.
  repeat (constructor; [simpl; intuition discriminate |]). constructor.
Qed.

Lemma loaded_prefix_distinct (k : nat) :
  NoDup (loaded_tags (take k scene_textures)).
Proof.
  eapply sublist_NoDup; [| apply loaded_tags_sublist].
  eapply sublist_NoDup; [apply scene_tags_distinct |].
  change (map snd ?l) with (snd <$> l).
  rewrite fmap_take. apply sublist_take.
Qed.

(** What holds of the registry all along the script. *)
Lemma script_state_registry (w : World) :
  script_state w ->
  registry_ok (scene w) /\
  0 <= m_loadedTextures (scene w) <= 8 /\
  exists k : nat, registered_tags (scene w) = loaded_tags (take k scene_textures).
Proof.
  assert (Hloads : forall p junk calls w',
            (length calls <= 8)%nat ->
            load_textures calls (initial_world p junk) = Ok (tt, w') ->
            registry_ok (scene w') /\ 0 <= m_loadedTextures (scene w') <= 8 /\
            registered_tags (scene w') = loaded_tags calls).
  { intros p junk calls w' Hlen Hrun.
    destruct (load_textures_run calls (initial_world p junk)
                (initial_world_ok p junk)) as
      (w'' & ev & Hrun' & Hok & _ & _ & Htags & Hcount & _);
      [unfold TEXTURE_CAPACITY; simpl; lia |].
    rewrite Hrun' in Hrun. inversion Hrun; subst w''.
    split; [exact Hok |]. split; [| exact Htags].
    rewrite Hcount. pose proof (loaded_tags_bound calls). simpl. lia. }
  assert (Htextures : forall p junk w',
            LoadSceneTextures (initial_world p junk) = Ok (tt, w') ->
            registry_ok (scene w') /\ 0 <= m_loadedTextures (scene w') <= 8 /\
            registered_tags (scene w') = loaded_tags scene_textures).
  { intros p junk w' Hrun.
    destruct (LoadSceneTextures_run (initial_world p junk)
                (initial_world_ok p junk)) as
      (w'' & ev & Hrun' & Hok & _ & _ & Htags & Hcount & _);
      [unfold TEXTURE_CAPACITY; simpl; lia |].
    rewrite Hrun' in Hrun. inversion Hrun; subst w''.
    split; [exact Hok |]. split; [| exact Htags].
    rewrite Hcount. pose proof (loaded_tags_bound scene_textures).
    simpl in *. lia. }
  assert (Hframes : forall w0, frame_state w0 ->
            registry_ok (scene w0) /\ 0 <= m_loadedTextures (scene w0) <= 8 /\
            registered_tags (scene w0) = loaded_tags scene_textures).
  { intros w0 Hw0. induction Hw0 as [p junk w0 Hrun | w0 w1 Hw0 IH Hrun].
    - destruct (PrepareScene_run (initial_world p junk) (initial_world_ok p junk))
        as (w1 & w2 & ev & Htex & _ & _ & Hmat & Hrun');
        [unfold TEXTURE_CAPACITY; simpl; lia |].
      rewrite Hrun' in Hrun. inversion Hrun; subst w0. clear Hrun.
      rewrite LoadSceneMaterials_run in Hmat. inversion Hmat; subst w2.
      destruct (Htextures p junk w1 Htex) as [[Hlen Hc] [Hcount Htags]].
      split; [split; assumption |]. split; assumption.
    - rewrite (RenderScene_keeps_scene w0 w1 (proj1 IH) Hrun). exact IH. }
  intros Hw. destruct Hw as [p junk k w Hrun | p junk w Hrun | w Hw].
  - destruct (Hloads p junk (take k scene_textures) w) as [Hok [Hc Ht]];
      [rewrite length_take; simpl; lia | exact Hrun |].
    split; [exact Hok |]. split; [exact Hc |]. now exists k.
  - destruct (Htextures p junk w Hrun) as [Hok [Hc Ht]].
    split; [exact Hok |]. split; [exact Hc |]. exists 8%nat. exact Ht.
  - destruct (Hframes w Hw) as [Hok [Hc Ht]].
    split; [exact Hok |]. split; [exact Hc |]. exists 8%nat. exact Ht.
Qed.

(** C8.  In every world of the fixed scene script the tags of the
    registered texture entries are pairwise different. *)
Theorem script_texture_tags_unique (w : World) :
  script_state w ->
  NoDup (registered_tags (scene w)) /\
  forall (i j : nat) (e e' : TEXTURE_INFO),
    (i < Z.to_nat (m_loadedTextures (scene w)))%nat ->
    (j < Z.to_nat (m_loadedTextures (scene w)))%nat ->
    m_textureIDs (scene w) !! i = Some e ->
    m_textureIDs (scene w) !! j = Some e' ->
    tag e = tag e' -> i = j.
Proof.
  intros Hw. destruct (script_state_registry w Hw) as (_ & _ & k & Htags).
  assert (Hnodup : NoDup (registered_tags (scene w)))
    by (rewrite Htags; apply loaded_prefix_distinct).
  split; [exact Hnodup |].
  intros i j e e' Hi Hj He He' Heq.
  apply (NoDup_lookup _ i j (tag e) Hnodup);
    unfold registered_tags, registered;
    change (map tag ?l) with (tag <$> l); rewrite list_lookup_fmap.
  - rewrite lookup_take_lt by exact Hi. now rewrite He.
  - rewrite lookup_take_lt by exact Hj. rewrite He'. simpl. now rewrite Heq.
Qed.

(** C9.  [CreateGLTexture] stores at the index equal to the count of
    loaded textures and makes no test against the sixteen elements of the
    array: with the count outside them, a usable image makes it fault on
    that index.  In the fixed scene [LoadSceneTextures] makes exactly
    eight [stbi_load] calls; in every world of the script the count is at
    most 8, so the store of [CreateGLTexture] is inside the array, and
    [BindGLTextures], [FindTextureID] and [FindTextureSlot] return
    without an out-of-bounds access. *)
Theorem script_texture_indices_in_bounds (w : World) :
  script_state w ->
  (0 <= m_loadedTextures (scene w) <= 8 /\ registry_ok (scene w)) /\
  (forall (filename t : string) (image : Image),
     stbi_load filename = Some image ->
     colorChannels image = 3 \/ colorChannels image = 4 ->
     exists w' : World,
       CreateGLTexture filename t w = Ok (true, w') /\
       0 <= m_loadedTextures (scene w) < TEXTURE_CAPACITY /\
       exists name : Z,
         m_textureIDs (scene w')
         = <[Z.to_nat (m_loadedTextures (scene w)) := {| tag := t; ID := name |}]>
             (m_textureIDs (scene w))) /\
  (exists events : list Event,
     BindGLTextures w = Ok (tt, append_trace w events)) /\
  (forall q : string,
     (exists id : Z, FindTextureID (scene w) q = Ok id) /\
     (exists slot : Z, FindTextureSlot (scene w) q = Ok slot /\
                       -1 <= slot < TEXTURE_CAPACITY)) /\
  (forall (p : ShaderManagerPtr) (junk : Z),
     exists w1 : World,
       LoadSceneTextures (initial_world p junk) = Ok (tt, w1) /\
       load_calls (trace w1) = 8%nat) /\
  (forall (w0 : World) (filename t : string) (image : Image),
     stbi_load filename = Some image ->
     colorChannels image = 3 \/ colorChannels image = 4 ->
     ~ 0 <= m_loadedTextures (scene w0) < TEXTURE_CAPACITY ->
     CreateGLTexture filename t w0
     = Crash (OutOfBounds (m_loadedTextures (scene w0)))).
Proof.
  intros Hw. destruct (script_state_registry w Hw) as (Hok & Hcount & _).
  split; [split; assumption |].
  split.
  { intros filename t image Hload Hch. eexists. split.
    - apply (CreateGLTexture_registers w filename t image Hload Hch Hok).
      unfold TEXTURE_CAPACITY. lia.
    - split; [unfold TEXTURE_CAPACITY; lia |]. eexists. reflexivity. }
  split.
  { destruct (BindGLTextures_run w Hok) as [events [Hrun _]]. eauto. }
  split.
  { intros q. split; [now apply FindTextureID_total |].
    destruct (FindTextureSlot_total (scene w) q Hok) as [slot [Hslot Hrange]].
    exists slot. split; [exact Hslot |]. unfold TEXTURE_CAPACITY. lia. }
  split.
  { intros p junk.
    destruct (LoadSceneTextures_run (initial_world p junk) (initial_world_ok p junk))
      as (w1 & ev & Hrun & _ & _ & _ & _ & _ & Htrace & Hloads & _);
      [unfold TEXTURE_CAPACITY; simpl; lia |].
    exists w1. split; [exact Hrun |]. rewrite Htrace. exact Hloads. }
  intros w0 filename t image Hload Hch Hfull.
  now apply (CreateGLTexture_overflow w0 filename t image).
Qed.

End SceneScript.

(** The three theorems at the newly constructed object of the sample
    environment. *)
Lemma sample_initial_room :
  m_loadedTextures (scene (@initial_world sample_glm NULL 0)) + 8
  <= TEXTURE_CAPACITY.
Proof. unfold TEXTURE_CAPACITY. simpl. lia. Defined.

Lemma sample_initial_ok :
  registry_ok (scene (@initial_world sample_glm NULL 0)).
Proof. split; [reflexivity | unfold TEXTURE_CAPACITY; simpl; lia]. Defined.

(** The fixed scene script in the sample environment, after
    [LoadSceneTextures]: six of the eight files are registered. *)
Lemma loaded_sample_state :
  @script_state sample_glm sample_host loaded_sample_world.
Proof.
  apply (@after_LoadSceneTextures sample_glm sample_host ShaderManagerAt 0).
  cbv -[sample_glm]. reflexivity.
Defined.

Lemma script_tags_witness :
  @script_state sample_glm sample_host loaded_sample_world /\
  registered_tags (scene loaded_sample_world)
  = ["wood"; "wall"; "leaf"; "lamp"; "granite"; "gold"] /\
  NoDup (registered_tags (scene loaded_sample_world)) /\
  forall (i j : nat) (e e' : TEXTURE_INFO),
    (i < 6)%nat -> (j < 6)%nat ->
    m_textureIDs (scene loaded_sample_world) !! i = Some e ->
    m_textureIDs (scene loaded_sample_world) !! j = Some e' ->
    tag e = tag e' -> i = j.
Proof.
  split; [exact loaded_sample_state |]. split; [reflexivity |].
  exact (@script_texture_tags_unique sample_glm sample_host
           loaded_sample_world loaded_sample_state).
Defined.

Lemma script_indices_witness :
  @script_state sample_glm sample_host loaded_sample_world /\
  m_loadedTextures (scene loaded_sample_world) = 6 /\
  0 <= m_loadedTextures (scene loaded_sample_world) <= 8 /\
  (exists w' : @World sample_glm,
     @CreateGLTexture sample_glm sample_host "textures/wood.jpg" "wood"
       loaded_sample_world = Ok (true, w') /\
     exists name : Z,
       m_textureIDs (scene w')
       = <[6%nat := {| tag := "wood"; ID := name |}]>
           (m_textureIDs (scene loaded_sample_world))) /\
  (exists events : list (@Event sample_glm),
     BindGLTextures loaded_sample_world
     = Ok (tt, append_trace loaded_sample_world events)) /\
  FindTextureSlot (scene loaded_sample_world) "gold" = Ok 5 /\
  FindTextureID (scene loaded_sample_world) "gold" = Ok 7 /\
  (exists slot : Z,
     FindTextureSlot (scene loaded_sample_world) "pot" = Ok slot /\
     -1 <= slot < TEXTURE_CAPACITY).
Proof.
  split; [exact loaded_sample_state |]. split; [reflexivity |].
  destruct (@script_texture_indices_in_bounds sample_glm sample_host
              loaded_sample_world loaded_sample_state)
    as ((Hcount & _) & Hstore & Hbind & Hfind & _).
  split; [exact Hcount |].
  split.
  { destruct (Hstore "textures/wood.jpg" "wood"
                {| width := 512; height := 512; colorChannels := 3 |}
                eq_refl (or_introl eq_refl)) as (w' & Hrun & _ & Hentry).
    exists w'. split; [exact Hrun | exact Hentry]. }
  split; [exact Hbind |].
  split; [reflexivity |]. split; [reflexivity |].
  exact (proj2 (Hfind "pot")).
Defined.

(** * Further properties of the registry, the material table and the
    frame *)

Section LookupResults.

(** Either no registered entry carries the tag, or there is a first one. *)
Lemma first_match_dec (s : SceneManager) (q : string) :
  registry_ok s ->
  (forall (j : Z) (e' : TEXTURE_INFO), 0 <= j < m_loadedTextures s ->
     m_textureIDs s !! Z.to_nat j = Some e' -> tag e' <> q)
  \/
  (exists (i : Z) (e : TEXTURE_INFO),
     0 <= i < m_loadedTextures s /\
     m_textureIDs s !! Z.to_nat i = Some e /\ tag e = q /\
     forall (j : Z) (e' : TEXTURE_INFO), 0 <= j < i ->
       m_textureIDs s !! Z.to_nat j = Some e' -> tag e' <> q).
Proof.
  intros Hok.
  assert (H : forall n : nat, Z.of_nat n <= m_loadedTextures s ->
    (forall (j : Z) (e' : TEXTURE_INFO), 0 <= j < Z.of_nat n ->
       m_textureIDs s !! Z.to_nat j = Some e' -> tag e' <> q)
    \/
    (exists (i : Z) (e : TEXTURE_INFO),
       0 <= i < Z.of_nat n /\
       m_textureIDs s !! Z.to_nat i = Some e /\ tag e = q /\
       forall (j : Z) (e' : TEXTURE_INFO), 0 <= j < i ->
         m_textureIDs s !! Z.to_nat j = Some e' -> tag e' <> q)).
  { induction n as [|n IH]; intros Hn; [left; intros; lia |].
    destruct IH as [Hmiss | (i & e & Hi & He & Hq & Hfirst)]; [lia | |].
    - destruct (registry_ok_lookup s (Z.of_nat n) Hok) as [e He]; [lia |].
      destruct (String.eqb_spec (tag e) q) as [Heq | Hne].
      + right. exists (Z.of_nat n), e.
        split; [lia |]. split; [exact He |]. split; [exact Heq | exact Hmiss].
      + left. intros j e' Hj He'.
        destruct (Z.eq_dec j (Z.of_nat n)) as [-> | Hjn].
        * rewrite He in He'. inversion He'; subst e'. exact Hne.
        * apply (Hmiss j e'); [lia | exact He'].
    - right. exists i, e. split; [lia |]. auto. }
  pose proof Hok as [Hlen [Hlo Hhi]].
  destruct (H (Z.to_nat (m_loadedTextures s))) as [Hmiss | (i & e & Hi & Hrest)];
    [lia | left | right].
  - intros j e' Hj. apply Hmiss. lia.
  - exists i, e. split; [lia | exact Hrest].
Qed.

Lemma FindTexture_hit (s : SceneManager) (q : string) (i : Z) (e : TEXTURE_INFO) :
  registry_ok s ->
  0 <= i < m_loadedTextures s ->
  m_textureIDs s !! Z.to_nat i = Some e -> tag e = q ->
  (forall (j : Z) (e' : TEXTURE_INFO), 0 <= j < i ->
     m_textureIDs s !! Z.to_nat j = Some e' -> tag e' <> q) ->
  FindTextureID s q = Ok (int_of_uint32 (ID e)) /\ FindTextureSlot s q = Ok i.
Proof.
  intros Hok Hi He Hq Hfirst. split.
  - unfold FindTextureID.
    apply (FindTextureID_while_hit s q e i Hok Hi He Hq (Z.to_nat i));
      [lia | lia | lia |].
    intros j e' Hj. apply Hfirst. lia.
  - unfold FindTextureSlot.
    apply (FindTextureSlot_while_hit s q e i Hok Hi He Hq (Z.to_nat i));
      [lia | lia | lia |].
    intros j e' Hj. apply Hfirst. lia.
Qed.

Lemma FindTexture_miss (s : SceneManager) (q : string) :
  registry_ok s ->
  (forall (j : Z) (e' : TEXTURE_INFO), 0 <= j < m_loadedTextures s ->
     m_textureIDs s !! Z.to_nat j = Some e' -> tag e' <> q) ->
  FindTextureID s q = Ok (-1) /\ FindTextureSlot s q = Ok (-1).
Proof.
  intros Hok Hmiss. split.
  - unfold FindTextureID.
    apply (FindTextureID_while_miss s q Hok (Z.to_nat (m_loadedTextures s)));
      [lia | lia | lia |].
    intros j e' Hj. apply Hmiss. lia.
  - unfold FindTextureSlot.
    apply (FindTextureSlot_while_miss s q Hok (Z.to_nat (m_loadedTextures s)));
      [lia | lia | lia |].
    intros j e' Hj. apply Hmiss. lia.
Qed.

Lemma registered_tags_In (s : SceneManager) (q : string) :
  registry_ok s -> In q (registered_tags s) ->
  exists (j : Z) (e : TEXTURE_INFO),
    0 <= j < m_loadedTextures s /\
    m_textureIDs s !! Z.to_nat j = Some e /\ tag e = q.
Proof.
  intros [Hlen [Hlo Hhi]] Hin. unfold registered_tags, registered in Hin.
  apply list_elem_of_In in Hin. change (map tag ?l) with (tag <$> l) in Hin.
  apply list_elem_of_fmap in Hin. destruct Hin as (e & Hq & He).
  apply list_elem_of_lookup in He. destruct He as [k Hk].
  apply lookup_take_Some in Hk. destruct Hk as [Hk Hlt].
  exists (Z.of_nat k), e. rewrite Nat2Z.id.
  split; [lia |]. split; [exact Hk | now symmetry].
Qed.

(** X1.  On a registry within its bounds [FindTextureSlot] returns -1
    exactly for the tags that no registered entry carries; any other
    result is the index of a registered entry that carries the tag, with
    no earlier one carrying it, and [FindTextureID] returns the handle of
    that same entry. *)
Theorem texture_slot_sound_and_complete (s : SceneManager) (q : string) :
  registry_ok s ->
  exists slot : Z,
    FindTextureSlot s q = Ok slot /\
    (slot = -1 <-> ~ In q (registered_tags s)) /\
    (slot <> -1 ->
     0 <= slot < m_loadedTextures s /\
     exists e : TEXTURE_INFO,
       m_textureIDs s !! Z.to_nat slot = Some e /\ tag e = q /\
       FindTextureID s q = Ok (int_of_uint32 (ID e)) /\
       forall (j : Z) (e' : TEXTURE_INFO), 0 <= j < slot ->
         m_textureIDs s !! Z.to_nat j = Some e' -> tag e' <> q).
Proof.
  intros Hok.
  destruct (first_match_dec s q Hok) as [Hmiss | (i & e & Hi & He & Hq & Hfirst)].
  - destruct (FindTexture_miss s q Hok Hmiss) as [_ Hslot].
    exists (-1). split; [exact Hslot |]. split; [| intros H; now contradict H].
    split; [| reflexivity]. intros _ Hin.
    destruct (registered_tags_In s q Hok Hin) as (j & e & Hj & He & Hq).
    exact (Hmiss j e Hj He Hq).
  - destruct (FindTexture_hit s q i e Hok Hi He Hq Hfirst) as [HID Hslot].
    exists i. split; [exact Hslot |]. split.
    + split; [lia |]. intros Hnot. exfalso. apply Hnot. rewrite <- Hq.
      now apply (registered_tags_lookup s i e).
    + intros _. split; [exact Hi |]. exists e. auto.
Qed.

End LookupResults.

(** X1 at the sample registry: "wall" is found, in slot 1. *)
Lemma texture_slot_witness :
  registry_ok (sample_scene NULL) /\
  exists slot : Z, FindTextureSlot (sample_scene NULL) "wall" = Ok slot /\ slot = 1.
Proof.
  split; [apply sample_scene_ok |].
  destruct (texture_slot_sound_and_complete (sample_scene NULL) "wall"
              (sample_scene_ok NULL)) as (slot & Hslot & _).
  exists slot. split; [exact Hslot |].
  assert (H : FindTextureSlot (sample_scene NULL) "wall" = Ok 1) by reflexivity.
  rewrite H in Hslot. now inversion Hslot.
Defined.

Section RegisterThenLookup.

Context {glm : GlmLib} {host : Host}.

(** X2.  Registration and lookup compose.  After a [CreateGLTexture] that
    registers (usable image, registry with room): a tag that was
    registered before is still found in its old slot with its old handle,
    also when it is the tag just registered again; a tag registered for
    the first time is found in the slot equal to the old count, with the
    texture name just generated; every other tag is still not found. *)
Theorem CreateGLTexture_then_lookup
    (w : World) (filename t : string) (image : Image) :
  stbi_load filename = Some image ->
  colorChannels image = 3 \/ colorChannels image = 4 ->
  registry_ok (scene w) ->
  m_loadedTextures (scene w) < TEXTURE_CAPACITY ->
  exists w' : World,
    CreateGLTexture filename t w = Ok (true, w') /\
    (forall q : string, In q (registered_tags (scene w)) ->
       FindTextureSlot (scene w') q = FindTextureSlot (scene w) q /\
       FindTextureID (scene w') q = FindTextureID (scene w) q) /\
    (~ In t (registered_tags (scene w)) ->
       FindTextureSlot (scene w') t = Ok (m_loadedTextures (scene w)) /\
       FindTextureID (scene w') t = Ok (int_of_uint32 (gen_name (gl_names w)))) /\
    (forall q : string, q <> t -> ~ In q (registered_tags (scene w)) ->
       FindTextureSlot (scene w') q = Ok (-1) /\
       FindTextureID (scene w') q = Ok (-1)).
Proof.
  intros Hload Hch Hok Hroom.
  set (n := m_loadedTextures (scene w)).
  set (new := {| tag := t; ID := gen_name (gl_names w) |}).
  set (s' := registry_with (scene w) (n + 1)
               (<[Z.to_nat n := new]> (m_textureIDs (scene w)))).
  assert (Hok' : registry_ok s') by (now apply registry_ok_after_insert).
  pose proof Hok as [Hlen [Hlo Hhi]]. unfold TEXTURE_CAPACITY in Hroom. fold n in Hlo, Hroom.
  assert (Hold : forall (j : Z), 0 <= j < n ->
            m_textureIDs s' !! Z.to_nat j = m_textureIDs (scene w) !! Z.to_nat j).
  { intros j Hj. simpl. apply list_lookup_insert_ne. lia. }
  assert (Hnew : m_textureIDs s' !! Z.to_nat n = Some new).
  { simpl. apply list_lookup_insert_eq. lia. }
  eexists. split;
    [apply (CreateGLTexture_registers w filename t image Hload Hch Hok);
     unfold TEXTURE_CAPACITY; exact Hroom |].
  cbn [scene]. fold n new s'.
  split; [| split].
  - intros q Hin.
    destruct (first_match_dec (scene w) q Hok)
      as [Hmiss | (i & e & Hi & He & Hq & Hfirst)].
    + exfalso. destruct (registered_tags_In (scene w) q Hok Hin)
        as (j & e & Hj & He & Hq). exact (Hmiss j e Hj He Hq).
    + fold n in Hi.
      destruct (FindTexture_hit (scene w) q i e Hok Hi He Hq Hfirst)
        as [HID Hslot].
      destruct (FindTexture_hit s' q i e Hok') as [HID' Hslot'];
        [simpl; lia | rewrite Hold by lia; exact He | exact Hq | |].
      { intros j e' Hj He'. rewrite Hold in He' by lia.
        exact (Hfirst j e' Hj He'). }
      split; congruence.
  - intros Hnot.
    destruct (FindTexture_hit s' t n new Hok') as [HID' Hslot'];
      [simpl; lia | exact Hnew | reflexivity | |].
    { intros j e' Hj He' Heq. rewrite Hold in He' by lia.
      apply Hnot. rewrite <- Heq.
      apply (registered_tags_lookup (scene w) j e'); [fold n; lia | exact He']. }
    split; assumption.
  - intros q Hne Hnot. apply and_comm.
    apply (FindTexture_miss s' q Hok').
    intros j e' Hj He' Heq. simpl in Hj.
    destruct (Z.eq_dec j n) as [-> | Hjn].
    + rewrite Hnew in He'. inversion He'; subst e'. simpl in Heq. congruence.
    + rewrite Hold in He' by lia. apply Hnot. rewrite <- Heq.
      apply (registered_tags_lookup (scene w) j e'); [fold n; lia | exact He'].
Qed.

End RegisterThenLookup.

(** X2 at the sample world: "lamp" is new there and lands in slot 3. *)
Lemma register_then_lookup_witness :
  @stbi_load sample_host "textures/lamp.jpg"
  = Some {| width := 512; height := 512; colorChannels := 3 |} /\
  registry_ok (scene (@sample_world sample_glm NULL)) /\
  m_loadedTextures (scene (@sample_world sample_glm NULL)) < TEXTURE_CAPACITY /\
  exists w' : @World sample_glm,
    @CreateGLTexture sample_glm sample_host "textures/lamp.jpg" "lamp"
      (sample_world NULL) = Ok (true, w') /\
    FindTextureSlot (scene w') "lamp" = Ok 3.
Proof.
  split; [reflexivity |]. split; [apply sample_scene_ok |].
  split; [apply sample_world_room |].
  destruct (@CreateGLTexture_then_lookup sample_glm sample_host
              (sample_world NULL) "textures/lamp.jpg" "lamp"
              {| width := 512; height := 512; colorChannels := 3 |}
              eq_refl (or_introl eq_refl) (sample_scene_ok NULL)
              (sample_world_room NULL))
    as (w' & Hrun & _ & Hnew & _).
  exists w'. split; [exact Hrun |].
  apply Hnew. simpl. intros [H | [H | [H | []]]]; discriminate H.
Defined.

Section SlotsAndUnits.

Context {glm : GlmLib} {host : Host}.

Lemma same_tag_lookup (a b : list TEXTURE_INFO) (j : nat) (e' : TEXTURE_INFO) :
  map tag a = map tag b -> b !! j = Some e' ->
  exists e : TEXTURE_INFO, a !! j = Some e /\ tag e = tag e'.
Proof.
  intros Htags He'.
  assert (H : (tag <$> a) !! j = Some (tag e')).
  { change (tag <$> a) with (map tag a). rewrite Htags.
    change (map tag b) with (tag <$> b). now rewrite list_lookup_fmap, He'. }
  rewrite list_lookup_fmap in H.
  destruct (a !! j) as [e|]; [| discriminate].
  exists e. split; [reflexivity |]. now inversion H.
Qed.

(** [FindTextureSlot] looks at nothing but the count and the tags. *)
Lemma FindTextureSlot_tags_only (s s' : SceneManager) (q : string) :
  registry_ok s -> registry_ok s' ->
  m_loadedTextures s' = m_loadedTextures s ->
  map tag (m_textureIDs s') = map tag (m_textureIDs s) ->
  FindTextureSlot s' q = FindTextureSlot s q.
Proof.
  intros Hok Hok' Hcount Htags.
  destruct (first_match_dec s q Hok) as [Hmiss | (i & e & Hi & He & Hq & Hfirst)].
  - destruct (FindTexture_miss s q Hok Hmiss) as [_ ->].
    apply (FindTexture_miss s' q Hok').
    intros j e' Hj He' Heq. rewrite Hcount in Hj.
    destruct (same_tag_lookup _ _ _ _ (eq_sym Htags) He') as (e & He & Htag).
    apply (Hmiss j e Hj He). congruence.
  - destruct (FindTexture_hit s q i e Hok Hi He Hq Hfirst) as [_ ->].
    destruct (same_tag_lookup _ _ _ _ Htags He) as (e' & He' & Htag).
    apply (FindTexture_hit s' q i e' Hok'); [lia | exact He' | congruence |].
    intros j e'' Hj He'' Heq.
    destruct (same_tag_lookup _ _ _ _ (eq_sym Htags) He'') as (e0 & He0 & Htag0).
    apply (Hfirst j e0 Hj He0). congruence.
Qed.

(** X3.  [DestroyGLTextures] leaves every slot lookup as it was and
    replaces every registered handle.  For a registered tag, the entry the
    lookups find stays at its index with its tag; the handle stored in it
    after the call is a texture name that was not in use before the call,
    hence not the handle stored before when that one was in use;
    [FindTextureID] returns the stored handle, so, with both handles
    below 2^31, the value it returned before the call is no longer the
    one it returns. *)
Theorem DestroyGLTextures_keeps_slots_changes_handles (w : World) :
  FreshNames host ->
  registry_ok (scene w) ->
  exists w' : World,
    DestroyGLTextures w = Ok (tt, w') /\
    (forall q : string,
       FindTextureSlot (scene w') q = FindTextureSlot (scene w) q) /\
    (forall q : string, In q (registered_tags (scene w)) ->
       exists (slot : Z) (e e' : TEXTURE_INFO),
         0 <= slot < m_loadedTextures (scene w) /\
         FindTextureSlot (scene w) q = Ok slot /\
         m_textureIDs (scene w) !! Z.to_nat slot = Some e /\
         m_textureIDs (scene w') !! Z.to_nat slot = Some e' /\
         tag e = q /\ tag e' = q /\
         FindTextureID (scene w) q = Ok (int_of_uint32 (ID e)) /\
         FindTextureID (scene w') q = Ok (int_of_uint32 (ID e')) /\
         ~ In (ID e') (gl_names w) /\
         (In (ID e) (gl_names w) -> ID e' <> ID e) /\
         (In (ID e) (gl_names w) ->
          0 <= ID e < 2 ^ 31 -> 0 <= ID e' < 2 ^ 31 ->
          FindTextureID (scene w') q <> FindTextureID (scene w) q)).
Proof.
  intros Hfresh Hok. pose proof Hok as [Hlen [Hlo Hhi]].
  destruct (DestroyGLTextures_loop Hfresh (Z.to_nat (m_loadedTextures (scene w)))
              0 w) as
    (w' & names & Hrun & Hcount & _ & _ & Hlen' & Htags & _ & Hin & _);
    [lia | lia | exact Hlen |].
  assert (Hok' : registry_ok (scene w')).
  { split; [exact Hlen' | rewrite Hcount; split; assumption]. }
  exists w'. split; [exact Hrun |]. split.
  - intros q. now apply FindTextureSlot_tags_only.
  - intros q Hq.
    destruct (first_match_dec (scene w) q Hok)
      as [Hmiss | (i & e & Hi & He & Htag & Hfirst)].
    { exfalso. destruct (registered_tags_In (scene w) q Hok Hq)
        as (j & e & Hj & He & Htag). exact (Hmiss j e Hj He Htag). }
    destruct (FindTexture_hit (scene w) q i e Hok Hi He Htag Hfirst)
      as [HID Hslot].
    destruct (same_tag_lookup _ _ _ _ Htags He) as (e' & He' & Htag').
    assert (Hfirst' : forall (j : Z) (e'' : TEXTURE_INFO), 0 <= j < i ->
              m_textureIDs (scene w') !! Z.to_nat j = Some e'' -> tag e'' <> q).
    { intros j e'' Hj He'' Heq.
      destruct (same_tag_lookup _ _ _ _ (eq_sym Htags) He'')
        as (e0 & He0 & Htag0).
      apply (Hfirst j e0 Hj He0). congruence. }
    destruct (FindTexture_hit (scene w') q i e' Hok') as [HID' _];
      [lia | exact He' | congruence | exact Hfirst' |].
    assert (Hnew : ~ In (ID e') (gl_names w)).
    { apply (Hin (Z.to_nat i) e'); [simpl; lia | exact He']. }
    exists i, e, e'.
    split; [exact Hi |]. split; [exact Hslot |]. split; [exact He |].
    split; [exact He' |]. split; [exact Htag |]. split; [congruence |].
    split; [exact HID |]. split; [exact HID' |]. split; [exact Hnew |].
    split; [intros Hold Heq; now rewrite Heq in Hnew |].
    intros Hold Hrange Hrange'. rewrite HID, HID'.
    rewrite !int_of_uint32_small by assumption.
    intros Heq. inversion Heq as [Heq']. now rewrite Heq' in Hnew.
Qed.

Lemma bind_calls_lookup (entries : list TEXTURE_INFO) :
  forall (first : Z) (k : nat) (e : TEXTURE_INFO),
    entries !! k = Some e ->
    exists before after : list Event,
      bind_calls first entries
      = before ++ [E_glActiveTexture (first + Z.of_nat k); E_glBindTexture (ID e)]
        ++ after.
Proof.
  induction entries as [|e0 entries IH]; intros first k e He; [discriminate |].
  destruct k as [|k].
  - inversion He; subst e0. exists [], (bind_calls (first + 1) entries).
    simpl. now rewrite Z.add_0_r.
  - destruct (IH (first + 1) k e He) as (before & after & Hcalls).
    exists (E_glActiveTexture first :: E_glBindTexture (ID e0) :: before), after.
    simpl bind_calls. rewrite Hcalls.
    replace (first + 1 + Z.of_nat k) with (first + Z.of_nat (S k)) by lia.
    reflexivity.
Qed.

Lemma BindGLTextures_loop_calls :
  forall (n : nat) (i : Z) (w : World),
    0 <= i -> i + Z.of_nat n <= TEXTURE_CAPACITY ->
    length (m_textureIDs (scene w)) = 16%nat ->
    for_loop n i (fun i =>
      bind (emit (E_glActiveTexture i)) (fun _ =>
      bind get_scene (fun s =>
      bind (lift (read_texture s i)) (fun e =>
      emit (E_glBindTexture (ID e)))))) w
    = Ok (tt, append_trace w
                (bind_calls i (take n (drop (Z.to_nat i) (m_textureIDs (scene w)))))).
Proof.
  unfold TEXTURE_CAPACITY.
  induction n as [|n IH]; intros i w Hi Hcap Hlen.
  - simpl. now rewrite append_trace_nil.
  - destruct (lookup_lt_is_Some_2 (m_textureIDs (scene w)) (Z.to_nat i))
      as [e He]; [lia|].
    assert (Hstep :
      bind (emit (E_glActiveTexture i)) (fun _ =>
        bind get_scene (fun s =>
        bind (lift (read_texture s i)) (fun e =>
        emit (E_glBindTexture (ID e))))) w
      = Ok (tt, append_trace w [E_glActiveTexture i; E_glBindTexture (ID e)])).
    { unfold bind, get_scene, lift. rewrite emit_append. simpl scene.
      rewrite (read_texture_Ok (scene w) i e)
        by (unfold TEXTURE_CAPACITY; auto with zarith).
      rewrite emit_append. now rewrite append_trace_app. }
    simpl for_loop. unfold bind at 1. rewrite Hstep.
    rewrite IH by (simpl; lia). rewrite append_trace_app. simpl scene.
    rewrite (drop_S _ _ _ He). simpl take. simpl bind_calls.
    replace (Z.to_nat (i + 1)) with (S (Z.to_nat i)) by lia.
    reflexivity.
Qed.

(** X4.  [BindGLTextures] binds the handle of registered entry number i to
    texture unit i, for i from 0 up to the count, and does nothing else;
    so for every tag that [FindTextureSlot] finds, the unit equal to the
    returned slot is the one that was bound to the handle
    [FindTextureID] returns for the tag. *)
Theorem BindGLTextures_binds_slot_to_handle (w : World) :
  registry_ok (scene w) ->
  BindGLTextures w
  = Ok (tt, append_trace w (bind_calls 0 (registered (scene w)))) /\
  forall (q : string) (slot : Z),
    FindTextureSlot (scene w) q = Ok slot -> slot <> -1 ->
    exists (e : TEXTURE_INFO) (before after : list Event),
      m_textureIDs (scene w) !! Z.to_nat slot = Some e /\ tag e = q /\
      FindTextureID (scene w) q = Ok (int_of_uint32 (ID e)) /\
      bind_calls 0 (registered (scene w))
      = before ++ [E_glActiveTexture slot; E_glBindTexture (ID e)] ++ after.
Proof.
  intros Hok. pose proof Hok as [Hlen [Hlo Hhi]]. split.
  - unfold BindGLTextures. unfold bind at 1, get_scene at 1.
    rewrite BindGLTextures_loop_calls by (try exact Hlen; lia).
    reflexivity.
  - intros q slot Hslot Hfound.
    destruct (first_match_dec (scene w) q Hok)
      as [Hmiss | (i & e & Hi & He & Htag & Hfirst)].
    + destruct (FindTexture_miss (scene w) q Hok Hmiss) as [_ H].
      rewrite H in Hslot. inversion Hslot. congruence.
    + destruct (FindTexture_hit (scene w) q i e Hok Hi He Htag Hfirst)
        as [HID H].
      rewrite H in Hslot. inversion Hslot; subst slot.
      destruct (bind_calls_lookup (registered (scene w)) 0 (Z.to_nat i) e)
        as (before & after & Hcalls).
      { unfold registered. rewrite lookup_take_lt by lia. exact He. }
      exists e, before, after.
      split; [exact He |]. split; [exact Htag |]. split; [exact HID |].
      rewrite Hcalls. now rewrite Z.add_0_l, Z2Nat.id by lia.
Qed.

End SlotsAndUnits.

(** X3 and X4 at the sample world. *)
Lemma destroy_slots_witness :
  FreshNames sample_host /\
  registry_ok (scene (@sample_world sample_glm NULL)) /\
  FindTextureID (scene (@sample_world sample_glm NULL)) "leaf" = Ok 3 /\
  exists (w' : @World sample_glm) (e' : TEXTURE_INFO),
    @DestroyGLTextures sample_glm sample_host (sample_world NULL) = Ok (tt, w') /\
    FindTextureSlot (scene w') "leaf" = Ok 2 /\
    m_textureIDs (scene w') !! 2%nat = Some e' /\
    tag e' = "leaf" /\ ID e' <> 3 /\
    FindTextureID (scene w') "leaf" = Ok (int_of_uint32 (ID e')).
Proof.
  split; [exact sample_host_fresh |]. split; [apply sample_scene_ok |].
  split; [reflexivity |].
  destruct (@DestroyGLTextures_keeps_slots_changes_handles sample_glm sample_host
              (sample_world NULL) sample_host_fresh (sample_scene_ok NULL))
    as (w' & Hrun & Hslots & Hhandles).
  destruct (Hhandles "leaf") as
    (slot & e & e' & _ & Hslot & He & He' & _ & Htag' & _ & HID' & _ & Hstale & _).
  { simpl. tauto. }
  assert (Hs : slot = 2) by (inversion Hslot; reflexivity).
  subst slot. inversion He; subst e.
  exists w', e'. split; [exact Hrun |].
  split; [now rewrite Hslots |]. split; [exact He' |].
  split; [exact Htag' |]. split; [| exact HID'].
  apply Hstale. simpl. tauto.
Defined.

Lemma bind_units_witness :
  registry_ok (scene (@sample_world sample_glm NULL)) /\
  @BindGLTextures sample_glm (sample_world NULL)
  = Ok (tt, append_trace (sample_world NULL)
              [E_glActiveTexture 0; E_glBindTexture 1;
               E_glActiveTexture 1; E_glBindTexture 2;
               E_glActiveTexture 2; E_glBindTexture 3]).
Proof.
  split; [apply sample_scene_ok |].
  exact (proj1 (@BindGLTextures_binds_slot_to_handle sample_glm
                  (sample_world NULL) (sample_scene_ok NULL))).
Defined.

Section UnusableImage.

Context {glm : GlmLib} {host : Host}.

(** X5.  What [CreateGLTexture] leaves behind when it returns [false].
    For a file that does not decode its calls are three, the flip
    setting, [stbi_load] and the log line: it makes no OpenGL call, the
    texture names in use and the object are as before.  For an image that decodes with a channel count
    other than 3 and 4 it has already generated a texture name, which
    stays in use without being registered; the texture is left bound
    (no later bind call) and the image is not freed. *)
Theorem CreateGLTexture_rejected_image_leaks
    (w : World) (filename t : string) :
  (stbi_load filename = None ->
   exists w' : World,
     CreateGLTexture filename t w = Ok (false, w') /\
     scene w' = scene w /\
     gl_names w' = gl_names w /\
     trace w'
     = trace w ++ [ E_stbi_set_flip_vertically_on_load true;
                    E_stbi_load filename;
                    E_cout (CouldNotLoad filename) ] /\
     List.filter is_gl_call
       [ E_stbi_set_flip_vertically_on_load true; E_stbi_load filename;
         E_cout (CouldNotLoad filename) ] = [])
  /\
  (forall image : Image,
     stbi_load filename = Some image ->
     colorChannels image <> 3 -> colorChannels image <> 4 ->
     exists (w' : World) (before after : list Event),
       CreateGLTexture filename t w = Ok (false, w') /\
       scene w' = scene w /\
       gl_names w' = gen_name (gl_names w) :: gl_names w /\
       trace w'
       = trace w ++ before ++ [E_glBindTexture (gen_name (gl_names w))] ++ after /\
       In (E_glGenTextures (gen_name (gl_names w))) before /\
       (forall name : Z, ~ In (E_glBindTexture name) after) /\
       ~ In E_stbi_image_free (before ++ after)).
Proof.
  split.
  - intros Hload. eexists. split;
      [apply (CreateGLTexture_could_not_load w filename t Hload) |].
    repeat split; reflexivity.
  - intros image Hload H3 H4.
    eexists _,
      [ E_stbi_set_flip_vertically_on_load true; E_stbi_load filename;
        E_cout (SuccessfullyLoaded filename (width image) (height image)
                  (colorChannels image));
        E_glGenTextures (gen_name (gl_names w)) ],
      [ E_glTexParameteri GL_TEXTURE_WRAP_S GL_REPEAT;
        E_glTexParameteri GL_TEXTURE_WRAP_T GL_REPEAT;
        E_glTexParameteri GL_TEXTURE_MIN_FILTER GL_LINEAR;
        E_glTexParameteri GL_TEXTURE_MAG_FILTER GL_LINEAR;
        E_cout (NotImplementedChannels (colorChannels image)) ].
    split; [apply (CreateGLTexture_not_implemented w filename t image Hload H3 H4) |].
    split; [reflexivity |]. split; [reflexivity |]. split; [reflexivity |].
    split; [right; right; right; now left |].
    split.
    + intros name [H | [H | [H | [H | [H | []]]]]]; discriminate H.
    + intros [H | [H | [H | [H | [H | [H | [H | [H | [H | []]]]]]]]]];
        discriminate H.
Qed.

End UnusableImage.

(** X5 at the sample world: the pot file does not decode and the marble
    file has one channel. *)
Lemma rejected_image_witness :
  @stbi_load sample_host "textures/pot.jpg" = None /\
  @stbi_load sample_host "textures/marble.jpg"
  = Some {| width := 64; height := 64; colorChannels := 1 |} /\
  (exists w' : @World sample_glm,
     @CreateGLTexture sample_glm sample_host "textures/pot.jpg" "pot"
       (sample_world NULL) = Ok (false, w') /\
     gl_names w' = [3; 2; 1] /\
     trace w' = [ E_stbi_set_flip_vertically_on_load true;
                  E_stbi_load "textures/pot.jpg";
                  E_cout (CouldNotLoad "textures/pot.jpg") ]) /\
  exists w' : @World sample_glm,
    @CreateGLTexture sample_glm sample_host "textures/marble.jpg" "marble"
      (sample_world NULL) = Ok (false, w') /\
    gl_names w' = [4; 3; 2; 1].
Proof.
  split; [reflexivity |]. split; [reflexivity |]. split.
  - destruct (proj1 (@CreateGLTexture_rejected_image_leaks sample_glm sample_host
                       (sample_world NULL) "textures/pot.jpg" "pot") eq_refl)
      as (w' & Hrun & _ & Hnames & Htrace & _).
    exists w'. split; [exact Hrun |]. split; [exact Hnames | exact Htrace].
  - destruct (proj2 (@CreateGLTexture_rejected_image_leaks sample_glm sample_host
                       (sample_world NULL) "textures/marble.jpg" "marble")
                {| width := 64; height := 64; colorChannels := 1 |} eq_refl)
      as (w' & before & after & Hrun & _ & Hnames & _);
      [simpl; lia | simpl; lia |].
    exists w'. split; [exact Hrun | exact Hnames].
Defined.

Section MaterialUploads.

Context {glm : GlmLib} {host : Host}.

(** X6.  For a tag that a preset carries, [FindMaterial] returns [true]
    and the output holds the ambient colour, ambient strength, diffuse
    colour, specular colour and shininess of the first such preset,
    while the output's own tag is not assigned. *)
Theorem FindMaterial_copies_first_match
    (s : SceneManager) (q : string) (material : OBJECT_MATERIAL)
    (i : nat) (m : OBJECT_MATERIAL) :
  m_objectMaterials s !! i = Some m -> material_tag m = q ->
  (forall (j : nat) (m' : OBJECT_MATERIAL), (j < i)%nat ->
     m_objectMaterials s !! j = Some m' -> material_tag m' <> q) ->
  exists material' : OBJECT_MATERIAL,
    FindMaterial s q material = Ok (true, material') /\
    ambientColor material' = ambientColor m /\
    ambientStrength material' = ambientStrength m /\
    diffuseColor material' = diffuseColor m /\
    specularColor material' = specularColor m /\
    shininess material' = shininess m /\
    material_tag material' = material_tag material.
Proof.
  intros Hm Hq Hfirst. exists (copy_material m material).
  split; [now apply (FindMaterial_present s q material i m) |].
  repeat split.
Qed.

Lemma SetShaderMaterial_found (w : World) (materialTag : string)
    (material : OBJECT_MATERIAL) :
  m_pShaderManager (scene w) = ShaderManagerAt ->
  m_objectMaterials (scene w) <> [] ->
  FindMaterial (scene w) materialTag indeterminate_material = Ok (true, material) ->
  SetShaderMaterial materialTag w = Ok (tt, append_trace w (material_uploads material)).
Proof.
  intros Hat Hne Hfind. unfold SetShaderMaterial.
  unfold bind at 1, get_scene at 1.
  destruct (m_objectMaterials (scene w)) as [|m0 mats] eqn:Hmats; [congruence |].
  rewrite <- Hmats in *.
  assert (Hlen : (0 <? Z.of_nat (length (m_objectMaterials (scene w)))) = true).
  { rewrite Hmats. simpl length. apply Z.ltb_lt. lia. }
  rewrite Hlen. unfold bind at 1, lift. rewrite Hfind.
  cbv beta iota delta [Bool.eqb]. unfold bind.
  repeat (rewrite shader_call_at by (simpl scene; exact Hat)).
  repeat rewrite append_trace_app. reflexivity.
Qed.

(** X7.  With a shader manager attached, [SetShaderMaterial] for a tag
    that a preset carries makes exactly five uploads, in the order
    material.ambientColor, material.ambientStrength,
    material.diffuseColor, material.specularColor, material.shininess,
    with the values of the first preset carrying the tag. *)
Theorem SetShaderMaterial_uploads_first_match
    (w : World) (materialTag : string) (i : nat) (m : OBJECT_MATERIAL) :
  m_pShaderManager (scene w) = ShaderManagerAt ->
  m_objectMaterials (scene w) !! i = Some m -> material_tag m = materialTag ->
  (forall (j : nat) (m' : OBJECT_MATERIAL), (j < i)%nat ->
     m_objectMaterials (scene w) !! j = Some m' -> material_tag m' <> materialTag) ->
  SetShaderMaterial materialTag w
  = Ok (tt, append_trace w
              [ E_setVec3Value "material.ambientColor" (ambientColor m);
                E_setFloatValue "material.ambientStrength" (ambientStrength m);
                E_setVec3Value "material.diffuseColor" (diffuseColor m);
                E_setVec3Value "material.specularColor" (specularColor m);
                E_setFloatValue "material.shininess" (shininess m) ]).
Proof.
  intros Hat Hm Hq Hfirst.
  rewrite (SetShaderMaterial_found w materialTag
             (copy_material m indeterminate_material) Hat).
  - reflexivity.
  - intros Hnil. rewrite Hnil in Hm. discriminate.
  - now apply (FindMaterial_present _ _ _ i m).
Qed.

(** X8.  [SetShaderMaterial] does not test the shader manager pointer.
    On an object whose pointer is null it returns without effect only
    when the material table is empty; with any material defined it
    dereferences the null pointer, whatever the tag. *)
Theorem SetShaderMaterial_null_shader (w : World) (materialTag : string) :
  m_pShaderManager (scene w) = NULL ->
  SetShaderMaterial materialTag w
  = match m_objectMaterials (scene w) with
    | [] => Ok (tt, w)
    | _ :: _ => Crash NullDereference
    end.
Proof.
  intros Hnull. unfold SetShaderMaterial. unfold bind at 1, get_scene at 1.
  destruct (m_objectMaterials (scene w)) as [|m0 mats] eqn:Hmats; [reflexivity |].
  rewrite <- Hmats.
  assert (Hlen : (0 <? Z.of_nat (length (m_objectMaterials (scene w)))) = true).
  { rewrite Hmats. simpl length. apply Z.ltb_lt. lia. }
  rewrite Hlen.
  assert (Htrue : exists material,
            FindMaterial (scene w) materialTag indeterminate_material
            = Ok (true, material)).
  { destruct (FindMaterial_total (scene w) materialTag indeterminate_material)
      as (b & material & Hfind).
    exists material. rewrite Hfind. unfold FindMaterial in Hfind.
    apply Z.ltb_lt in Hlen.
    destruct (Z.eqb_spec (Z.of_nat (length (m_objectMaterials (scene w)))) 0);
      [lia |].
    destruct (FindMaterial_while _ _ _ _ _ _) as [[b' m']|f];
      [| discriminate]. now inversion Hfind. }
  destruct Htrue as [material Hfind].
  unfold bind at 1, lift. rewrite Hfind. cbv beta iota delta [Bool.eqb].
  unfold bind at 1. now rewrite shader_call_NULL.
Qed.

(** X9.  With a shader manager attached and a material table that is not
    empty, [SetShaderMaterial] for a tag that no preset carries still
    makes the five uploads: [FindMaterial] has returned [true] without
    writing its output, and the values uploaded are those of the
    default-initialised local. *)
Theorem SetShaderMaterial_unknown_tag_uploads_uninitialised
    (w : World) (materialTag : string) :
  m_pShaderManager (scene w) = ShaderManagerAt ->
  m_objectMaterials (scene w) <> [] ->
  (forall (j : nat) (m : OBJECT_MATERIAL),
     m_objectMaterials (scene w) !! j = Some m -> material_tag m <> materialTag) ->
  SetShaderMaterial materialTag w
  = Ok (tt, append_trace w (material_uploads indeterminate_material)).
Proof.
  intros Hat Hne Hmiss.
  apply (SetShaderMaterial_found w materialTag indeterminate_material Hat Hne).
  rewrite (FindMaterial_absent _ _ _ Hmiss).
  destruct (m_objectMaterials (scene w)); [congruence | reflexivity].
Qed.

End MaterialUploads.

Lemma sample_granite_first (j : nat) (m' : OBJECT_MATERIAL) :
  (j < 2)%nat ->
  m_objectMaterials (sample_scene ShaderManagerAt) !! j = Some m' ->
  material_tag m' <> "granite".
Proof.
  intros Hj Hm'. destruct j as [|[|j]]; [| | lia];
    inversion Hm'; discriminate.
Defined.

(** X6 to X9 at the sample world. *)
Lemma FindMaterial_copy_witness :
  exists material' : OBJECT_MATERIAL,
    FindMaterial (sample_scene ShaderManagerAt) "granite" lamp
    = Ok (true, material') /\
    shininess material' = flit 8 0 /\ material_tag material' = "lamp".
Proof.
  destruct (FindMaterial_copies_first_match (sample_scene ShaderManagerAt)
              "granite" lamp 2 granite eq_refl eq_refl sample_granite_first)
    as (material' & Hfind & _ & _ & _ & _ & Hshine & Htag).
  exists material'. split; [exact Hfind |]. split; [exact Hshine | exact Htag].
Defined.

Lemma SetShaderMaterial_witness :
  m_pShaderManager (scene (@sample_world sample_glm ShaderManagerAt))
  = ShaderManagerAt /\
  exists events : list (@Event sample_glm),
    @SetShaderMaterial sample_glm sample_host "granite" (sample_world ShaderManagerAt)
    = Ok (tt, append_trace (sample_world ShaderManagerAt) events) /\
    length events = 5%nat.
Proof.
  split; [reflexivity |].
  eexists. split.
  - exact (@SetShaderMaterial_uploads_first_match sample_glm sample_host
             (sample_world ShaderManagerAt) "granite" 2 granite
             eq_refl eq_refl eq_refl sample_granite_first).
  - reflexivity.
Defined.

Lemma SetShaderMaterial_null_witness :
  m_pShaderManager (scene (@sample_world sample_glm NULL)) = NULL /\
  @SetShaderMaterial sample_glm sample_host "granite" (sample_world NULL)
  = Crash NullDereference.
Proof.
  split; [reflexivity |].
  exact (@SetShaderMaterial_null_shader sample_glm sample_host
           (sample_world NULL) "granite" eq_refl).
Defined.

Lemma SetShaderMaterial_unknown_witness :
  m_pShaderManager (scene (@sample_world sample_glm ShaderManagerAt))
  = ShaderManagerAt /\
  @SetShaderMaterial sample_glm sample_host "wood" (sample_world ShaderManagerAt)
  = Ok (tt, append_trace (sample_world ShaderManagerAt)
              (material_uploads (@indeterminate_material sample_host))).
Proof.
  split; [reflexivity |].
  apply (@SetShaderMaterial_unknown_tag_uploads_uninitialised sample_glm
           sample_host (sample_world ShaderManagerAt) "wood" eq_refl).
  - discriminate.
  - intros j m Hm.
    destruct j as [|[|[|[|[|j]]]]]; inversion Hm; discriminate.
Defined.

Section Frames.

Context {glm : GlmLib} {host : Host}.

(** X10.  [RenderScene] calls the shader manager without testing the
    pointer: on an object within its bounds it returns exactly when the
    pointer is not null, and with a null pointer it ends in a null
    dereference. *)
Theorem RenderScene_needs_shader_manager (w : World) :
  registry_ok (scene w) ->
  ((exists w' : World, RenderScene w = Ok (tt, w'))
   <-> m_pShaderManager (scene w) = ShaderManagerAt) /\
  (m_pShaderManager (scene w) = NULL -> RenderScene w = Crash NullDereference).
Proof.
  intros Hok. split; [split |].
  - intros [w' Hrun]. destruct (m_pShaderManager (scene w)) eqn:Hp;
      [| reflexivity].
    rewrite RenderScene_NULL in Hrun by exact Hp. discriminate.
  - intros Hat.
    destruct (RenderScene_run (scene w) Hat Hok w eq_refl)
      as (lights & objects & _ & Hrun & _).
    eauto.
  - apply RenderScene_NULL.
Qed.

Lemma replays_bind (s : SceneManager) (c1 c2 : M unit) :
  replays s c1 -> replays s c2 -> replays s (bind c1 (fun _ => c2)).
Proof.
  intros [e1 H1] [e2 H2]. exists (e1 ++ e2). intros w Hs.
  unfold bind. rewrite (H1 w Hs), (H2 (append_trace w e1) Hs).
  now rewrite append_trace_app.
Qed.

Lemma replays_ret (s : SceneManager) : replays s (ret tt).
Proof. exists []. intros w _. now rewrite append_trace_nil. Qed.

Lemma replays_emit (s : SceneManager) (e : Event) : replays s (emit e).
Proof. exists [e]. intros w _. reflexivity. Qed.

Section Attached.

Variable s : SceneManager.
Hypothesis Hat : m_pShaderManager s = ShaderManagerAt.
Hypothesis Hok : registry_ok s.

Lemma replays_shader_call (e : Event) : replays s (shader_call e).
Proof using Hat.
  exists [e]. intros w Hs. apply shader_call_at. now rewrite Hs.
Qed.

Lemma replays_if_shader (body : M unit) :
  replays s body -> replays s (if_shader body).
Proof using Hat.
  intros [events H]. exists events. intros w Hs.
  rewrite if_shader_at by (now rewrite Hs). now apply H.
Qed.

Lemma replays_SetShaderTexture (textureTag : string) :
  replays s (SetShaderTexture textureTag).
Proof using Hat Hok.
  apply replays_if_shader. apply replays_bind; [apply replays_shader_call |].
  destruct (FindTextureSlot_total s textureTag Hok) as [slot [Hslot _]].
  exists [E_setSampler2DValue g_TextureValueName slot]. intros w Hs.
  unfold bind, get_scene, lift. rewrite Hs, Hslot.
  apply shader_call_at. now rewrite Hs.
Qed.

Lemma replays_SetShaderMaterial (materialTag : string) :
  replays s (SetShaderMaterial materialTag).
Proof using Hat.
  destruct (m_objectMaterials s) as [|m0 mats] eqn:Hmats.
  - exists []. intros w Hs. rewrite append_trace_nil.
    unfold SetShaderMaterial, bind, get_scene. now rewrite Hs, Hmats.
  - destruct (FindMaterial_total s materialTag indeterminate_material)
      as (b & material & Hfind).
    assert (Hb : b = true).
    { unfold FindMaterial in Hfind. rewrite Hmats in Hfind at 1.
      simpl length in Hfind.
      destruct (Z.eqb_spec (Z.of_nat (S (length mats))) 0); [lia |].
      destruct (FindMaterial_while _ _ _ _ _ _) as [[b' m']|f];
        [| discriminate]. now inversion Hfind. }
    subst b. exists (material_uploads material). intros w Hs.
    apply SetShaderMaterial_found; rewrite Hs;
      [exact Hat | rewrite Hmats; discriminate | exact Hfind].
Qed.

Ltac replay :=
  lazymatch goal with
  | |- replays _ (bind _ _) => apply replays_bind; [replay | replay]
  | |- replays _ (ret tt) => apply replays_ret
  | |- replays _ (emit _) => apply replays_emit
  | |- replays _ (shader_call _) => apply replays_shader_call
  | |- replays _ (if_shader _) => apply replays_if_shader; replay
  | |- replays _ (SetShaderTexture _) => apply replays_SetShaderTexture
  | |- replays _ (SetShaderMaterial _) => apply replays_SetShaderMaterial
  | |- replays _ (SetTransformations _ _ _ _ _) =>
      unfold SetTransformations; replay
  | |- replays _ (SetShaderColor _ _ _ _) => unfold SetShaderColor; replay
  | |- replays _ (SetTextureUVScale _ _) => unfold SetTextureUVScale; replay
  | |- replays _ SetupSceneLights => unfold SetupSceneLights; replay
  end.

Lemma replays_RenderScene : replays s RenderScene.
Proof using Hat Hok.
  unfold RenderScene. change (Z.to_nat leafCount) with 10%nat.
  cbn [for_loop]. replay.
Qed.

End Attached.

(** X11.  A frame depends on the object alone.  With a shader manager
    attached and the registry within its bounds there is one sequence of
    calls that [RenderScene] makes on every world around that object,
    whatever was called before; it changes nothing but the trace, so two
    frames in a row make that sequence twice. *)
Theorem RenderScene_frames_repeat (w : World) :
  m_pShaderManager (scene w) = ShaderManagerAt ->
  registry_ok (scene w) ->
  exists frame : list Event,
    (forall w0 : World, scene w0 = scene w ->
       RenderScene w0 = Ok (tt, append_trace w0 frame)) /\
    bind RenderScene (fun _ => RenderScene) w
    = Ok (tt, append_trace w (frame ++ frame)).
Proof.
  intros Hat Hok.
  destruct (replays_RenderScene (scene w) Hat Hok) as [frame Hframe].
  exists frame. split; [exact Hframe |].
  unfold bind. rewrite (Hframe w eq_refl).
  rewrite (Hframe (append_trace w frame) eq_refl).
  now rewrite append_trace_app.
Qed.

End Frames.

(** X10 and X11 at the sample worlds. *)
Lemma RenderScene_null_witness :
  registry_ok (scene (@sample_world sample_glm NULL)) /\
  @RenderScene sample_glm sample_host (sample_world NULL) = Crash NullDereference.
Proof.
  split; [apply sample_scene_ok |].
  exact (proj2 (@RenderScene_needs_shader_manager sample_glm sample_host
                  (sample_world NULL) (sample_scene_ok NULL)) eq_refl).
Defined.

Lemma frames_repeat_witness :
  m_pShaderManager (scene (@sample_world sample_glm ShaderManagerAt))
  = ShaderManagerAt /\
  registry_ok (scene (@sample_world sample_glm ShaderManagerAt)) /\
  exists frame : list (@Event sample_glm),
    bind (@RenderScene sample_glm sample_host)
      (fun _ => @RenderScene sample_glm sample_host)
      (sample_world ShaderManagerAt)
    = Ok (tt, append_trace (sample_world ShaderManagerAt) (frame ++ frame)).
Proof.
  split; [reflexivity |]. split; [apply sample_scene_ok |].
  destruct (@RenderScene_frames_repeat sample_glm sample_host
              (sample_world ShaderManagerAt) eq_refl
              (sample_scene_ok ShaderManagerAt)) as (frame & _ & Htwice).
  exists frame. exact Htwice.
Defined.

Section FrameCalls.

Context {glm : GlmLib} {host : Host}.

Lemma emits_bind (s : SceneManager) (c1 c2 : M unit) (e1 e2 : list Event) :
  emits s c1 e1 -> emits s c2 e2 -> emits s (bind c1 (fun _ => c2)) (e1 ++ e2).
Proof.
  intros H1 H2 w Hs. unfold bind.
  rewrite (H1 w Hs), (H2 (append_trace w e1) Hs). now rewrite append_trace_app.
Qed.

Lemma emits_ret (s : SceneManager) : emits s (ret tt) [].
Proof. intros w _. now rewrite append_trace_nil. Qed.

Lemma emits_emit (s : SceneManager) (e : Event) : emits s (emit e) [e].
Proof. intros w _. reflexivity. Qed.

Lemma emits_eq (s : SceneManager) (c : M unit) (events events' : list Event) :
  emits s c events -> events = events' -> emits s c events'.
Proof. intros H <-. exact H. Qed.

Lemma append_trace_inj (w : World) (a b : list Event) :
  append_trace w a = append_trace w b -> a = b.
Proof.
  intros H. apply (f_equal trace) in H. simpl in H.
  now apply app_inv_head in H.
Qed.

Lemma Ok_append_trace_inj (w : World) (a b : list Event) :
  Ok (tt, append_trace w a) = Ok (tt, append_trace w b) -> a = b.
Proof.
  intros H. apply (append_trace_inj w).
  exact (f_equal (fun r => match r with Ok (_, w') => w' | Crash _ => w end) H).
Qed.

Lemma draws_app (a b : list Event) : draws (a ++ b) = draws a ++ draws b.
Proof. apply flat_map_app. Qed.

Section Attached.

Variable s : SceneManager.
Hypothesis Hat : m_pShaderManager s = ShaderManagerAt.

Lemma emits_shader_call (e : Event) : emits s (shader_call e) [e].
Proof using Hat. intros w Hs. apply shader_call_at. now rewrite Hs. Qed.

Lemma emits_if_shader (body : M unit) (events : list Event) :
  emits s body events -> emits s (if_shader body) events.
Proof using Hat.
  intros H w Hs. rewrite if_shader_at by (now rewrite Hs). now apply H.
Qed.

Lemma emits_SetTransformations (scaleXYZ : vec3) (rx ry rz : float)
    (positionXYZ : vec3) :
  emits s (SetTransformations scaleXYZ rx ry rz positionXYZ)
    [E_setMat4Value g_ModelName (modelView scaleXYZ rx ry rz positionXYZ)].
Proof using Hat. apply emits_if_shader, emits_shader_call. Qed.

Lemma emits_SetShaderColor (r g b a : float) :
  emits s (SetShaderColor r g b a) (color_state r g b a).
Proof using Hat.
  apply emits_if_shader.
  apply (emits_bind s _ _ [_] [_]); apply emits_shader_call.
Qed.

Lemma emits_SetTextureUVScale (u v : float) :
  emits s (SetTextureUVScale u v) [E_setVec2Value "UVscale" (glm_vec2 u v)].
Proof using Hat. apply emits_if_shader, emits_shader_call. Qed.

(** With a material in the table [FindMaterial] always reports one. *)
Lemma material_state_uploads (materialTag : string) :
  m_objectMaterials s <> [] ->
  exists material : OBJECT_MATERIAL,
    FindMaterial s materialTag indeterminate_material = Ok (true, material) /\
    material_state s materialTag = material_uploads material.
Proof.
  intros Hne.
  destruct (FindMaterial_total s materialTag indeterminate_material)
    as (b & material & Hfind).
  exists material. unfold material_state. rewrite Hfind.
  destruct (m_objectMaterials s) as [|m0 mats] eqn:Hmats; [congruence |].
  assert (Hb : b = true).
  { unfold FindMaterial in Hfind. rewrite Hmats in Hfind at 1.
    simpl length in Hfind.
    destruct (Z.eqb_spec (Z.of_nat (S (length mats))) 0); [lia |].
    destruct (FindMaterial_while _ _ _ _ _ _) as [[b' m']|f];
      [| discriminate]. now inversion Hfind. }
  subst b. split; [reflexivity |].
  simpl length.
  destruct (Z.ltb_spec 0 (Z.of_nat (S (length mats)))); [reflexivity | lia].
Qed.

Lemma emits_SetShaderMaterial (materialTag : string) :
  emits s (SetShaderMaterial materialTag) (material_state s materialTag).
Proof using Hat.
  intros w Hs.
  destruct (m_objectMaterials s) as [|m0 mats] eqn:Hmats.
  - unfold material_state. rewrite Hmats. simpl. rewrite append_trace_nil.
    unfold SetShaderMaterial, bind, get_scene. now rewrite Hs, Hmats.
  - destruct (material_state_uploads materialTag) as (material & Hfind & ->);
      [rewrite Hmats; discriminate |].
    apply SetShaderMaterial_found; rewrite Hs;
      [exact Hat | rewrite Hmats; discriminate | exact Hfind].
Qed.

Lemma emits_SetupSceneLights : emits s SetupSceneLights light_uploads.
Proof using Hat.
  unfold SetupSceneLights. apply emits_if_shader.
  eapply emits_eq;
    [repeat (eapply emits_bind; [apply emits_shader_call |]);
     apply emits_shader_call | reflexivity].
Qed.

Hypothesis Hok : registry_ok s.

Lemma slot_of_found (textureTag : string) :
  FindTextureSlot s textureTag = Ok (slot_of s textureTag).
Proof using Hok.
  unfold slot_of.
  destruct (FindTextureSlot_total s textureTag Hok) as [slot [Hslot _]].
  now rewrite Hslot.
Qed.

Lemma emits_SetShaderTexture (textureTag : string) :
  emits s (SetShaderTexture textureTag) (texture_state s textureTag).
Proof using Hat Hok.
  apply emits_if_shader.
  apply (emits_bind s _ _ [_] [_]); [apply emits_shader_call |].
  intros w Hs. unfold bind, get_scene, lift.
  rewrite Hs, slot_of_found. apply shader_call_at. now rewrite Hs.
Qed.

Ltac frame :=
  lazymatch goal with
  | |- emits _ (bind _ _) _ => eapply emits_bind; [frame | frame]
  | |- emits _ (ret tt) _ => apply emits_ret
  | |- emits _ (emit _) _ => apply emits_emit
  | |- emits _ (shader_call _) _ => apply emits_shader_call
  | |- emits _ SetupSceneLights _ => apply emits_SetupSceneLights
  | |- emits _ (SetTransformations _ _ _ _ _) _ => apply emits_SetTransformations
  | |- emits _ (SetShaderColor _ _ _ _) _ => apply emits_SetShaderColor
  | |- emits _ (SetShaderTexture _) _ => apply emits_SetShaderTexture
  | |- emits _ (SetTextureUVScale _ _) _ => apply emits_SetTextureUVScale
  | |- emits _ (SetShaderMaterial _) _ => apply emits_SetShaderMaterial
  end.

(** The whole frame, call by call. *)
Lemma emits_RenderScene : emits s RenderScene (light_uploads ++ scene_calls s).
Proof using Hat Hok.
  unfold RenderScene. change (Z.to_nat leafCount) with 10%nat.
  cbn [for_loop].
  eapply emits_eq; [frame |].
  f_equal.
  unfold scene_calls, fixed_object_states, fixed_objects, leaf_texture_state,
    leaf_indices, object_events, object_calls.
  cbn [flat_map combine map fst snd].
  repeat (rewrite <- ?app_assoc; cbn [app]).
  reflexivity.
Qed.

End Attached.

Lemma material_state_first_match (s : SceneManager) (i : nat)
    (m : OBJECT_MATERIAL) :
  m_objectMaterials s !! i = Some m ->
  (forall j m', (j < i)%nat ->
     m_objectMaterials s !! j = Some m' -> material_tag m' <> material_tag m) ->
  material_state s (material_tag m) = material_uploads m.
Proof.
  intros Hm Hfirst. unfold material_state.
  rewrite (FindMaterial_present s (material_tag m) indeterminate_material i m
             Hm eq_refl Hfirst).
  assert (Hlt : (i < length (m_objectMaterials s))%nat)
    by (apply lookup_lt_is_Some_1; eauto).
  destruct (Z.ltb_spec 0 (Z.of_nat (length (m_objectMaterials s))));
    [reflexivity | lia].
Qed.

(** C4, as the code has it.  On an object with a shader manager and a
    registry within its bounds, [RenderScene] first sets the scene lights,
    the thirteen uploads of [SetupSceneLights], and then issues exactly 20
    draw calls in this fixed order: wall plane, desk plane, lamp base
    cylinder, lamp neck cylinder, lamp shade tapered cylinder, lamp bulb
    sphere, lamp joint cylinder, clock body cylinder, clock face cylinder,
    pot sphere, and ten leaf tapered cylinders, leaf [i] rotated about Y
    by [i * (360 / 10)], which is exactly 36 i degrees.  Each draw is
    preceded by its transform and its material and texture state: the
    frame is, call for call, the lights, then for each of the ten fixed
    objects the upload of its model matrix, its texture, UV scale,
    material and colour calls and its draw, then the selection of the
    leaf texture, then for each leaf its model matrix and its draw.  The
    sampler gets the slot [FindTextureSlot] finds for the tag, the
    material uploads are those of the first preset carrying the tag, and
    once the table holds a material every fixed object sets some state of
    its own. *)
Theorem RenderScene_draws_the_fixed_scene (w : World) :
  m_pShaderManager (scene w) = ShaderManagerAt ->
  registry_ok (scene w) ->
  SetupSceneLights w = Ok (tt, append_trace w light_uploads) /\
  RenderScene w
  = Ok (tt, append_trace w
              (light_uploads
               ++ flat_map object_events
                    (combine fixed_objects (fixed_object_states (scene w)))
               ++ leaf_texture_state (scene w)
               ++ flat_map object_calls (map leaf_object leaf_indices))) /\
  length light_uploads = 13%nat /\ draws light_uploads = [] /\
  draws (scene_calls (scene w))
  = [Plane; Plane; Cylinder; Cylinder; TaperedCylinder; Sphere; Cylinder;
     Cylinder; Cylinder; Sphere] ++ repeat TaperedCylinder 10 /\
  length (draws (light_uploads ++ scene_calls (scene w))) = 20%nat /\
  (forall textureTag : string,
     FindTextureSlot (scene w) textureTag = Ok (slot_of (scene w) textureTag)) /\
  (forall (i : nat) (m : OBJECT_MATERIAL),
     m_objectMaterials (scene w) !! i = Some m ->
     (forall j m', (j < i)%nat ->
        m_objectMaterials (scene w) !! j = Some m' ->
        material_tag m' <> material_tag m) ->
     material_state (scene w) (material_tag m) = material_uploads m) /\
  (m_objectMaterials (scene w) = [marble; gold; granite; wall; lamp] ->
   map (material_state (scene w)) ["wall"; "granite"; "lamp"; "gold"; "marble"]
   = map material_uploads [wall; granite; lamp; gold; marble]) /\
  (m_objectMaterials (scene w) <> [] ->
   Forall (fun state : list Event => state <> [])
     (fixed_object_states (scene w))) /\
  key_events (scene_calls (scene w))
  = flat_map object_key_calls (combine fixed_objects fixed_flag_writes)
    ++ [E_setIntValue "bUseTexture" 1; E_setIntValue "bUseTexture" 1]
    ++ flat_map object_calls (map leaf_object leaf_indices) /\
  (forall flag : option Z,
     map snd (draw_modes flag (scene_calls (scene w)))
     = map Some [1; 0; 0; 0; 0; 0; 0; 0; 1; 0] ++ repeat (Some 1) 10) /\
  map yRotation leaf_indices
  = map (fun i => float_of_int (36 * i)) leaf_indices.
Proof.
  intros Hat Hok.
  pose proof (emits_SetupSceneLights (scene w) Hat w eq_refl) as Hlights.
  pose proof (emits_RenderScene (scene w) Hat Hok w eq_refl) as Hrun.
  destruct (RenderScene_run (scene w) Hat Hok w eq_refl)
    as (lights & objects & Hlights' & Hrun' & _ & _ & Hkey).
  assert (Hl : lights = light_uploads).
  { rewrite Hlights in Hlights'. symmetry.
    exact (Ok_append_trace_inj _ _ _ Hlights'). }
  subst lights.
  assert (Ho : objects = scene_calls (scene w)).
  { rewrite Hrun in Hrun'. symmetry.
    exact (app_inv_head _ _ _ (Ok_append_trace_inj _ _ _ Hrun')). }
  subst objects.
  assert (Hd : draws (scene_calls (scene w))
    = [Plane; Plane; Cylinder; Cylinder; TaperedCylinder; Sphere; Cylinder;
       Cylinder; Cylinder; Sphere] ++ repeat TaperedCylinder 10).
  { rewrite <- draws_key_events, Hkey. reflexivity. }
  split; [exact Hlights |]. split; [exact Hrun |].
  split; [reflexivity |]. split; [reflexivity |].
  split; [exact Hd |].
  split; [rewrite draws_app, Hd; reflexivity |].
  split; [intros textureTag; now apply slot_of_found |].
  split; [intros i m; apply material_state_first_match |].
  split.
  { intros Hmats.
    assert (Hat' : forall i m, [marble; gold; granite; wall; lamp] !! i = Some m ->
              (forall j m', (j < i)%nat ->
                 [marble; gold; granite; wall; lamp] !! j = Some m' ->
                 material_tag m' <> material_tag m) ->
              material_state (scene w) (material_tag m) = material_uploads m).
    { rewrite <- Hmats. intros i m. apply material_state_first_match. }
    assert (Hpreset : forall i m materialTag,
              [marble; gold; granite; wall; lamp] !! i = Some m ->
              material_tag m = materialTag ->
              (forall j m', (j < i)%nat ->
                 [marble; gold; granite; wall; lamp] !! j = Some m' ->
                 material_tag m' <> materialTag) ->
              material_state (scene w) materialTag = material_uploads m).
    { intros i m materialTag Hm <-. now apply Hat'. }
    cbn [map].
    rewrite (Hpreset 3%nat wall "wall" eq_refl eq_refl),
      (Hpreset 2%nat granite "granite" eq_refl eq_refl),
      (Hpreset 4%nat lamp "lamp" eq_refl eq_refl),
      (Hpreset 1%nat gold "gold" eq_refl eq_refl),
      (Hpreset 0%nat marble "marble" eq_refl eq_refl); [reflexivity | | | | |];
      intros j m' Hj Hm';
      repeat (destruct j as [|j]; [inversion Hm'; discriminate |]); lia. }
  split.
  { intros Hne.
    assert (Hmat : forall materialTag, material_state (scene w) materialTag <> []).
    { intros materialTag.
      destruct (material_state_uploads (scene w) materialTag Hne)
        as (material & _ & ->). discriminate. }
    unfold fixed_object_states.
    repeat (apply Forall_cons; split;
            [first [apply Hmat | discriminate
                   | intros H; apply app_eq_nil in H; destruct H as [H _];
                     now apply Hmat in H] |]).
    apply Forall_nil_2. }
  split; [exact Hkey |].
  split.
  { intros flag. rewrite <- draw_modes_key_events, Hkey. reflexivity. }
  vm_compute. reflexivity.
Qed.

End FrameCalls.

(** The theorem on a frame of the sample world: the leaf texture is in
    slot 2 and the joint is drawn with the values of the preset "gold". *)
Lemma RenderScene_witness :
  m_pShaderManager (scene (@sample_world sample_glm ShaderManagerAt))
  = ShaderManagerAt /\
  registry_ok (scene (@sample_world sample_glm ShaderManagerAt)) /\
  @RenderScene sample_glm sample_host (sample_world ShaderManagerAt)
  = Ok (tt, append_trace (sample_world ShaderManagerAt)
              (light_uploads
               ++ @scene_calls sample_glm sample_host
                    (sample_scene ShaderManagerAt))) /\
  length (draws (@light_uploads sample_glm
                 ++ @scene_calls sample_glm sample_host
                      (sample_scene ShaderManagerAt))) = 20%nat /\
  FindTextureSlot (sample_scene ShaderManagerAt) "leaf" = Ok 2 /\
  @material_state sample_glm sample_host (sample_scene ShaderManagerAt) "gold"
  = material_uploads gold.
Proof.
  split; [reflexivity |]. split; [apply sample_scene_ok |].
  destruct (@RenderScene_draws_the_fixed_scene sample_glm sample_host
              (sample_world ShaderManagerAt) eq_refl
              (sample_scene_ok ShaderManagerAt))
    as (_ & Hrun & _ & _ & _ & Hcount & Hslot & Hmat & _).
  split; [exact Hrun |]. split; [exact Hcount |].
  split; [exact (eq_trans (Hslot "leaf") eq_refl) |].
  apply (Hmat 1%nat gold eq_refl).
  intros j m' Hj Hm'. destruct j as [|j]; [| lia].
  inversion Hm'. discriminate.
Defined.

Section PreparedScene.

Context {glm : GlmLib} {host : Host}.

(** X12.  Materials defined by [LoadSceneMaterials] are the ones found.
    On an object in which no material carries the tag of one of the five
    presets, that preset is what [FindMaterial] copies out for its tag
    after [LoadSceneMaterials]. *)
Theorem LoadSceneMaterials_then_FindMaterial
    (w : World) (preset material : OBJECT_MATERIAL) :
  In preset [marble; gold; granite; wall; lamp] ->
  (forall (j : nat) (m : OBJECT_MATERIAL),
     m_objectMaterials (scene w) !! j = Some m ->
     material_tag m <> material_tag preset) ->
  exists w' : World,
    LoadSceneMaterials w = Ok (tt, w') /\
    FindMaterial (scene w') (material_tag preset) material
    = Ok (true, copy_material preset material).
Proof.
  intros Hin Hold. eexists. split; [apply LoadSceneMaterials_run |].
  cbn [scene m_objectMaterials].
  set (old := m_objectMaterials (scene w)) in *.
  assert (Hk : exists k : nat,
            [marble; gold; granite; wall; lamp] !! k = Some preset /\
            forall (j : nat) (m : OBJECT_MATERIAL), (j < k)%nat ->
              [marble; gold; granite; wall; lamp] !! j = Some m ->
              material_tag m <> material_tag preset).
  { destruct Hin as [<- | [<- | [<- | [<- | [<- | []]]]]];
      [exists 0%nat | exists 1%nat | exists 2%nat | exists 3%nat | exists 4%nat];
      (split; [reflexivity |]); intros j m Hj Hm;
      (destruct j as [|[|[|[|j]]]]; try lia); inversion Hm; discriminate. }
  destruct Hk as (k & Hpreset & Hbefore).
  apply (FindMaterial_present _ _ _ (length old + k)%nat preset).
  - cbn [m_objectMaterials]. rewrite lookup_app_r by lia.
    replace (length old + k - length old)%nat with k by lia. exact Hpreset.
  - reflexivity.
  - cbn [m_objectMaterials]. intros j m Hj Hm.
    destruct (decide (j < length old)%nat) as [Hlt | Hge].
    + rewrite lookup_app_l in Hm by exact Hlt. exact (Hold j m Hm).
    + rewrite lookup_app_r in Hm by lia.
      apply (Hbefore (j - length old)%nat m); [lia | exact Hm].
Qed.

(** One [CreateGLTexture] call keeps the registered handles different
    from one another and in use. *)
Lemma CreateGLTexture_handles (w : World) (filename t : string) :
  FreshNames host ->
  registry_ok (scene w) -> m_loadedTextures (scene w) < TEXTURE_CAPACITY ->
  handles_ok w ->
  forall (b : bool) (w' : World),
    CreateGLTexture filename t w = Ok (b, w') -> handles_ok w'.
Proof.
  intros Hfresh Hok Hroom [Hdup Huse] b w' Hrun.
  destruct (stbi_load filename) as [image|] eqn:Hload.
  - destruct (Z.eq_dec (colorChannels image) 3) as [H3|H3];
      [| destruct (Z.eq_dec (colorChannels image) 4) as [H4|H4]].
    1, 2: rewrite (CreateGLTexture_registers w filename t image Hload) in Hrun
        by auto;
      inversion Hrun; subst b w'; clear Hrun; unfold handles_ok;
      cbn [scene gl_names]; rewrite registered_after_insert by assumption;
      rewrite map_app; cbn [map ID]; split;
      [ apply NoDup_app; split; [exact Hdup |]; split;
        [ intros x Hx Hnew; apply list_elem_of_In in Hx;
          apply list_elem_of_In in Hnew; destruct Hnew as [<- | []];
          exact (Hfresh _ (Huse _ Hx))
        | apply NoDup_ListNoDup; repeat constructor; intros [] ]
      | intros name Hname; apply in_app_or in Hname;
        destruct Hname as [Hname | [<- | []]];
        [right; now apply Huse | now left] ].
    rewrite (CreateGLTexture_not_implemented w filename t image Hload H3 H4)
      in Hrun.
    inversion Hrun; subst b w'. split; [exact Hdup |].
    intros name Hname. right. now apply Huse.
  - rewrite (CreateGLTexture_could_not_load w filename t Hload) in Hrun.
    inversion Hrun; subst b w'. split; [exact Hdup | exact Huse].
Qed.

Lemma load_textures_handles (Hfresh : FreshNames host)
    (calls : list (string * string)) :
  forall w w' : World,
    registry_ok (scene w) ->
    m_loadedTextures (scene w) + Z.of_nat (length calls) <= TEXTURE_CAPACITY ->
    handles_ok w ->
    load_textures calls w = Ok (tt, w') -> handles_ok w'.
Proof.
  induction calls as [|[filename t] calls IH]; intros w w' Hok Hroom Hhandles Hrun.
  - inversion Hrun; subst w'. exact Hhandles.
  - simpl length in Hroom.
    destruct (CreateGLTexture_step w filename t Hok) as
      (b & w1 & ev1 & Hrun1 & Hok1 & _ & _ & _ & Hc1 & _); [lia |].
    simpl in Hrun. unfold bind at 1 in Hrun. rewrite Hrun1 in Hrun.
    apply (IH w1 w' Hok1); [| | exact Hrun].
    + rewrite Hc1. destruct (loads filename); lia.
    + apply (CreateGLTexture_handles w filename t Hfresh Hok) with (b := b);
        [lia | exact Hhandles | exact Hrun1].
Qed.

(** X13.  [LoadSceneTextures] keeps the registered handles apart.  On a
    registry with room for the eight textures whose registered handles
    are pairwise different and in use, it returns with the registered
    handles, old and new, still pairwise different and in use: no two
    registered textures share a handle, whichever files load. *)
Theorem LoadSceneTextures_handles_distinct (w : World) :
  FreshNames host ->
  registry_ok (scene w) ->
  m_loadedTextures (scene w) + 8 <= TEXTURE_CAPACITY ->
  NoDup (map ID (registered (scene w))) ->
  (forall name : Z, In name (map ID (registered (scene w))) -> In name (gl_names w)) ->
  exists w' : World,
    LoadSceneTextures w = Ok (tt, w') /\
    NoDup (map ID (registered (scene w'))) /\
    (forall name : Z, In name (map ID (registered (scene w'))) ->
       In name (gl_names w')) /\
    forall (i j : nat) (e e' : TEXTURE_INFO),
      registered (scene w') !! i = Some e ->
      registered (scene w') !! j = Some e' ->
      ID e = ID e' -> i = j.
Proof.
  intros Hfresh Hok Hroom Hdup Huse.
  destruct (load_textures_run scene_textures w Hok) as
    (w1 & ev1 & Hrun1 & Hok1 & _); [simpl length; lia |].
  destruct (BindGLTextures_run w1 Hok1) as (ev2 & Hrun2 & _).
  assert (Hhandles : handles_ok w1).
  { apply (load_textures_handles Hfresh scene_textures w w1 Hok);
      [simpl length; lia | split; assumption | exact Hrun1]. }
  destruct Hhandles as [Hdup1 Huse1].
  exists (append_trace w1 ev2). split.
  { rewrite LoadSceneTextures_unfold. unfold bind. rewrite Hrun1. exact Hrun2. }
  cbn [scene gl_names append_trace].
  split; [exact Hdup1 |]. split; [exact Huse1 |].
  intros i j e e' He He' Heq.
  apply (NoDup_lookup _ i j (ID e) Hdup1);
    change (map ID ?l) with (ID <$> l); rewrite list_lookup_fmap.
  - now rewrite He.
  - rewrite He'. simpl. now rewrite Heq.
Qed.

Lemma loaded_tags_In (calls : list (string * string)) :
  NoDup (map snd calls) ->
  forall filename t : string,
    In (filename, t) calls ->
    (In t (loaded_tags calls) <-> loads filename = true).
Proof.
  induction calls as [|[f0 t0] calls IH]; intros Hdup filename t Hin;
    [destruct Hin |].
  change (map snd ((f0, t0) :: calls)) with (t0 :: map snd calls) in Hdup.
  apply NoDup_cons in Hdup. destruct Hdup as [Hfirst Hdup].
  assert (Hsub : forall x, In x (loaded_tags calls) -> In x (map snd calls)).
  { intros x Hx. apply list_elem_of_In. apply list_elem_of_In in Hx.
    eapply elem_of_sublist; [exact Hx | apply loaded_tags_sublist]. }
  unfold loaded_tags in *. simpl List.filter.
  destruct Hin as [Heq | Hin].
  - inversion Heq; subst f0 t0. destruct (loads filename) eqn:Hl; simpl.
    + split; [reflexivity | now left].
    + split; [| discriminate]. intros Hx. exfalso. apply Hfirst.
      apply list_elem_of_In. now apply Hsub.
  - assert (Hne : t0 <> t).
    { intros ->. apply Hfirst. apply list_elem_of_In.
      change t with (snd (filename, t)). now apply in_map. }
    destruct (loads f0); simpl.
    + rewrite <- (IH Hdup filename t Hin). split; [| now right].
      intros [H | H]; [contradiction | exact H].
    + exact (IH Hdup filename t Hin).
Qed.

(** X14.  A scene texture whose file does not register is looked up as -1.
    After [LoadSceneTextures] on a newly constructed object, the
    registered tags are the tags of the files that decoded with three or
    four channels, in the order of the calls, and for each of the eight
    calls [FindTextureSlot] returns -1 for its tag exactly when its file
    did not register. *)
Theorem LoadSceneTextures_missing_file_not_found (p : ShaderManagerPtr) (junk : Z) :
  exists w' : World,
    LoadSceneTextures (initial_world p junk) = Ok (tt, w') /\
    registered_tags (scene w') = loaded_tags scene_textures /\
    forall filename t : string,
      In (filename, t) scene_textures ->
      (FindTextureSlot (scene w') t = Ok (-1) <-> loads filename = false).
Proof.
  destruct (LoadSceneTextures_run (initial_world p junk) (initial_world_ok p junk))
    as (w' & ev & Hrun & Hok & _ & _ & Htags & _);
    [unfold TEXTURE_CAPACITY; simpl; lia |].
  change (registered_tags (scene (initial_world p junk))) with (@nil string)
    in Htags.
  simpl app in Htags.
  exists w'. split; [exact Hrun |]. split; [exact Htags |].
  intros filename t Hin.
  pose proof (loaded_tags_In scene_textures scene_tags_distinct filename t Hin)
    as Hiff.
  rewrite <- Htags in Hiff.
  split.
  - intros Hslot. destruct (loads filename) eqn:Hl; [| reflexivity].
    exfalso. pose proof (proj2 Hiff eq_refl) as Hreg.
    destruct (registered_tags_In (scene w') t Hok Hreg) as (j & e & Hj & He & Htag).
    destruct (first_match_dec (scene w') t Hok)
      as [Hmiss | (i & e0 & Hi & He0 & Htag0 & Hfirst)].
    + exact (Hmiss j e Hj He Htag).
    + destruct (FindTexture_hit (scene w') t i e0 Hok Hi He0 Htag0 Hfirst)
        as [_ Hhit].
      rewrite Hhit in Hslot. inversion Hslot. lia.
  - intros Hl. apply (FindTextureSlot_unregistered _ _ Hok).
    intros Hreg. apply Hiff in Hreg. congruence.
Qed.

End PreparedScene.

(** X12 and X13 at the newly constructed object of the sample
    environment. *)
Lemma materials_round_trip_witness :
  In gold [marble; gold; granite; wall; lamp] /\
  exists w' : @World sample_glm,
    @LoadSceneMaterials sample_glm (initial_world NULL 0) = Ok (tt, w') /\
    FindMaterial (scene w') "gold" lamp = Ok (true, copy_material gold lamp).
Proof.
  split; [right; now left |].
  apply (@LoadSceneMaterials_then_FindMaterial sample_glm
           (initial_world NULL 0) gold lamp).
  - right. now left.
  - intros j m Hm. destruct j; discriminate Hm.
Defined.

Lemma handles_distinct_witness :
  FreshNames sample_host /\
  registry_ok (scene (@initial_world sample_glm NULL 0)) /\
  exists w' : @World sample_glm,
    @LoadSceneTextures sample_glm sample_host (initial_world NULL 0) = Ok (tt, w') /\
    NoDup (map ID (registered (scene w'))).
Proof.
  split; [exact sample_host_fresh |]. split; [exact sample_initial_ok |].
  destruct (@LoadSceneTextures_handles_distinct sample_glm sample_host
              (initial_world NULL 0) sample_host_fresh sample_initial_ok
              sample_initial_room)
    as (w' & Hrun & Hdup & _).
  - apply NoDup_nil_2.
  - intros name [].
  - exists w'. split; [exact Hrun | exact Hdup].
Defined.

Section AppendOnly.

Context {glm : GlmLib} {host : Host}.

Lemma lookup_after_insert (s : SceneManager) (e : TEXTURE_INFO) (q : string) :
  registry_ok s -> m_loadedTextures s < TEXTURE_CAPACITY ->
  In q (registered_tags s) ->
  FindTextureSlot
    (registry_with s (m_loadedTextures s + 1)
       (<[Z.to_nat (m_loadedTextures s) := e]> (m_textureIDs s))) q
  = FindTextureSlot s q /\
  FindTextureID
    (registry_with s (m_loadedTextures s + 1)
       (<[Z.to_nat (m_loadedTextures s) := e]> (m_textureIDs s))) q
  = FindTextureID s q.
Proof.
  intros Hok Hroom Hin.
  pose proof (registry_ok_after_insert s e Hok Hroom) as Hok'.
  destruct (first_match_dec s q Hok)
    as [Hmiss | (i & e0 & Hi & He0 & Hq & Hfirst)].
  - exfalso. destruct (registered_tags_In s q Hok Hin) as (j & e1 & Hj & He1 & Ht).
    exact (Hmiss j e1 Hj He1 Ht).
  - destruct (FindTexture_hit s q i e0 Hok Hi He0 Hq Hfirst) as [HID Hslot].
    destruct (FindTexture_hit _ q i e0 Hok') as [HID' Hslot'];
      [simpl; lia
      | simpl; rewrite list_lookup_insert_ne by lia; exact He0
      | exact Hq | |].
    { intros j e' Hj He'. simpl in He'.
      rewrite list_lookup_insert_ne in He' by lia.
      exact (Hfirst j e' Hj He'). }
    split; congruence.
Qed.

Lemma CreateGLTexture_keeps_lookups (w : World) (filename t q : string) :
  registry_ok (scene w) -> m_loadedTextures (scene w) < TEXTURE_CAPACITY ->
  In q (registered_tags (scene w)) ->
  forall (b : bool) (w' : World),
    CreateGLTexture filename t w = Ok (b, w') ->
    In q (registered_tags (scene w')) /\
    FindTextureSlot (scene w') q = FindTextureSlot (scene w) q /\
    FindTextureID (scene w') q = FindTextureID (scene w) q.
Proof.
  intros Hok Hroom Hin b w' Hrun.
  destruct (stbi_load filename) as [image|] eqn:Hload.
  - destruct (Z.eq_dec (colorChannels image) 3) as [H3|H3];
      [| destruct (Z.eq_dec (colorChannels image) 4) as [H4|H4]].
    1, 2: rewrite (CreateGLTexture_registers w filename t image Hload) in Hrun
        by auto;
      inversion Hrun; subst b w'; clear Hrun; cbn [scene];
      (split;
       [ unfold registered_tags; rewrite registered_after_insert by assumption;
         rewrite map_app; apply in_or_app; now left
       | now apply lookup_after_insert ]).
    rewrite (CreateGLTexture_not_implemented w filename t image Hload H3 H4)
      in Hrun.
    inversion Hrun; subst b w'. auto.
  - rewrite (CreateGLTexture_could_not_load w filename t Hload) in Hrun.
    inversion Hrun; subst b w'. auto.
Qed.

Lemma load_textures_keeps_lookups (calls : list (string * string)) (q : string) :
  forall w w' : World,
    registry_ok (scene w) ->
    m_loadedTextures (scene w) + Z.of_nat (length calls) <= TEXTURE_CAPACITY ->
    In q (registered_tags (scene w)) ->
    load_textures calls w = Ok (tt, w') ->
    FindTextureSlot (scene w') q = FindTextureSlot (scene w) q /\
    FindTextureID (scene w') q = FindTextureID (scene w) q.
Proof.
  induction calls as [|[filename t] calls IH]; intros w w' Hok Hroom Hin Hrun.
  - inversion Hrun; subst w'. auto.
  - simpl length in Hroom.
    destruct (CreateGLTexture_step w filename t Hok) as
      (b & w1 & ev1 & Hrun1 & Hok1 & _ & _ & _ & Hc1 & _); [lia |].
    simpl in Hrun. unfold bind at 1 in Hrun. rewrite Hrun1 in Hrun.
    destruct (CreateGLTexture_keeps_lookups w filename t q Hok) with (b := b)
        (w' := w1) as (Hin1 & Hslot1 & HID1); [lia | exact Hin | exact Hrun1 |].
    destruct (IH w1 w' Hok1) as [Hslot HID]; [| exact Hin1 | exact Hrun |].
    + rewrite Hc1. destruct (loads filename); lia.
    + split; congruence.
Qed.

(** X15.  Loading is append-only for lookups.  On a registry with room
    for the eight scene textures, every tag registered before
    [LoadSceneTextures] is found afterwards in the same slot with the
    same handle, also when the call registers that tag a second time:
    the earlier entry is the one the scan meets first. *)
Theorem LoadSceneTextures_keeps_earlier_lookups (w : World) (q : string) :
  registry_ok (scene w) ->
  m_loadedTextures (scene w) + 8 <= TEXTURE_CAPACITY ->
  In q (registered_tags (scene w)) ->
  exists w' : World,
    LoadSceneTextures w = Ok (tt, w') /\
    FindTextureSlot (scene w') q = FindTextureSlot (scene w) q /\
    FindTextureID (scene w') q = FindTextureID (scene w) q.
Proof.
  intros Hok Hroom Hin.
  destruct (load_textures_run scene_textures w Hok) as
    (w1 & ev1 & Hrun1 & Hok1 & _); [simpl length; lia |].
  destruct (BindGLTextures_run w1 Hok1) as (ev2 & Hrun2 & _).
  exists (append_trace w1 ev2). split.
  { rewrite LoadSceneTextures_unfold. unfold bind. rewrite Hrun1. exact Hrun2. }
  cbn [scene append_trace].
  apply (load_textures_keeps_lookups scene_textures q w w1 Hok);
    [simpl length; lia | exact Hin | exact Hrun1].
Qed.

End AppendOnly.

Lemma sample_world_room_for_scene :
  m_loadedTextures (scene (@sample_world sample_glm NULL)) + 8 <= TEXTURE_CAPACITY.
Proof. unfold TEXTURE_CAPACITY. simpl. lia. Defined.

(** X15 at the sample world, where "wood" is registered already and the
    script registers it again. *)
Lemma earlier_lookups_witness :
  registry_ok (scene (@sample_world sample_glm NULL)) /\
  m_loadedTextures (scene (@sample_world sample_glm NULL)) + 8 <= TEXTURE_CAPACITY /\
  In "wood" (registered_tags (scene (@sample_world sample_glm NULL))) /\
  exists w' : @World sample_glm,
    @LoadSceneTextures sample_glm sample_host (sample_world NULL) = Ok (tt, w') /\
    FindTextureSlot (scene w') "wood" = Ok 0.
Proof.
  split; [apply sample_scene_ok |]. split; [exact sample_world_room_for_scene |].
  split; [now left |].
  destruct (@LoadSceneTextures_keeps_earlier_lookups sample_glm sample_host
              (sample_world NULL) "wood" (sample_scene_ok NULL)
              sample_world_room_for_scene (or_introl eq_refl))
    as (w' & Hrun & Hslot & _).
  exists w'. split; [exact Hrun | exact Hslot].
Defined.

Section LoadPhase.

Context {glm : GlmLib} {host : Host}.

Lemma loaded_files_app (a b : list Event) :
  loaded_files (a ++ b) = loaded_files a ++ loaded_files b.
Proof. apply flat_map_app. Qed.

(** Whatever the image, [CreateGLTexture] passes its file to [stbi_load]
    once. *)
Lemma CreateGLTexture_files (w : World) (filename t : string)
    (b : bool) (w' : World) :
  registry_ok (scene w) -> m_loadedTextures (scene w) < TEXTURE_CAPACITY ->
  CreateGLTexture filename t w = Ok (b, w') ->
  exists events : list Event,
    trace w' = trace w ++ events /\ loaded_files events = [filename].
Proof.
  intros Hok Hroom Hrun.
  destruct (stbi_load filename) as [image|] eqn:Hload.
  - destruct (decide (colorChannels image = 3 \/ colorChannels image = 4))
      as [Hch|Hch].
    + rewrite (CreateGLTexture_registers w filename t image Hload Hch Hok Hroom)
        in Hrun.
      inversion Hrun; subst b w'. eexists. split; reflexivity.
    + rewrite (CreateGLTexture_not_implemented w filename t image Hload)
        in Hrun by tauto.
      inversion Hrun; subst b w'. eexists. split; reflexivity.
  - rewrite (CreateGLTexture_could_not_load w filename t Hload) in Hrun.
    inversion Hrun; subst b w'. eexists. split; reflexivity.
Qed.

Lemma load_textures_files (calls : list (string * string)) :
  forall w w' : World,
    registry_ok (scene w) ->
    m_loadedTextures (scene w) + Z.of_nat (length calls) <= TEXTURE_CAPACITY ->
    load_textures calls w = Ok (tt, w') ->
    exists events : list Event,
      trace w' = trace w ++ events /\ loaded_files events = map fst calls.
Proof.
  induction calls as [|[filename t] calls IH]; intros w w' Hok Hroom Hrun.
  - inversion Hrun; subst w'. exists []. now rewrite app_nil_r.
  - simpl length in Hroom.
    destruct (CreateGLTexture_step w filename t Hok) as
      (b & w1 & ev1 & Hrun1 & Hok1 & _ & _ & _ & Hc1 & _); [lia |].
    destruct (CreateGLTexture_files w filename t b w1 Hok) as (e1 & Htr1 & Hf1);
      [lia | exact Hrun1 |].
    simpl in Hrun. unfold bind at 1 in Hrun. rewrite Hrun1 in Hrun.
    destruct (IH w1 w' Hok1) as (e2 & Htr2 & Hf2); [| exact Hrun |].
    { rewrite Hc1. destruct (loads filename); lia. }
    exists (e1 ++ e2). split.
    + rewrite Htr2, Htr1. now rewrite app_assoc.
    + rewrite loaded_files_app, Hf1, Hf2. reflexivity.
Qed.

Lemma BindGLTextures_calls (w : World) :
  registry_ok (scene w) ->
  BindGLTextures w = Ok (tt, append_trace w (bind_calls 0 (registered (scene w)))).
Proof.
  intros [Hlen [Hlo Hhi]].
  unfold BindGLTextures. unfold bind at 1, get_scene at 1.
  rewrite BindGLTextures_loop_calls by (try exact Hlen; lia).
  reflexivity.
Qed.

(** [LoadSceneTextures], call by call: the eight loads, then the binding
    of what is registered. *)
Lemma LoadSceneTextures_calls (w : World) :
  registry_ok (scene w) ->
  m_loadedTextures (scene w) + 8 <= TEXTURE_CAPACITY ->
  exists (w1 : World) (texture_loads : list Event),
    LoadSceneTextures w = Ok (tt, w1) /\
    trace w1
    = trace w ++ texture_loads ++ bind_calls 0 (registered (scene w1)) /\
    loaded_files texture_loads = map fst scene_textures /\
    forallb is_texture_call
      (texture_loads ++ bind_calls 0 (registered (scene w1))) = true /\
    registry_ok (scene w1) /\
    m_objectMaterials (scene w1) = m_objectMaterials (scene w) /\
    registered_tags (scene w1)
    = registered_tags (scene w) ++ loaded_tags scene_textures.
Proof.
  intros Hok Hroom.
  destruct (load_textures_run scene_textures w Hok) as
    (w0 & ev & Hrun0 & Hok0 & _ & Hmat0 & Htags0 & _ & Htr0 & _ & Hcalls0);
    [simpl length; lia |].
  destruct (load_textures_files scene_textures w w0 Hok) as (ev' & Htr' & Hfiles);
    [simpl length; lia | exact Hrun0 |].
  assert (Hev : ev' = ev).
  { rewrite Htr0 in Htr'. now apply app_inv_head in Htr'. }
  subst ev'.
  destruct (BindGLTextures_run w0 Hok0) as (bv & Hbind & Hbcalls & _).
  pose proof (BindGLTextures_calls w0 Hok0) as Hbind'.
  assert (Hbv : bv = bind_calls 0 (registered (scene w0))).
  { rewrite Hbind' in Hbind. symmetry.
    apply (append_trace_inj w0).
    exact (f_equal (fun r => match r with Ok (_, w') => w' | Crash _ => w0 end)
             Hbind). }
  subst bv.
  exists (append_trace w0 (bind_calls 0 (registered (scene w0)))), ev.
  split.
  { rewrite LoadSceneTextures_unfold. unfold bind. rewrite Hrun0. exact Hbind'. }
  simpl scene. simpl trace.
  split; [rewrite Htr0; now rewrite app_assoc |].
  split; [exact Hfiles |].
  split; [now apply forallb_texture_call_app |].
  split; [exact Hok0 |]. split; [exact Hmat0 | exact Htags0].
Qed.

(** C7.  On a registry with room for the eight scene textures, as the
    newly constructed one has, [PrepareScene] returns, and the calls it
    has made are, in this order: those of [LoadSceneTextures], which are
    the loads of the eight scene files in the order wood, wall, pot, leaf,
    lamp, marble, granite, gold and then the binding of every registered
    handle, all of them calls to the image decoder, the log and OpenGL;
    then the five [push_back] calls of [LoadSceneMaterials]; then the
    nine mesh loads plane, box, cone, prism, pyramid, sphere, torus,
    tapered cylinder, cylinder, each once.  No draw call is made.  The
    tags of the files that decode are registered and the five presets are
    in the material table. *)
Theorem PrepareScene_loads_in_order (w : World) :
  registry_ok (scene w) ->
  m_loadedTextures (scene w) + 8 <= TEXTURE_CAPACITY ->
  exists (w1 w2 w' : World) (texture_loads calls : list Event),
    LoadSceneTextures w = Ok (tt, w1) /\
    trace w1
    = trace w ++ texture_loads ++ bind_calls 0 (registered (scene w1)) /\
    LoadSceneMaterials w1 = Ok (tt, w2) /\
    trace w2 = trace w1 ++ map E_push_back [marble; gold; granite; wall; lamp] /\
    PrepareScene w = Ok (tt, w') /\
    scene w' = scene w2 /\
    trace w' = trace w ++ calls /\
    calls
    = (texture_loads ++ bind_calls 0 (registered (scene w')))
      ++ map E_push_back [marble; gold; granite; wall; lamp]
      ++ map E_LoadMesh [Plane; Box; Cone; Prism; Pyramid3; Sphere; Torus;
                         TaperedCylinder; Cylinder] /\
    loaded_files texture_loads
    = [ "textures/wood.jpg"; "textures/wall.jpg"; "textures/pot.jpg";
        "textures/leaf.jpg"; "textures/lamp.jpg"; "textures/marble.jpg";
        "textures/granite.jpg"; "textures/gold.jpg" ] /\
    forallb is_texture_call
      (texture_loads ++ bind_calls 0 (registered (scene w'))) = true /\
    loaded_files calls = loaded_files texture_loads /\
    mesh_loads calls
    = [Plane; Box; Cone; Prism; Pyramid3; Sphere; Torus; TaperedCylinder;
       Cylinder] /\
    draws calls = [] /\
    registered_tags (scene w')
    = registered_tags (scene w) ++ loaded_tags scene_textures /\
    m_objectMaterials (scene w')
    = m_objectMaterials (scene w) ++ [marble; gold; granite; wall; lamp].
Proof.
  intros Hok Hroom.
  destruct (LoadSceneTextures_calls w Hok Hroom) as
    (w1 & loads' & Hrun1 & Htr1 & Hfiles & Hcalls & Hok1 & Hmat1 & Htags1).
  pose proof (LoadSceneMaterials_run w1) as Hrun2.
  destruct (texture_calls_no_mesh _ Hcalls) as [Hmesh Hdraws].
  eexists w1, _, _, loads', _.
  split; [exact Hrun1 |]. split; [exact Htr1 |].
  split; [exact Hrun2 |]. split; [reflexivity |].
  split.
  { unfold PrepareScene. unfold bind at 1. rewrite Hrun1.
    unfold bind at 1. rewrite Hrun2.
    unfold bind. repeat rewrite emit_append.
    repeat rewrite append_trace_app. reflexivity. }
  split; [reflexivity |].
  split.
  { cbn [trace append_trace app]. rewrite Htr1.
    repeat rewrite <- app_assoc. reflexivity. }
  cbn [scene append_trace].
  split; [rewrite <- app_assoc; reflexivity |].
  split; [exact Hfiles |]. split; [exact Hcalls |].
  split.
  { rewrite !loaded_files_app.
    assert (Hb : forall entries first,
              loaded_files (bind_calls first entries) = []).
    { induction entries as [|e entries IH]; intros first; [reflexivity |].
      simpl. apply IH. }
    rewrite Hb. cbn. now rewrite !app_nil_r. }
  split.
  { rewrite app_assoc. unfold mesh_loads in *.
    rewrite flat_map_app, Hmesh. reflexivity. }
  split.
  { rewrite app_assoc. unfold draws in *.
    rewrite flat_map_app, Hdraws. reflexivity. }
  split; [exact Htags1 |].
  cbn [m_objectMaterials]. now rewrite Hmat1.
Qed.

End LoadPhase.

(** C7 on the newly constructed object of the sample environment: six of
    the eight files register. *)
Lemma PrepareScene_witness :
  registry_ok (scene (@initial_world sample_glm NULL 0)) /\
  m_loadedTextures (scene (@initial_world sample_glm NULL 0)) + 8
  <= TEXTURE_CAPACITY /\
  exists (w' : @World sample_glm) (texture_loads : list (@Event sample_glm)),
    @PrepareScene sample_glm sample_host (initial_world NULL 0) = Ok (tt, w') /\
    trace w'
    = (texture_loads ++ bind_calls 0 (registered (scene w')))
      ++ map E_push_back [marble; gold; granite; wall; lamp]
      ++ map E_LoadMesh [Plane; Box; Cone; Prism; Pyramid3; Sphere; Torus;
                         TaperedCylinder; Cylinder] /\
    registered_tags (scene w')
    = ["wood"; "wall"; "leaf"; "lamp"; "granite"; "gold"] /\
    m_objectMaterials (scene w') = [marble; gold; granite; wall; lamp].
Proof.
  split; [exact sample_initial_ok |]. split; [exact sample_initial_room |].
  destruct (@PrepareScene_loads_in_order sample_glm sample_host
              (initial_world NULL 0) sample_initial_ok sample_initial_room)
    as (w1 & w2 & w' & loads' & calls & _ & _ & _ & _ & Hrun & _ & Htrace
          & Hcalls & _ & _ & _ & _ & _ & Htags & Hmat).
  exists w', loads'. split; [exact Hrun |].
  split; [rewrite Htrace, Hcalls; reflexivity |].
  split; [rewrite Htags; reflexivity | exact Hmat].
Defined.
